(** * Resume assistant: routing state machine and answer reconciliation

    A shallow embedding of the agent logic of the resume assistant
    (agents/utils.py, agents/resume_builder_state.py,
    agents/create_section_node.py, agents/general_chat_section_routing.py,
    graph_builder.py) together with the properties of its specification.

    Conventions of the embedding.
    - A Python [str] is the [string] of the bytes of its UTF-8 encoding;
      [Py.chars] gives its characters.  [len], [strip], [split], slices,
      [repr] and [json.dumps] follow Python on every text.  [lower] follows
      the case mapping of Unicode 14, but for the final form of the Greek
      sigma, which it does not produce; [repr] prints a code point that is
      not assigned as it is.
    - A value produced by [json.loads] is a [json] term; [json.loads] itself
      is a parameter.  Numbers with a fractional part are not represented.
      The values the code takes from a decision (answers, contents, routes)
      are stored as they come, so an answer slot holds a [json] term.
    - A [dict] whose order is observable (a decoded JSON object, a section
      analysis) is an association list; the dictionaries of the
      conversation state are finite maps.
    - The state object is mutated in place: a computation threads the state,
      and the state reached when an exception is raised is kept.
    - The completion service is an oracle: a program is a tree that asks for
      a reply at each request and continues with any reply.  A request is
      named by the label of its usage report; the prompt and the payload,
      which only feed the request, the printing and the logging are not
      represented, nor are the identifier and the time stamp of a message. *)

From Stdlib Require Import ZArith QArith Ascii Sorted.
From stdpp Require Import base strings gmap list pretty.

Local Open Scope Z_scope.
Local Open Scope nat_scope.

(* ===================================================================== *)
(** * Python text primitives *)
(* ===================================================================== *)

Module Py.

Definition byte (n : N) : ascii := ascii_of_N n.

(** A byte from 128 to 191 continues a character of two to four bytes. *)
Definition is_continuation (c : ascii) : bool :=
  let n := N_of_ascii c in ((128 <=? n) && (n <? 192))%N.

Definition starts_with_continuation (w : string) : bool :=
  match w with
  | String d _ => is_continuation d
  | EmptyString => false
  end.

(** The characters of a text, each as the string of its bytes. *)
Fixpoint chars (s : string) : list string :=
  match s with
  | EmptyString => []
  | String c s' =>
      match chars s' with
      | w :: ws =>
          if starts_with_continuation w then String c w :: ws
          else String c EmptyString :: w :: ws
      | [] => [String c EmptyString]
      end
  end.

(** The text made of a list of characters, or of texts. *)
Fixpoint unchars (l : list string) : string :=
  match l with
  | [] => EmptyString
  | w :: ws => String.append w (unchars ws)
  end.

(** [chr(n)]: the bytes of the character of code point [n]. *)
Definition chr (n : N) : string :=
  (if n <? 128 then String (byte n) EmptyString
   else if n <? 2048 then
     String (byte (192 + n / 64)) (String (byte (128 + n mod 64)) EmptyString)
   else if n <? 65536 then
     String (byte (224 + n / 4096))
       (String (byte (128 + (n / 64) mod 64))
          (String (byte (128 + n mod 64)) EmptyString))
   else
     String (byte (240 + n / 262144))
       (String (byte (128 + (n / 4096) mod 64))
          (String (byte (128 + (n / 64) mod 64))
             (String (byte (128 + n mod 64)) EmptyString))))%N.

(** [ord(w)]: the code point of one character. *)
Definition ord (w : string) : N :=
  match w with
  | String a EmptyString => N_of_ascii a
  | String a (String b EmptyString) =>
      (N_of_ascii a - 192) * 64 + (N_of_ascii b - 128)
  | String a (String b (String c EmptyString)) =>
      (N_of_ascii a - 224) * 4096 + (N_of_ascii b - 128) * 64
      + (N_of_ascii c - 128)
  | String a (String b (String c (String d EmptyString))) =>
      (N_of_ascii a - 240) * 262144 + (N_of_ascii b - 128) * 4096
      + (N_of_ascii c - 128) * 64 + (N_of_ascii d - 128)
  | _ => 0
  end%N.

(** The bytes [w] are the encoding of a code point. *)
Definition well_formed (w : string) : bool := String.eqb (chr (ord w)) w.

(** The code points for which [str.isspace] holds. *)
Definition spaces : list N :=
  [9; 10; 11; 12; 13; 28; 29; 30; 31; 32; 133; 160; 5760; 8192; 8193; 8194;
   8195; 8196; 8197; 8198; 8199; 8200; 8201; 8202; 8232; 8233; 8239; 8287;
   12288]%N.

(** [str.isspace] on one character. *)
Definition isspace (w : string) : bool :=
  existsb (fun n => String.eqb w (chr n)) spaces.

(** The simple lower case mapping of Unicode 14: the code points from the
    first to the last of an entry, in steps of its fourth component, are
    mapped in order to the code points that start at its third component. *)
Definition lower_pairs : list (N * N * N * N) :=
  [
   (65, 90, 97, 1); (192, 214, 224, 1); (216, 222, 248, 1);
   (256, 302, 257, 2); (306, 310, 307, 2); (313, 327, 314, 2);
   (330, 374, 331, 2); (376, 376, 255, 1); (377, 381, 378, 2);
   (385, 385, 595, 1); (386, 388, 387, 2); (390, 390, 596, 1);
   (391, 391, 392, 1); (393, 394, 598, 1); (395, 395, 396, 1);
   (398, 398, 477, 1); (399, 399, 601, 1); (400, 400, 603, 1);
   (401, 401, 402, 1); (403, 403, 608, 1); (404, 404, 611, 1);
   (406, 406, 617, 1); (407, 407, 616, 1); (408, 408, 409, 1);
   (412, 412, 623, 1); (413, 413, 626, 1); (415, 415, 629, 1);
   (416, 420, 417, 2); (422, 422, 640, 1); (423, 423, 424, 1);
   (425, 425, 643, 1); (428, 428, 429, 1); (430, 430, 648, 1);
   (431, 431, 432, 1); (433, 434, 650, 1); (435, 437, 436, 2);
   (439, 439, 658, 1); (440, 440, 441, 1); (444, 444, 445, 1);
   (452, 452, 454, 1); (453, 453, 454, 1); (455, 455, 457, 1);
   (456, 456, 457, 1); (458, 458, 460, 1); (459, 475, 460, 2);
   (478, 494, 479, 2); (497, 497, 499, 1); (498, 500, 499, 2);
   (502, 502, 405, 1); (503, 503, 447, 1); (504, 542, 505, 2);
   (544, 544, 414, 1); (546, 562, 547, 2); (570, 570, 11365, 1);
   (571, 571, 572, 1); (573, 573, 410, 1); (574, 574, 11366, 1);
   (577, 577, 578, 1); (579, 579, 384, 1); (580, 580, 649, 1);
   (581, 581, 652, 1); (582, 590, 583, 2); (880, 882, 881, 2);
   (886, 886, 887, 1); (895, 895, 1011, 1); (902, 902, 940, 1);
   (904, 906, 941, 1); (908, 908, 972, 1); (910, 911, 973, 1);
   (913, 929, 945, 1); (931, 939, 963, 1); (975, 975, 983, 1);
   (984, 1006, 985, 2); (1012, 1012, 952, 1); (1015, 1015, 1016, 1);
   (1017, 1017, 1010, 1); (1018, 1018, 1019, 1); (1021, 1023, 891, 1);
   (1024, 1039, 1104, 1); (1040, 1071, 1072, 1); (1120, 1152, 1121, 2);
   (1162, 1214, 1163, 2); (1216, 1216, 1231, 1); (1217, 1229, 1218, 2);
   (1232, 1326, 1233, 2); (1329, 1366, 1377, 1); (4256, 4293, 11520, 1);
   (4295, 4295, 11559, 1); (4301, 4301, 11565, 1); (5024, 5103, 43888, 1);
   (5104, 5109, 5112, 1); (7312, 7354, 4304, 1); (7357, 7359, 4349, 1);
   (7680, 7828, 7681, 2); (7838, 7838, 223, 1); (7840, 7934, 7841, 2);
   (7944, 7951, 7936, 1); (7960, 7965, 7952, 1); (7976, 7983, 7968, 1);
   (7992, 7999, 7984, 1); (8008, 8013, 8000, 1); (8025, 8031, 8017, 2);
   (8040, 8047, 8032, 1); (8072, 8079, 8064, 1); (8088, 8095, 8080, 1);
   (8104, 8111, 8096, 1); (8120, 8121, 8112, 1); (8122, 8123, 8048, 1);
   (8124, 8124, 8115, 1); (8136, 8139, 8050, 1); (8140, 8140, 8131, 1);
   (8152, 8153, 8144, 1); (8154, 8155, 8054, 1); (8168, 8169, 8160, 1);
   (8170, 8171, 8058, 1); (8172, 8172, 8165, 1); (8184, 8185, 8056, 1);
   (8186, 8187, 8060, 1); (8188, 8188, 8179, 1); (8486, 8486, 969, 1);
   (8490, 8490, 107, 1); (8491, 8491, 229, 1); (8498, 8498, 8526, 1);
   (8544, 8559, 8560, 1); (8579, 8579, 8580, 1); (9398, 9423, 9424, 1);
   (11264, 11311, 11312, 1); (11360, 11360, 11361, 1); (11362, 11362, 619, 1);
   (11363, 11363, 7549, 1); (11364, 11364, 637, 1); (11367, 11371, 11368, 2);
   (11373, 11373, 593, 1); (11374, 11374, 625, 1); (11375, 11375, 592, 1);
   (11376, 11376, 594, 1); (11378, 11378, 11379, 1); (11381, 11381, 11382, 1);
   (11390, 11391, 575, 1); (11392, 11490, 11393, 2); (11499, 11501, 11500, 2);
   (11506, 11506, 11507, 1); (42560, 42604, 42561, 2); (42624, 42650, 42625, 2);
   (42786, 42798, 42787, 2); (42802, 42862, 42803, 2); (42873, 42875, 42874, 2);
   (42877, 42877, 7545, 1); (42878, 42886, 42879, 2); (42891, 42891, 42892, 1);
   (42893, 42893, 613, 1); (42896, 42898, 42897, 2); (42902, 42920, 42903, 2);
   (42922, 42922, 614, 1); (42923, 42923, 604, 1); (42924, 42924, 609, 1);
   (42925, 42925, 620, 1); (42926, 42926, 618, 1); (42928, 42928, 670, 1);
   (42929, 42929, 647, 1); (42930, 42930, 669, 1); (42931, 42931, 43859, 1);
   (42932, 42946, 42933, 2); (42948, 42948, 42900, 1); (42949, 42949, 642, 1);
   (42950, 42950, 7566, 1); (42951, 42953, 42952, 2); (42960, 42960, 42961, 1);
   (42966, 42968, 42967, 2); (42997, 42997, 42998, 1); (65313, 65338, 65345, 1);
   (66560, 66599, 66600, 1); (66736, 66771, 66776, 1); (66928, 66938, 66967, 1);
   (66940, 66954, 66979, 1); (66956, 66962, 66995, 1); (66964, 66965, 67003, 1);
   (68736, 68786, 68800, 1); (71840, 71871, 71872, 1); (93760, 93791, 93792, 1);
   (125184, 125217, 125218, 1)
  ]%N.

Definition lower_code (n : N) : N :=
  match List.find (fun '(a, b, _, k) =>
                     ((a <=? n) && (n <=? b) && ((n - a) mod k =? 0))%N)
                  lower_pairs with
  | Some (a, _, t, _) => (t + (n - a))%N
  | None => n
  end.

(** [str.lower] on one character; the capital I with a dot is the one
    character whose lower case has two code points. *)
Definition lower_char (w : string) : string :=
  let n := ord w in
  if negb (well_formed w) then w
  else if (n =? 304)%N then String.append (chr 105) (chr 775)
  else chr (lower_code n).

(** [s.lower()] *)
Definition lower (s : string) : string := unchars (lower_char <$> chars s).

Definition is_empty (s : string) : bool :=
  match s with EmptyString => true | String _ _ => false end.

Fixpoint drop_spaces (l : list string) : list string :=
  match l with
  | w :: ws => if isspace w then drop_spaces ws else l
  | [] => []
  end.

Definition lstrip (s : string) : string := unchars (drop_spaces (chars s)).

Definition rstrip (s : string) : string :=
  unchars (rev (drop_spaces (rev (chars s)))).

(** [s.strip()] *)
Definition strip (s : string) : string :=
  unchars (rev (drop_spaces (rev (drop_spaces (chars s))))).

(** The words of a list of characters; [cur] is the word being read. *)
Fixpoint words (cur : string) (l : list string) : list string :=
  match l with
  | [] => if is_empty cur then [] else [cur]
  | w :: ws =>
      if isspace w then
        if is_empty cur then words EmptyString ws
        else cur :: words EmptyString ws
      else words (String.append cur w) ws
  end.

(** [s.split()]: maximal runs of characters that are not white space. *)
Definition split (s : string) : list string := words EmptyString (chars s).

(** [sub in s] on strings. *)
Fixpoint contains (sub s : string) : bool :=
  if String.prefix sub s then true
  else match s with
       | EmptyString => false
       | String _ s' => contains sub s'
       end.

(** The first [n] bytes of [s]. *)
Fixpoint slice_to (n : nat) (s : string) : string :=
  match n, s with
  | S n', String c s' => String c (slice_to n' s')
  | _, _ => EmptyString
  end.

(** [s[:n]]: the first [n] characters. *)
Definition first_chars (n : nat) (s : string) : string :=
  unchars (take n (chars s)).

(** [len(s)] *)
Definition len (s : string) : nat := length (chars s).

(** [sep.join(l)] *)
Definition join (sep : string) (l : list string) : string :=
  String.concat sep l.

(** [any(p in t for p in pats)] *)
Definition any_in (pats : list string) (t : string) : bool :=
  existsb (fun p => contains p t) pats.

Definition hex_digit (n : N) : ascii :=
  (if n <? 10 then byte (48 + n) else byte (87 + n))%N.

(** [n] written with the given number of hexadecimal digits. *)
Fixpoint hex (digits : nat) (n : N) : string :=
  match digits with
  | O => EmptyString
  | S d =>
      String.append (hex d (n / 16)%N)
        (String (hex_digit (n mod 16)%N) EmptyString)
  end.

Definition quote : ascii := ascii_of_nat 34.
Definition apostrophe : ascii := ascii_of_nat 39.
Definition backslash : ascii := ascii_of_nat 92.

Fixpoint has_char (c : ascii) (s : string) : bool :=
  match s with
  | EmptyString => false
  | String d s' => if Ascii.eqb c d then true else has_char c s'
  end.

(** The assigned code points that [str.isprintable] rejects (Unicode 14):
    controls, separators other than the space, format characters,
    surrogates and private use. *)
Definition not_printable : list (N * N) :=
  [
   (0, 31); (127, 160); (173, 173); (1536, 1541);
   (1564, 1564); (1757, 1757); (1807, 1807); (2192, 2193);
   (2274, 2274); (5760, 5760); (6158, 6158); (8192, 8207);
   (8232, 8239); (8287, 8292); (8294, 8303); (12288, 12288);
   (55296, 63743); (65279, 65279); (65529, 65531); (69821, 69821);
   (69837, 69837); (78896, 78904); (113824, 113827); (119155, 119162);
   (917505, 917505); (917536, 917631); (983040, 1048573); (1048576, 1114109)
  ]%N.

(** [str.isprintable] on one character. *)
Definition isprintable (w : string) : bool :=
  let n := ord w in
  well_formed w
  && negb (existsb (fun '(a, b) => ((a <=? n) && (n <=? b))%N) not_printable).

(** One character of [repr(s)], for the enclosing quote [q]. *)
Definition repr_char (q : ascii) (w : string) : string :=
  let n := ord w in
  if String.eqb w (String q EmptyString)
     || String.eqb w (String backslash EmptyString)
  then String backslash w
  else if (n =? 9)%N then String backslash "t"
  else if (n =? 10)%N then String backslash "n"
  else if (n =? 13)%N then String backslash "r"
  else if isprintable w then w
  else if (n <? 256)%N then String backslash (String "x"%char (hex 2 n))
  else if (n <? 65536)%N then String backslash (String "u"%char (hex 4 n))
  else String backslash (String "U"%char (hex 8 n)).

(** [repr(s)] for a string: single quotes, unless the text holds a single
    quote and no double quote. *)
Definition repr_str (s : string) : string :=
  let q := if has_char apostrophe s && negb (has_char quote s)
           then quote else apostrophe in
  String q (String.append (unchars (repr_char q <$> chars s))
              (String q EmptyString)).

(** One character of a string literal written by [json.dumps] with
    [ensure_ascii=True]; a character beyond U+FFFF is written as a pair of
    surrogates. *)
Definition dumps_char (w : string) : string :=
  let n := ord w in
  if String.eqb w (String quote EmptyString)
     || String.eqb w (String backslash EmptyString)
  then String backslash w
  else if (n =? 10)%N then String backslash "n"
  else if (n =? 13)%N then String backslash "r"
  else if (n =? 9)%N then String backslash "t"
  else if (n =? 12)%N then String backslash "f"
  else if (n =? 8)%N then String backslash "b"
  else if ((32 <=? n) && (n <=? 126))%N then w
  else if (n <? 65536)%N then String backslash (String "u"%char (hex 4 n))
  else
    let v := (n - 65536)%N in
    String.append
      (String backslash (String "u"%char (hex 4 (55296 + v / 1024)%N)))
      (String backslash (String "u"%char (hex 4 (56320 + v mod 1024)%N))).

Definition dumps_str (s : string) : string :=
  String quote (String.append (unchars (dumps_char <$> chars s))
                  (String quote EmptyString)).

End Py.

(* ===================================================================== *)
(** * JSON values *)
(* ===================================================================== *)

#[warnings="-register-all"]
Inductive json : Type :=
| JNull
| JBool (b : bool)
| JInt (n : Z)
| JStr (s : string)
| JList (l : list json)
| JDict (kv : list (string * json)).

(** Truth value of a decoded value: [None], [False], [0], the empty string,
    the empty list and the empty dict are false. *)
Definition truthy (j : json) : bool :=
  match j with
  | JNull => false
  | JBool b => b
  | JInt n => negb (Z.eqb n 0)
  | JStr s => negb (Py.is_empty s)
  | JList l => match l with [] => false | _ => true end
  | JDict kv => match kv with [] => false | _ => true end
  end.

Definition is_null (j : json) : bool :=
  match j with JNull => true | _ => false end.

(** [repr(j)] *)
Fixpoint py_repr (j : json) : string :=
  match j with
  | JNull => "None"
  | JBool true => "True"
  | JBool false => "False"
  | JInt n => pretty n
  | JStr s => Py.repr_str s
  | JList l => "[" +:+ Py.join ", " (List.map py_repr l) +:+ "]"
  | JDict kv =>
      "{" +:+ Py.join ", "
                (List.map (fun p => Py.repr_str (fst p) +:+ ": " +:+ py_repr (snd p)) kv)
          +:+ "}"
  end.

(** [str(j)] *)
Definition py_str (j : json) : string :=
  match j with
  | JStr s => s
  | _ => py_repr j
  end.

(** [json.dumps(j)] with the default separators. *)
Fixpoint json_dumps (j : json) : string :=
  match j with
  | JNull => "null"
  | JBool true => "true"
  | JBool false => "false"
  | JInt n => pretty n
  | JStr s => Py.dumps_str s
  | JList l => "[" +:+ Py.join ", " (List.map json_dumps l) +:+ "]"
  | JDict kv =>
      "{" +:+ Py.join ", "
                (List.map (fun p => Py.dumps_str (fst p) +:+ ": " +:+ json_dumps (snd p)) kv)
          +:+ "}"
  end.

(** [d.get(k)] on a decoded object. *)
Fixpoint dict_get (k : string) (kv : list (string * json)) : option json :=
  match kv with
  | [] => None
  | (k', v) :: rest => if String.eqb k k' then Some v else dict_get k rest
  end.

(** [d[k] = v]: the key keeps its place when it is present, and is added at
    the end otherwise. *)
Fixpoint dict_set (k : string) (v : json) (kv : list (string * json))
  : list (string * json) :=
  match kv with
  | [] => [(k, v)]
  | (k', v') :: rest =>
      if String.eqb k k' then (k, v) :: rest else (k', v') :: dict_set k v rest
  end.

Definition dict_has (k : string) (kv : list (string * json)) : bool :=
  match dict_get k kv with Some _ => true | None => false end.

(** A decoded JSON object, a Python [dict] with string keys. *)
Abbreviation pydict := (list (string * json)).

(* ===================================================================== *)
(** * Exceptions, the completion oracle and the state monad *)
(* ===================================================================== *)

(** The exception classes the agent code raises or catches.  [JSONDecodeError]
    is a subclass of [ValueError]; [ServiceError] stands for whatever the
    completion call raises. *)
Inductive exn : Type :=
| ValueError (msg : string)
| JSONDecodeError (msg : string)
| TypeError
| AttributeError
| KeyError
| ServiceError.

Definition is_ValueError (e : exn) : bool :=
  match e with ValueError _ | JSONDecodeError _ => true | _ => false end.

Definition is_JSONDecodeError (e : exn) : bool :=
  match e with JSONDecodeError _ => true | _ => false end.

Inductive outcome (A : Type) : Type :=
| Ok (a : A)
| Exc (e : exn).
Arguments Ok {A} a.
Arguments Exc {A} e.

#[global] Instance outcome_ret : MRet outcome := fun _ a => Ok a.
#[global] Instance outcome_bind : MBind outcome := fun _ _ f m =>
  match m with Ok a => f a | Exc e => Exc e end.

(** What a completion call gives back: it raises, or it returns a response
    from which [safe_extract_text] reads an optional text. *)
Inductive llm_reply : Type :=
| ReplyFailure
| ReplyText (t : option string).

(** A program is a tree of completion requests; a request is named by the
    label under which the source reports its token usage. *)
Inductive Prog (A : Type) : Type :=
| Ret (a : A)
| Call (label : string) (k : llm_reply -> Prog A).
Arguments Ret {A} a.
Arguments Call {A} label k.

Fixpoint prog_bind {A B : Type} (p : Prog A) (f : A -> Prog B) : Prog B :=
  match p with
  | Ret a => f a
  | Call l k => Call l (fun r => prog_bind (k r) f)
  end.

(** The run of [p] that receives exactly the replies [replies]: the value it
    ends with and the labels of the requests it made, in order.  There is
    no run when the replies are too few or too many. *)
Fixpoint run {A : Type} (p : Prog A) (replies : list llm_reply)
  : option (A * list string) :=
  match p, replies with
  | Ret a, [] => Some (a, [])
  | Ret _, _ :: _ => None
  | Call _ _, [] => None
  | Call l k, r :: rs =>
      match run (k r) rs with
      | Some (a, ls) => Some (a, l :: ls)
      | None => None
      end
  end.

(** [wp p Q]: every run of [p] ends with a value and a trace of requests and
    replies that satisfy [Q]. *)
Fixpoint wp {A : Type} (p : Prog A)
    (Q : A -> list (string * llm_reply) -> Prop) : Prop :=
  match p with
  | Ret a => Q a []
  | Call l k => forall r, wp (k r) (fun a tr => Q a ((l, r) :: tr))
  end.

(* ===================================================================== *)
(** * Conversation state (agents/resume_builder_state.py) *)
(* ===================================================================== *)

Record Message : Type := mkMessage {
  role : string;
  content : json;
}.

(** Graph markers of the hosting framework. *)
Inductive marker : Type :=
| START
| END
| Name (s : string).

Record ResumeBuilderState : Type := mkState {
  jd_summary : option string;
  resume_sections : gmap string json;
  section_objects : gmap string pydict;
  current_section : option string;
  src_node : option string;
  recommended_answers : gmap string (list json);
  routing_attempts : Z;
  resume_schema : option (gmap string json);
  cv_summary : gmap string json;
  context : list Message;
  context_summary : option string;
  execution_meta : marker;
}.

(** [ResumeBuilderState()] *)
Definition new_state : ResumeBuilderState :=
  {| jd_summary := None;
     resume_sections := ∅;
     section_objects := ∅;
     current_section := None;
     src_node := None;
     recommended_answers := ∅;
     routing_attempts := 0%Z;
     resume_schema := None;
     cv_summary := ∅;
     context := [];
     context_summary := None;
     execution_meta := START |}.

(** [state.make_message(role, content)].  [Message] takes a text as
    content; for any other value its validation fails, and the fallback of
    [make_message], which sets the attributes of an object that was not
    initialised, raises an [AttributeError].  The fresh identifier and the
    time stamp of a message are not represented. *)
Definition make_message (r : string) (c : json) : outcome Message :=
  match c with
  | JStr _ => Ok {| role := r; content := c |}
  | _ => Exc AttributeError
  end.

Definition set_current_section (v : option string) (st : ResumeBuilderState) :=
  {| jd_summary := jd_summary st; resume_sections := resume_sections st;
     section_objects := section_objects st; current_section := v;
     src_node := src_node st; recommended_answers := recommended_answers st;
     routing_attempts := routing_attempts st; resume_schema := resume_schema st;
     cv_summary := cv_summary st; context := context st;
     context_summary := context_summary st;
     execution_meta := execution_meta st |}.

Definition set_src_node (v : option string) (st : ResumeBuilderState) :=
  {| jd_summary := jd_summary st; resume_sections := resume_sections st;
     section_objects := section_objects st; current_section := current_section st;
     src_node := v; recommended_answers := recommended_answers st;
     routing_attempts := routing_attempts st; resume_schema := resume_schema st;
     cv_summary := cv_summary st; context := context st;
     context_summary := context_summary st;
     execution_meta := execution_meta st |}.

Definition set_resume_sections (v : gmap string json) (st : ResumeBuilderState) :=
  {| jd_summary := jd_summary st; resume_sections := v;
     section_objects := section_objects st; current_section := current_section st;
     src_node := src_node st; recommended_answers := recommended_answers st;
     routing_attempts := routing_attempts st; resume_schema := resume_schema st;
     cv_summary := cv_summary st; context := context st;
     context_summary := context_summary st;
     execution_meta := execution_meta st |}.

Definition set_section_objects (v : gmap string pydict) (st : ResumeBuilderState) :=
  {| jd_summary := jd_summary st; resume_sections := resume_sections st;
     section_objects := v; current_section := current_section st;
     src_node := src_node st; recommended_answers := recommended_answers st;
     routing_attempts := routing_attempts st; resume_schema := resume_schema st;
     cv_summary := cv_summary st; context := context st;
     context_summary := context_summary st;
     execution_meta := execution_meta st |}.

Definition set_recommended_answers (v : gmap string (list json))
    (st : ResumeBuilderState) :=
  {| jd_summary := jd_summary st; resume_sections := resume_sections st;
     section_objects := section_objects st; current_section := current_section st;
     src_node := src_node st; recommended_answers := v;
     routing_attempts := routing_attempts st; resume_schema := resume_schema st;
     cv_summary := cv_summary st; context := context st;
     context_summary := context_summary st;
     execution_meta := execution_meta st |}.

Definition set_routing_attempts (v : Z) (st : ResumeBuilderState) :=
  {| jd_summary := jd_summary st; resume_sections := resume_sections st;
     section_objects := section_objects st; current_section := current_section st;
     src_node := src_node st; recommended_answers := recommended_answers st;
     routing_attempts := v; resume_schema := resume_schema st;
     cv_summary := cv_summary st; context := context st;
     context_summary := context_summary st;
     execution_meta := execution_meta st |}.

Definition set_cv_summary (v : gmap string json) (st : ResumeBuilderState) :=
  {| jd_summary := jd_summary st; resume_sections := resume_sections st;
     section_objects := section_objects st; current_section := current_section st;
     src_node := src_node st; recommended_answers := recommended_answers st;
     routing_attempts := routing_attempts st; resume_schema := resume_schema st;
     cv_summary := v; context := context st;
     context_summary := context_summary st;
     execution_meta := execution_meta st |}.

Definition set_context (v : list Message) (st : ResumeBuilderState) :=
  {| jd_summary := jd_summary st; resume_sections := resume_sections st;
     section_objects := section_objects st; current_section := current_section st;
     src_node := src_node st; recommended_answers := recommended_answers st;
     routing_attempts := routing_attempts st; resume_schema := resume_schema st;
     cv_summary := cv_summary st; context := v;
     context_summary := context_summary st;
     execution_meta := execution_meta st |}.

(** The agent monad: a computation reads and writes the conversation state,
    may consult the completion oracle, and ends with a value or an
    exception.  The state survives an exception, as the object mutated in
    place does. *)
Definition M (A : Type) : Type :=
  ResumeBuilderState -> Prog (outcome A * ResumeBuilderState).

#[global] Instance M_ret : MRet M := fun _ a st => Ret (Ok a, st).
#[global] Instance M_bind : MBind M := fun _ _ f m st =>
  prog_bind (m st) (fun r =>
    match r with
    | (Ok a, st') => f a st'
    | (Exc e, st') => Ret (Exc e, st')
    end).

Definition raise {A : Type} (e : exn) : M A := fun st => Ret (Exc e, st).
Definition get_state : M ResumeBuilderState := fun st => Ret (Ok st, st).
Definition modify (f : ResumeBuilderState -> ResumeBuilderState) : M unit :=
  fun st => Ret (Ok tt, f st).
Definition lift {A : Type} (o : outcome A) : M A := fun st => Ret (o, st).

(** [await acompletion(...)] / [completion(...)] under the usage label [l]:
    the reply is the text read by [safe_extract_text], or the call raises. *)
Definition completion (l : string) : M (option string) := fun st =>
  Call l (fun r =>
    match r with
    | ReplyFailure => Ret (Exc ServiceError, st)
    | ReplyText t => Ret (Ok t, st)
    end).

(** [try: m except <class selected by catches>: h] *)
Definition try_except {A : Type} (m : M A) (catches : exn -> bool)
    (h : exn -> M A) : M A := fun st =>
  prog_bind (m st) (fun r =>
    match r with
    | (Ok a, st') => Ret (Ok a, st')
    | (Exc e, st') => if catches e then h e st' else Ret (Exc e, st')
    end).

Definition any_Exception (e : exn) : bool := true.

(** [state.context.append(msg)] *)
Definition append_message (m : Message) : M unit :=
  modify (fun st => set_context (context st ++ [m]) st).

(** [state.context.append(state.make_message(role, content))]: the message
    is made first. *)
Definition append_new_message (r : string) (c : json) : M unit :=
  m ← lift (make_message r c);
  append_message m.

(* ===================================================================== *)
(** * agents/utils.py *)
(* ===================================================================== *)

Definition SECTION_NAMES : list string :=
  ["skills"; "experiences"; "education"; "projects"; "summary"; "contact";
   "certificates"; "publications"; "languages"; "recommendations"; "custom"].

Definition SECTION_ROUTE_PATTERNS : list (string * list string) :=
  [("skills", ["/skills"; "go to skills"; "switch to skills"]);
   ("experiences", ["/experiences"; "go to experiences";
                    "switch to experiences"; "experience section"]);
   ("education", ["/education"; "go to education"; "education section"]);
   ("projects", ["/projects"; "go to projects"; "project section"]);
   ("summary", ["/summary"; "go to summary"; "summary section"]);
   ("contact", ["/contact"; "go to contact"; "contact section"]);
   ("certificates", ["/certificates"; "go to certificates";
                     "certificates section"]);
   ("publications", ["/publications"; "go to publications";
                     "publications section"]);
   ("languages", ["/languages"; "go to languages"; "languages section"]);
   ("recommendations", ["/recommendations"; "go to recommendations";
                        "recommendations section"]);
   ("custom", ["/custom"; "go to custom"; "custom section"])].

Definition open_brace : ascii := ascii_of_nat 123.
Definition close_brace : ascii := ascii_of_nat 125.

(** The pattern of the source reads an opening brace, characters other than
    braces, any number of groups made of one brace pair around characters
    other than braces followed by characters other than braces, and a
    closing brace.  [scan_object] reads the rest of the pattern once the
    first brace is read and gives the number of further characters of the
    match; [inner] holds inside a nested pair of braces.  The character
    classes exclude both braces, so a start position has at most one
    match. *)
Fixpoint scan_object (inner : bool) (s : string) : option nat :=
  match s with
  | EmptyString => None
  | String c s' =>
      if Ascii.eqb c open_brace then
        if inner then None else S <$> scan_object true s'
      else if Ascii.eqb c close_brace then
        if inner then S <$> scan_object false s' else Some 1
      else S <$> scan_object inner s'
  end.

(** [re.search(pattern, s, re.DOTALL)] followed by [group(0)]: the match at
    the leftmost position that has one. *)
Fixpoint re_search_object (s : string) : option string :=
  match s with
  | EmptyString => None
  | String c s' =>
      if Ascii.eqb c open_brace then
        match scan_object false s' with
        | Some n => Some (String c (Py.slice_to n s'))
        | None => re_search_object s'
        end
      else re_search_object s'
  end.

(** Result of [json.loads]: a value, or a [JSONDecodeError] with its text. *)
Inductive loads_result : Type :=
| Loaded (j : json)
| NotJson (msg : string).

Definition valid_actions : list string :=
  ["answer"; "route"; "stay"; "switch"; "exit"; "apply"].

(** [x in {strings}]: the membership test of a set hashes [x], and a list or
    a dict is not hashable. *)
Definition in_str_set (x : json) (l : list string) : outcome bool :=
  match x with
  | JList _ | JDict _ => Exc TypeError
  | JStr s => Ok (bool_decide (s ∈ l))
  | _ => Ok false
  end.

(** [try: o except <class>: h] on a computation without state. *)
Definition outcome_try {A : Type} (o : outcome A) (catches : exn -> bool)
    (h : exn -> outcome A) : outcome A :=
  match o with
  | Ok a => Ok a
  | Exc e => if catches e then h e else Exc e
  end.

Definition exn_text (e : exn) : string :=
  match e with
  | ValueError m | JSONDecodeError m => m
  | _ => ""
  end.

Definition offline_decision : pydict :=
  [("action", JStr "answer"); ("route", JNull);
   ("answer", JStr "(Offline) I received your query and will help once an API key is configured.")].

Definition error_decision : pydict :=
  [("action", JStr "answer"); ("route", JNull);
   ("answer", JStr "I encountered an error processing your request. Please try again.")].

(** [x or {}] then [dict(...)], on a dictionary of the state. *)
Definition dict_or_empty {V : Type} (d : gmap string V) : gmap string V :=
  if decide (size d = 0) then ∅ else d.

(** [list(x or [])] *)
Definition list_or_empty {V : Type} (l : list V) : list V :=
  match l with [] => [] | _ => l end.

(** [clone_state(old_state)] *)
Definition clone_state (old_state : ResumeBuilderState) : ResumeBuilderState :=
  {| jd_summary := jd_summary old_state;
     resume_sections := resume_sections old_state;
     section_objects := dict_or_empty (section_objects old_state);
     current_section := current_section old_state;
     src_node := src_node new_state;
     recommended_answers := dict_or_empty (recommended_answers old_state);
     routing_attempts := routing_attempts new_state;
     resume_schema := resume_schema new_state;
     cv_summary := dict_or_empty (cv_summary old_state);
     context := list_or_empty (context old_state);
     context_summary := context_summary new_state;
     execution_meta := execution_meta new_state |}.

Section Utils.

(** The module constant [OFFLINE_MODE] ([GOOGLE_API_KEY is None]) and the
    library function [json.loads]. *)
Variable OFFLINE_MODE : bool.
Variable json_loads : string -> loads_result.

Definition loads (t : string) : outcome json :=
  match json_loads t with
  | Loaded j => Ok j
  | NotJson m => Exc (JSONDecodeError m)
  end.

(** [extract_and_validate_json(raw_text)] *)
Definition extract_and_validate_json (raw_text : string) : outcome pydict :=
  if Py.is_empty raw_text || Py.is_empty (Py.strip raw_text)
  then Exc (ValueError "Empty response from LLM")
  else
    match re_search_object raw_text with
    | None =>
        Ok [("action", JStr "answer"); ("route", JNull);
            ("answer", JStr (Py.strip raw_text))]
    | Some json_text =>
        outcome_try
          (parsed ← loads json_text;
           match parsed with
           | JDict kv =>
               match dict_get "action" kv with
               | None =>
                   Exc (ValueError "Missing required 'action' key in JSON response")
               | Some a =>
                   known ← in_str_set a valid_actions;
                   if known : bool then Ok kv
                   else Ok (dict_set "action" (JStr "answer") kv)
               end
           | _ => Exc (ValueError "Response is not a JSON object")
           end)
          is_JSONDecodeError
          (fun e => Exc (ValueError ("Invalid JSON format: " +:+ exn_text e)))
    end.

(** [call_llm_json_decision(system_prompt, user_payload, state)].  The
    prompt and the payload only feed the request. *)
Definition call_llm_json_decision : M pydict :=
  if OFFLINE_MODE then mret offline_decision
  else
    try_except
      (t ← completion "router";
       let raw := default "" t in
       lift (extract_and_validate_json raw))
      any_Exception
      (fun _ => mret error_decision).

End Utils.

(* ===================================================================== *)
(** * graph_builder.py *)
(* ===================================================================== *)

(** [route_to_section(state)] *)
Definition route_to_section (state : ResumeBuilderState) : marker :=
  if bool_decide (src_node state = current_section state) then END
  else match current_section state with
       | None => Name "general_chat"
       | Some s => if bool_decide (s ∈ SECTION_NAMES) then Name s else END
       end.

(* ===================================================================== *)
(** * agents/create_section_node.py *)
(* ===================================================================== *)

(** [len(j)] *)
Definition py_len (j : json) : outcome nat :=
  match j with
  | JStr s => Ok (Py.len s)
  | JList l => Ok (length l)
  | JDict kv => Ok (length kv)
  | _ => Exc TypeError
  end.

(** The items of an iteration over a text: its characters. *)
Definition chars (s : string) : list json := JStr <$> Py.chars s.

(** The items an iteration over [j] visits. *)
Definition py_iter (j : json) : outcome (list json) :=
  match j with
  | JStr s => Ok (chars s)
  | JList l => Ok l
  | JDict kv => Ok (List.map (fun p => JStr (fst p)) kv)
  | _ => Exc TypeError
  end.

(** [j.lower()] *)
Definition py_lower (j : json) : outcome string :=
  match j with
  | JStr s => Ok (Py.lower s)
  | _ => Exc AttributeError
  end.

(** [j.strip()] *)
Definition py_strip (j : json) : outcome string :=
  match j with
  | JStr s => Ok (Py.strip s)
  | _ => Exc AttributeError
  end.

(** [d[k]] on a decoded object. *)
Definition dict_item (k : string) (d : pydict) : outcome json :=
  match dict_get k d with
  | Some v => Ok v
  | None => Exc KeyError
  end.

(** [d.setdefault(k, v)] *)
Definition dict_setdefault (k : string) (v : json) (d : pydict) : pydict :=
  if dict_has k d then d else dict_set k v d.

(** [set(text.split())] *)
Definition word_set (text : string) : gset string :=
  list_to_set (Py.split text).

(** One entry of the list built by [detect_question_matches]: the index of
    the question, its text and the confidence.  The source computes the
    confidence in floating point; the quotient of two small integers is
    rounded monotonically, so the order and the ties are those of the exact
    fractions. *)
Definition question_match : Type := nat * string * Q.

Definition confidence (m : question_match) : Q := snd m.

(** Insertion into a list sorted by decreasing confidence, behind the
    entries of at least the same confidence. *)
Fixpoint insert_match (x : question_match) (l : list question_match)
  : list question_match :=
  match l with
  | [] => [x]
  | y :: l' =>
      if Qle_bool (confidence y) (confidence x)
      then x :: y :: l'
      else y :: insert_match x l'
  end.

(** [sorted(matches, key=lambda x: x[2], reverse=True)]: a stable sort, the
    entries of equal confidence keep the order of the list. *)
Fixpoint sorted_by_confidence (l : list question_match) : list question_match :=
  match l with
  | [] => []
  | x :: l' => insert_match x (sorted_by_confidence l')
  end.

(** The body of the loop of [detect_question_matches] over the questions
    from index [idx] on. *)
Fixpoint scan_questions (user_words : gset string) (idx : nat)
    (questions : list json) : outcome (list question_match) :=
  match questions with
  | [] => Ok []
  | question :: rest =>
      q ← py_lower question;
      let question_words := word_set q in
      let common_words := user_words ∩ question_words in
      tail ← scan_questions user_words (S idx) rest;
      if 0 <? size common_words then
        let confidence :=
          (Z.of_nat (size common_words)
           # Pos.of_nat (Nat.max (size question_words) 1))%Q in
        Ok ((idx, py_str question, confidence) :: tail)
      else Ok tail
  end.

(** [detect_question_matches(user_answer, questions)] *)
Definition detect_question_matches (user_answer questions : json)
  : outcome (list question_match) :=
  u ← py_lower user_answer;
  let user_words := word_set u in
  qs ← py_iter questions;
  matches ← scan_questions user_words 0 qs;
  Ok (sorted_by_confidence matches).

(** [detect_direct_routing(text)] *)
Definition detect_direct_routing (text : json) : outcome (option string) :=
  t ← py_lower text;
  Ok (fst <$> List.find (fun p => Py.any_in (snd p) t) SECTION_ROUTE_PATTERNS).

Definition empty_answers (n : nat) : list json := replicate n (JStr "").

(** The copy loop of [safe_initialize_answers]:
    [for i in range(k): new_answers[i] = current_answers[i]]. *)
Definition copy_front (k : nat) (current_answers new_answers : list json)
  : list json :=
  foldl (fun acc i =>
           match current_answers !! i with
           | Some a => <[i:=a]> acc
           | None => acc
           end)
        new_answers (seq 0 k).

(** [safe_initialize_answers(state, section_name, questions)] *)
Definition safe_initialize_answers (section_name : string) (questions : json)
  : M unit :=
  state ← get_state;
  match recommended_answers state !! section_name with
  | None =>
      n ← lift (py_len questions);
      modify (fun st =>
        set_recommended_answers
          (<[section_name := empty_answers n]> (recommended_answers st)) st)
  | Some current_answers =>
      n ← lift (py_len questions);
      if bool_decide (length current_answers ≠ n) then
        let new_answers :=
          copy_front (Nat.min (length current_answers) n) current_answers
                     (empty_answers n) in
        modify (fun st =>
          set_recommended_answers
            (<[section_name := new_answers]> (recommended_answers st)) st)
      else mret tt
  end.

(** [isinstance(j, int)]: a Python [bool] is an [int]. *)
Definition as_int (j : json) : option Z :=
  match j with
  | JInt n => Some n
  | JBool true => Some 1%Z
  | JBool false => Some 0%Z
  | _ => None
  end.

(** One turn of the loop over [question_matches] (lines 413-420). *)
Definition place_match (updated_answers : list json) (answers : list json)
    (match_idx : json) : list json :=
  match as_int match_idx with
  | Some z =>
      if (0 <=? z)%Z && (z <? Z.of_nat (length answers))%Z
         && (z <? Z.of_nat (length updated_answers))%Z
      then match updated_answers !! Z.to_nat z with
           | Some v => if truthy v then <[Z.to_nat z := v]> answers else answers
           | None => answers
           end
      else answers
  | None => answers
  end.

Definition place_matches (question_matches updated_answers answers : list json)
  : list json :=
  foldl (place_match updated_answers) answers question_matches.

(** [not answer or len(str(answer).strip()) < 5] *)
Definition below_threshold (answer : json) : bool :=
  negb (truthy answer) || (Py.len (Py.strip (py_str answer)) <? 5).

(** One turn of the loop over [enumerate(answers)] (lines 424-427). *)
Definition fill_slot (updated_answers : list json) (answers : list json)
    (i : nat) : list json :=
  match answers !! i, updated_answers !! i with
  | Some answer, Some v =>
      if truthy v && below_threshold answer then <[i:=v]> answers else answers
  | _, _ => answers
  end.

Definition fill_open_slots (updated_answers answers : list json) : list json :=
  foldl (fill_slot updated_answers) answers (seq 0 (length answers)).

(** [next((ans for ans in updated_answers if ans), None)] *)
Definition first_truthy (updated_answers : list json) : option json :=
  List.find truthy updated_answers.

(** The [else] clause of the loop (lines 428-435); the loop has no [break],
    so the clause runs each time the loop ends. *)
Definition auto_match (user_text questions : json)
    (updated_answers answers : list json) : outcome (list json) :=
  matches ← detect_question_matches user_text questions;
  match matches, updated_answers with
  | (best_match_idx, _, _) :: _, _ :: _ =>
      match first_truthy updated_answers with
      | Some new_answer =>
          if truthy new_answer && (best_match_idx <? length answers)
          then Ok (<[best_match_idx := new_answer]> answers)
          else Ok answers
      | None => Ok answers
      end
  | _, _ => Ok answers
  end.

Definition is_list (j : json) : bool :=
  match j with JList _ => true | _ => false end.

(** Lines 408-435 on the answer array of the current section: the array
    reached when the block ends or raises, and how it ends. *)
Definition merge_answers (parsed : pydict) (user_text questions : json)
    (answers : list json) : list json * outcome unit :=
  if dict_has "question_matches" parsed && dict_has "updated_answers" parsed then
    match dict_get "question_matches" parsed, dict_get "updated_answers" parsed with
    | Some (JList question_matches), Some (JList updated_answers) =>
        (place_matches question_matches updated_answers answers, Ok tt)
    | _, _ => (answers, Ok tt)
    end
  else
    match dict_get "updated_answers" parsed with
    | Some (JList updated_answers) =>
        let filled := fill_open_slots updated_answers answers in
        match auto_match user_text questions updated_answers filled with
        | Ok answers' => (answers', Ok tt)
        | Exc e => (filled, Exc e)
        end
    | _ => (answers, Ok tt)
    end.

Definition truthy_section (s : option string) : option string :=
  match s with
  | Some name => if Py.is_empty name then None else Some name
  | None => None
  end.

(** Lines 404-435 of [_node]: the reconciliation of the answers of the
    current section with a decision. *)
Definition reconcile_answers (parsed : pydict) (user_text questions : json)
  : M unit :=
  state ← get_state;
  match truthy_section (current_section state) with
  | Some section =>
      if dict_has "question_matches" parsed || dict_has "updated_answers" parsed
      then
        (match recommended_answers state !! section with
         | None =>
             n ← lift (py_len questions);
             modify (fun st =>
               set_recommended_answers
                 (<[section := empty_answers n]> (recommended_answers st)) st)
         | Some _ => mret tt
         end);;
        state ← get_state;
        match recommended_answers state !! section with
        | Some answers =>
            let '(answers', result) :=
              merge_answers parsed user_text questions answers in
            modify (fun st =>
              set_recommended_answers
                (<[section := answers']> (recommended_answers st)) st);;
            lift result
        | None => raise KeyError
        end
      else mret tt
  | None => mret tt
  end.

Definition nl : string := String (ascii_of_nat 10) EmptyString.

(** An entry of [qa_pairs] in [update_cv_summary]. *)
Record qa_pair : Type := mkQa {
  qa_question : json;
  qa_answer : string;
  qa_index : nat;
}.

(** The loop that builds [qa_pairs] from [enumerate(zip(questions, answers))]. *)
Fixpoint collect_qa (i : nat) (pairs : list (json * json))
  : outcome (list qa_pair) :=
  match pairs with
  | [] => Ok []
  | (question, answer) :: rest =>
      if truthy answer then
        s ← py_strip answer;
        tail ← collect_qa (S i) rest;
        if Py.is_empty s then Ok tail
        else Ok ({| qa_question := question; qa_answer := s; qa_index := i |} :: tail)
      else collect_qa (S i) rest
  end.

Definition offline_negations : list string :=
  ["no "; "don't"; "haven't"; "never"; "not "; "lack";
   "no experience"; "not familiar"; "dont have"; "do not have";
   "unfamiliar"; "missing"; "limited experience"].

Definition fallback_negations : list string :=
  ["no "; "don't"; "haven't"; "never"; "not "; "lack";
   "no experience"; "not familiar"; "unfamiliar"].

(** One signed bullet: [-] when the lowered answer holds a phrase of the
    lexicon, [+] otherwise, followed by the first 100 characters. *)
Definition section_point (negations : list string) (qa : qa_pair) : string :=
  (if Py.any_in negations (Py.lower (qa_answer qa)) then "-" else "+")
  +:+ Py.first_chars 100 (qa_answer qa).

Definition section_points (negations : list string) (qa_pairs : list qa_pair)
  : json :=
  JStr (Py.join nl (List.map (section_point negations) qa_pairs)).

(** [k in j] for a string [k]. *)
Definition py_in (k : string) (j : json) : outcome bool :=
  match j with
  | JDict kv => Ok (dict_has k kv)
  | JList l => Ok (existsb (fun x => match x with
                                     | JStr s => String.eqb s k
                                     | _ => false
                                     end) l)
  | JStr s => Ok (Py.contains k s)
  | _ => Exc TypeError
  end.

(** [j[k]] for a string [k]. *)
Definition py_item (k : string) (j : json) : outcome json :=
  match j with
  | JDict kv => dict_item k kv
  | _ => Exc TypeError
  end.

(** The answer of [_node]: the state object or the message it appended. *)
Inductive node_result : Type :=
| ReturnState
| ReturnMessage (m : Message).

(** [x == s] for an optional decoded value and a string. *)
Definition eq_str (x : option json) (s : string) : bool :=
  match x with
  | Some (JStr t) => String.eqb t s
  | _ => false
  end.

(** [x in d] for a dictionary with string keys: [x] is hashed. *)
Definition as_key (x : json) : outcome (option string) :=
  match x with
  | JList _ | JDict _ => Exc TypeError
  | JStr s => Ok (Some s)
  | _ => Ok None
  end.

Fixpoint insert_sorted (x : string) (l : list string) : list string :=
  match l with
  | [] => [x]
  | y :: l' => if String.leb x y then x :: y :: l' else y :: insert_sorted x l'
  end.

(** [sorted(keys)] *)
Definition sorted_strings (l : list string) : list string :=
  foldr insert_sorted [] l.

(** An entry of [compact_sections] in [_node]. *)
Definition compact_section (s : string) (data : pydict) : pydict :=
  [("section_name", JStr s);
   ("alignment_score", default JNull (dict_get "alignment_score" data));
   ("missing_requirements",
     default (JList []) (dict_get "missing_requirements" data));
   ("recommended_questions",
     default (JList []) (dict_get "recommended_questions" data))].

Definition compact_sections (state : ResumeBuilderState) : gmap string pydict :=
  map_imap (fun s data => Some (compact_section s data)) (section_objects state).

(** The last message of role [user] in the context, or the empty text. *)
Definition last_user_text (state : ResumeBuilderState) : json :=
  match List.find (fun m => String.eqb (role m) "user") (rev (context state)) with
  | Some m => content m
  | None => JStr ""
  end.

Definition exit_phrases : list string :=
  ["/exit"; "back to chat"; "general chat"; "leave section"].

Definition unknown_section_message (route_to : json)
    (sections : gmap string pydict) : json :=
  JStr ("I couldn't find a section named '" +:+ py_str route_to +:+ "'. "
        +:+ "Available sections are: "
        +:+ Py.join ", " (sorted_strings (fst <$> map_to_list sections)) +:+ ". "
        +:+ "Please try again with one of these section names.").

(** Lines 316-323 of [_node]: the questions of the current section, whose
    answer array is brought to their length. *)
Definition initialize_current_answers : M json :=
  state ← get_state;
  let sections := compact_sections state in
  match truthy_section (current_section state) with
  | Some current =>
      match sections !! current with
      | Some section_data =>
          let recommended_questions :=
            default (JList []) (dict_get "recommended_questions" section_data) in
          safe_initialize_answers current recommended_questions;;
          mret recommended_questions
      | None => mret (JList [])
      end
  | None => mret (JList [])
  end.

(** The two steps of [_node] that touch the answer arrays, in the order of
    the source: the initialization of line 322 and the reconciliation of
    lines 404-435 with the decision [parsed]. *)
Definition reconciliation_step (parsed : pydict) (user_text : json) : M unit :=
  recommended_questions ← initialize_current_answers;
  reconcile_answers parsed user_text recommended_questions.

(** ** The reconciliation rules in the words of the specification *)

(** [match_idx] names the index [i]. *)
Definition names_index (i : nat) (match_idx : json) : bool :=
  match as_int match_idx with
  | Some z => Z.eqb z (Z.of_nat i)
  | None => false
  end.

(** Rule 2: [i] is in [question_matches], is a valid index into the [n]
    answer slots and into [updated_answers], and the supplied value is not
    empty. *)
Definition selected_by_matches (question_matches updated_answers : list json)
    (n i : nat) : bool :=
  existsb (names_index i) question_matches
  && (i <? n)
  && match updated_answers !! i with
     | Some v => truthy v
     | None => false
     end.

(** Rule 3: the supplied value at [i] is not empty, and the slot is empty
    or holds fewer than 5 characters once the white space around it is
    removed. *)
Definition selected_by_threshold (updated_answers answers : list json)
    (i : nat) : bool :=
  match answers !! i, updated_answers !! i with
  | Some answer, Some v => truthy v && below_threshold answer
  | _, _ => false
  end.

(** Rule 1: [n] slots, the front of the existing answers kept, the rest
    empty text. *)
Definition resized (n : nat) (existing : list json) : list json :=
  take n existing ++ replicate (n - length existing) (JStr "").

Section Nodes.

Variable OFFLINE_MODE : bool.
Variable json_loads : string -> loads_result.

(** [update_cv_summary(state, section_name, recommended_questions,
    recommended_answers)] *)
Definition update_cv_summary (section_name : string)
    (recommended_questions : json) (recommended_answers : list json)
  : M (gmap string json) :=
  state ← get_state;
  let current_cv_summary := cv_summary state in
  questions ← lift (py_iter recommended_questions);
  qa_pairs ← lift (collect_qa 0 (zip questions recommended_answers));
  match qa_pairs with
  | [] => mret current_cv_summary
  | _ :: _ =>
      try_except
        (if OFFLINE_MODE then
           mret (<[section_name := section_points offline_negations qa_pairs]>
                   current_cv_summary)
         else
           t ← completion ("cv_summary_" +:+ section_name);
           let raw := default "" t in
           found ← try_except
             (lift
                match re_search_object raw with
                | Some json_text =>
                    result ← loads json_loads json_text;
                    has ← py_in "section_points" result;
                    if has : bool then
                      v ← py_item "section_points" result;
                      Ok (Some v)
                    else Ok None
                | None => Ok None
                end)
             is_JSONDecodeError
             (fun _ => mret None);
           match found with
           | Some v => mret (<[section_name := v]> current_cv_summary)
           | None =>
               mret (<[section_name := section_points fallback_negations qa_pairs]>
                       current_cv_summary)
           end)
        any_Exception
        (fun _ => mret current_cv_summary)
  end.

Definition offline_analysis (section_name : string) : pydict :=
  [("alignment_score", JInt 75);
   ("missing_requirements", JList [JStr "More specific examples needed"]);
   ("recommended_questions",
     JList [JStr ("Can you add more specific examples to your "
                  +:+ section_name +:+ "?")]);
   ("analysis_summary",
     JStr "Offline mode - please configure API key for full analysis")].

Definition failed_analysis (section_name : string) : pydict :=
  [("alignment_score", JInt 70);
   ("missing_requirements", JList [JStr "Analysis error - please try again"]);
   ("recommended_questions",
     JList [JStr ("Let's continue improving your " +:+ section_name
                  +:+ ". What specific details can you add?")]);
   ("analysis_summary",
     JStr ("There was an error analyzing the updated " +:+ section_name
           +:+ ". The changes have been saved."))].

Definition set_answers (section_name : string) (answers : list json) : M unit :=
  modify (fun st =>
    set_recommended_answers
      (<[section_name := answers]> (recommended_answers st)) st).

(** Lines 149-160 of [apply_section_changes]: the CV summary is aggregated
    from the questions and the answers of the section, when there are
    some; an exception of the aggregation is logged and dropped. *)
Definition aggregate_cv_summary (section_name : string) : M unit :=
  state ← get_state;
  let section_questions :=
    default (JList [])
      (dict_get "recommended_questions"
         (default [] (section_objects state !! section_name))) in
  let section_answers :=
    default [] (recommended_answers state !! section_name) in
  if truthy section_questions && truthy (JList section_answers) then
    try_except
      (updated_cv_summary ←
         update_cv_summary section_name section_questions section_answers;
       modify (set_cv_summary updated_cv_summary))
      any_Exception
      (fun _ => mret tt)
  else mret tt.

(** Lines 200-238 of [apply_section_changes]: the analysis read from the
    text [raw] of the reply is stored in the section object and the answer
    array is sized to the new questions.  Of the three lines that print,
    the one of line 235 is kept: it takes the length of the questions, which
    raises for a value that has none. *)
Definition store_analysis (section_name : string) (raw : string) : M pydict :=
  loaded ← try_except
    (lift
       match re_search_object raw with
       | Some json_text => loads json_loads json_text
       | None => Ok (JDict [])
       end)
    is_JSONDecodeError
    (fun _ => mret (JDict []));
  match loaded with
  | JDict kv =>
      let analysis_result :=
        dict_setdefault "analysis_summary" (JStr "Section updated successfully")
          (dict_setdefault "recommended_questions" (JList [])
             (dict_setdefault "missing_requirements" (JList [])
                (dict_setdefault "alignment_score" (JInt 70) kv))) in
      alignment_score ← lift (dict_item "alignment_score" analysis_result);
      missing_requirements ←
        lift (dict_item "missing_requirements" analysis_result);
      questions ← lift (dict_item "recommended_questions" analysis_result);
      modify (fun st =>
        let old := default [] (section_objects st !! section_name) in
        set_section_objects
          (<[section_name :=
               dict_set "last_updated" (JStr "just_now")
                 (dict_set "recommended_questions" questions
                    (dict_set "missing_requirements" missing_requirements
                       (dict_set "alignment_score" alignment_score old)))]>
             (section_objects st)) st);;
      (if truthy questions then
         n ← lift (py_len questions);
         set_answers section_name (empty_answers n)
       else set_answers section_name []);;
      lift (py_len questions);;
      mret analysis_result
  | _ => raise AttributeError
  end.

(** [apply_section_changes(state, section_name, updated_content)] *)
Definition apply_section_changes (section_name : string)
    (updated_content : json) : M pydict :=
  modify (fun st =>
    set_resume_sections
      (<[section_name := updated_content]> (resume_sections st)) st);;
  aggregate_cv_summary section_name;;
  set_answers section_name [];;
  try_except
    (if OFFLINE_MODE then mret (offline_analysis section_name)
     else
       t ← completion ("apply_" +:+ section_name);
       let raw := default "" t in
       store_analysis section_name raw)
    any_Exception
    (fun _ => mret (failed_analysis section_name)).

(** The confirmation appended after an apply (lines 382-391). *)
Definition confirmation_message (section : string) (analysis_result : pydict)
  : outcome string :=
  score ← dict_item "alignment_score" analysis_result;
  let head :=
    "✅ Applied changes to " +:+ section +:+ "!" +:+ nl +:+ nl
    +:+ "📊 New alignment score: " +:+ py_str score +:+ "%" +:+ nl
    +:+ py_str (default (JStr "") (dict_get "analysis_summary" analysis_result))
    +:+ nl +:+ nl in
  let questions := default JNull (dict_get "recommended_questions" analysis_result) in
  if truthy questions then
    n ← py_len questions;
    Ok (head +:+ "Let's continue improving this section with "
        +:+ pretty n +:+ " more targeted questions.")
  else
    Ok (head +:+ "🎉 This section looks complete! You can switch to another section or continue refining.").

(** The last part of [_node] (lines 456-505): the decision moves the
    conversation to a section, out of the section, or leaves it in place.
    [sections] is the dictionary [compact_sections] built at line 307. *)
Definition dispatch_decision (sections : gmap string pydict) (parsed : pydict)
  : M node_result :=
  modify (set_routing_attempts 0%Z);;
  let action := dict_get "action" parsed in
  let route_to := default JNull (dict_get "route" parsed) in
  let answer_text := default (JStr "") (dict_get "answer" parsed) in
  state ← get_state;
  let follow_route : M node_result :=
    key ← lift (as_key route_to);
    match key with
    | Some target =>
        if bool_decide (is_Some (sections !! target)) then
          modify (set_current_section (Some target));;
          mret ReturnState
        else
          append_new_message "assistant"
            (unknown_section_message route_to sections);;
          mret ReturnState
    | None =>
        append_new_message "assistant"
          (unknown_section_message route_to sections);;
        mret ReturnState
    end in
  match truthy_section (current_section state) with
  | Some _ =>
      if eq_str action "switch" && truthy route_to then follow_route
      else if eq_str action "exit" then
        modify (set_current_section None);;
        let exit_msg :=
          if truthy answer_text then answer_text
          else JStr "Back to general chat. How can I help you with your resume?" in
        append_new_message "assistant" exit_msg;;
        mret ReturnState
      else
        (if truthy answer_text
         then append_new_message "assistant" answer_text
         else mret tt);;
        mret ReturnState
  | None =>
      if eq_str action "route" && truthy route_to then follow_route
      else
        let answer_text :=
          if truthy answer_text then answer_text
          else JStr "I'm here to help with your resume. Would you like to work on a specific section?" in
        state_response ← lift (make_message "assistant" answer_text);
        append_message state_response;;
        mret (ReturnMessage state_response)
  end.

(** The guarded part of [_node] (lines 372-454): [inl] is a value returned
    from inside the [try], [inr] the decision with which the node goes on. *)
Definition decide_and_reconcile (user_text recommended_questions : json)
  : M (node_result + pydict) :=
  try_except
    (parsed ← call_llm_json_decision OFFLINE_MODE json_loads;
     state ← get_state;
     match truthy_section (current_section state) with
     | Some section =>
         if eq_str (dict_get "action" parsed) "apply" then
           let updated_content :=
             default (JStr "") (dict_get "updated_section_content" parsed) in
           if truthy updated_content then
             analysis_result ← apply_section_changes section updated_content;
             confirmation_msg ← lift (confirmation_message section analysis_result);
             append_new_message "assistant" (JStr confirmation_msg);;
             mret (inl ReturnState)
           else
             append_new_message "assistant"
               (JStr "I couldn't find the updated content to apply. Could you please confirm the changes you'd like to make?");;
             mret (inl ReturnState)
         else
           reconcile_answers parsed user_text recommended_questions;;
           mret (inr parsed)
     | None =>
         reconcile_answers parsed user_text recommended_questions;;
         mret (inr parsed)
     end)
    any_Exception
    (fun e =>
       let fallback_text :=
         if is_ValueError e
         then "I'm having trouble understanding your request. Could you please rephrase?"
         else "I encountered an error. How can I help you with your resume?" in
       state_response ← lift (make_message "assistant" (JStr fallback_text));
       append_message state_response;;
       mret (inl (ReturnMessage state_response))).

(** Lines 293-505 of [_node]: the turn of the section once [src_node] is
    recorded.  The window of the last messages and the content of the
    section (lines 325-342) only feed the prompt; of the lines that prepare
    it, the membership test of line 345 is kept, which raises a [TypeError]
    when a section is current and [resume_schema] is [None]. *)
Definition section_turn (section : string) : M node_result :=
  state ← get_state;
  let user_text := last_user_text state in
  leave ←
    (if truthy user_text then
       direct ← lift (detect_direct_routing user_text);
       match direct with
       | Some target =>
           if negb (Py.is_empty target) && negb (String.eqb target section) then
             modify (set_current_section (Some target));;
             append_new_message "assistant"
               (JStr (json_dumps (JDict [("route", JStr target);
                                         ("note", JStr "Switching section")])));;
             mret true
           else mret false
       | None => mret false
       end
     else mret false);
  if leave : bool then mret ReturnState
  else
    leave ←
      (if truthy user_text then
         t ← lift (py_lower user_text);
         if Py.any_in exit_phrases t then
           modify (set_current_section None);;
           append_new_message "assistant"
             (JStr "Leaving section. Back to general analysis.");;
           mret true
         else mret false
       else mret false);
    if leave : bool then mret ReturnState
    else
      state ← get_state;
      let sections := compact_sections state in
      recommended_questions ← initialize_current_answers;
      (match truthy_section (current_section state), resume_schema state with
       | Some _, None => raise TypeError
       | _, _ => mret tt
       end);;
      r ← decide_and_reconcile user_text recommended_questions;
      match r with
      | inl result => mret result
      | inr parsed => dispatch_decision sections parsed
      end.

(** [create_section_node(section)]: the node [_node] of one section. *)
Definition create_section_node (section : string) : M node_result :=
  modify (fun st => set_src_node (current_section st) st);;
  section_turn section.

(* ===================================================================== *)
(** * agents/general_chat_section_routing.py *)
(* ===================================================================== *)

(** The end of [general_chat_and_section_routing] (lines 124-134): the
    answer of the decision, or the fixed reply when there is none. *)
Definition answer_or_fallback (action : option json) (answer_text : json)
  : M node_result :=
  if eq_str action "answer" then
    let answer_text :=
      if truthy answer_text then answer_text
      else JStr "I cannot determine an answer — please provide more details or ask to route to a specific section." in
    state_response ← lift (make_message "assistant" answer_text);
    append_message state_response;;
    mret (ReturnMessage state_response)
  else
    let fallback :=
      JStr "I couldn't decide automatically. Would you like me to (1) analyze sections to suggest improvements, or (2) open a specific section? Use /skills, /experiences, /education, or /projects." in
    state_response ← lift (make_message "assistant" fallback);
    append_message state_response;;
    mret (ReturnMessage state_response).

(** [general_chat_and_section_routing(state, config)].  The user text, the
    compact sections and the window of the last messages only feed the
    prompts. *)
Definition general_chat_and_section_routing : M node_result :=
  state ← get_state;
  match truthy_section (current_section state) with
  | Some current =>
      let route_json := JDict [("route", JStr current)] in
      append_new_message "assistant" (JStr (json_dumps route_json));;
      mret ReturnState
  | None =>
      r ← try_except
        (parsed ← call_llm_json_decision OFFLINE_MODE json_loads;
         mret (inr parsed))
        any_Exception
        (fun _ =>
           state ← get_state;
           match truthy_section (current_section state) with
           | Some _ => mret (inl ReturnState)
           | None =>
               text ← try_except
                 (t ← completion "fallback_answer";
                  mret (match t with
                        | Some s =>
                            if Py.is_empty s
                            then "Sorry — I couldn't generate a response."
                            else s
                        | None => "Sorry — I couldn't generate a response."
                        end))
                 any_Exception
                 (fun _ =>
                    mret "Sorry — analysis temporarily unavailable. Try again later.");
               append_new_message "assistant" (JStr text);;
               mret (inl ReturnState)
           end);
      match r with
      | inl result => mret result
      | inr parsed =>
          let action := dict_get "action" parsed in
          let route_to := default JNull (dict_get "route" parsed) in
          let answer_text := default JNull (dict_get "answer" parsed) in
          match route_to with
          | JStr target =>
              if eq_str action "route" && truthy route_to
                 && bool_decide (target ∈ SECTION_NAMES)
              then
                modify (set_current_section (Some target));;
                let reason := default JNull (dict_get "reason" parsed) in
                let note :=
                  if truthy reason then reason
                  else JStr ("Routing to '" +:+ target +:+ "'") in
                let confirm_json := JDict [("route", route_to); ("note", note)] in
                append_new_message "assistant" (JStr (json_dumps confirm_json));;
                mret ReturnState
              else answer_or_fallback action answer_text
          | _ => answer_or_fallback action answer_text
          end
      end
  end.

End Nodes.


(** ** The parser, in the words of the specification *)

(** The text is empty or holds white space only. *)
Definition all_space (s : string) : bool := forallb Py.isspace (Py.chars s).

(** A value that can be hashed: anything but a list or a dict. *)
Definition hashable (j : json) : bool :=
  match j with
  | JList _ | JDict _ => false
  | _ => true
  end.


(** The decision returned for a text without an object. *)
Definition plain_answer (text : string) : pydict :=
  [("action", JStr "answer"); ("route", JNull); ("answer", JStr text)].


(** A slot that is not [None] ([null]). *)
Definition not_null (j : json) : Prop := is_null j = false.


(** ** States of the examples *)

(** A conversation in the section [skills] whose answer array is [answers]
    and whose analysis holds the questions [questions]. *)
Definition skills_state (questions answers : list json) : ResumeBuilderState :=
  set_recommended_answers {[ "skills" := answers ]}
    (set_section_objects {[ "skills" := [("recommended_questions", JList questions)] ]}
       (set_current_section (Some "skills") new_state)).


(** ** Properties of computations *)

(** [silent m]: [m] ends without a request to the oracle. *)
Definition silent {A : Type} (m : M A) : Prop :=
  forall st, exists r st', m st = Ret (r, st').

(** [keeps R m]: every run of [m] relates the state it starts from and the
    state it ends in by [R], whether it ends normally or raises. *)
Definition keeps {A : Type} (R : relation ResumeBuilderState) (m : M A) : Prop :=
  forall st, wp (m st) (fun r _ => R st (snd r)).

(** The fields a computation may change besides the context, the routing
    counter and the current section: [frame st st'] holds when [st'] has the
    [src_node] of [st]. *)
Definition same_src_node (st st' : ResumeBuilderState) : Prop :=
  src_node st' = src_node st.


(** What an apply leaves behind when the re-analysis fails: [st'] is [st]
    with the content of the section replaced, the answer array of the
    section emptied, and a CV summary that differs from the one of [st] at
    the key of the section at most. *)
Definition changes_saved (section : string) (content : json)
    (st st' : ResumeBuilderState) : Prop :=
  st' = set_recommended_answers (<[section := []]> (recommended_answers st))
          (set_cv_summary (cv_summary st')
             (set_resume_sections (<[section := content]> (resume_sections st)) st))
  /\ forall k, k <> section -> cv_summary st' !! k = cv_summary st !! k.


(** The state of the example of an apply: the section [skills] holds the
    content [Python], one question and one answer. *)
Definition apply_example_state : ResumeBuilderState :=
  set_resume_sections {[ "skills" := JStr "Python" ]}
    (skills_state [JStr "Which language do you know best?"] [JStr "I know Rust"]).


(** A conversation in the section [skills] with a schema, one question, no
    answer yet, and a last message of the user. *)
Definition turn_example_state : ResumeBuilderState :=
  {| jd_summary := Some "Backend engineer";
     resume_sections := {[ "skills" := JStr "Python" ]};
     section_objects :=
       {[ "skills" := [("recommended_questions",
                        JList [JStr "Which language do you know best?"])] ]};
     current_section := Some "skills";
     src_node := None;
     recommended_answers := ∅;
     routing_attempts := 0%Z;
     resume_schema := Some ∅;
     cv_summary := ∅;
     context := [mkMessage "user" (JStr "I know Rust best")];
     context_summary := None;
     execution_meta := START |}.

(** The decision of the example: the model stays in the section and places
    the answer of the user at index 0. *)
Definition turn_example_decision : pydict :=
  [("action", JStr "stay"); ("route", JNull);
   ("answer", JStr "Noted.");
   ("question_matches", JList [JInt 0]);
   ("updated_answers", JList [JStr "I know Rust best"])].


(** What a turn of the router leaves.  When it returns: one more message,
    of the assistant and with a text as content, and a current section that
    is the old one or a known section name.  When it raises: the state it
    started from, and the exception is the [AttributeError] of
    [make_message]. *)
Definition router_post (st : ResumeBuilderState)
    (r : outcome node_result * ResumeBuilderState) : Prop :=
  (exists res m,
     fst r = Ok res
     /\ snd r = set_context (context st ++ [m])
                  (set_current_section (current_section (snd r)) st)
     /\ role m = "assistant"
     /\ (exists t, content m = JStr t)
     /\ (res = ReturnState \/ res = ReturnMessage m)
     /\ (current_section (snd r) = current_section st
         \/ exists s, s ∈ SECTION_NAMES /\ current_section (snd r) = Some s))
  \/ (fst r = Exc AttributeError /\ snd r = st).

(** The reply of the router when the decision is neither a known route nor
    an answer (line 131). *)
Definition undecided_reply : Message :=
  mkMessage "assistant"
    (JStr "I couldn't decide automatically. Would you like me to (1) analyze sections to suggest improvements, or (2) open a specific section? Use /skills, /experiences, /education, or /projects.").


(** [st'] holds the section contents, the section analyses and the CV
    summary of [st]. *)
Definition same_content (st st' : ResumeBuilderState) : Prop :=
  (resume_sections st', section_objects st', cv_summary st')
  = (resume_sections st, section_objects st, cv_summary st).

(** [st'] has the current section of [st]. *)
Definition same_current_section (st st' : ResumeBuilderState) : Prop :=
  current_section st' = current_section st.







(** Where a section node can leave the conversation: in the section of the
    state [st] it starts from, in no section, in a section of
    [SECTION_NAMES], or in a section with an analysis in [st]. *)
Definition section_moved (st st' : ResumeBuilderState) : Prop :=
  current_section st' = current_section st
  \/ current_section st' = None
  \/ exists t, current_section st' = Some t
       /\ (t ∈ SECTION_NAMES \/ is_Some (section_objects st !! t)).

(** A value that is a text. *)
Definition is_text (j : json) : bool :=
  match j with JStr _ => true | _ => false end.

(** The decisions for which [dispatch_decision] looks the route up in the
    dictionary of sections (lines 463-464 and 487-488). *)
Definition follows_route (parsed : pydict) (st : ResumeBuilderState) : bool :=
  let route_to := default JNull (dict_get "route" parsed) in
  match truthy_section (current_section st) with
  | Some _ => eq_str (dict_get "action" parsed) "switch" && truthy route_to
  | None => eq_str (dict_get "action" parsed) "route" && truthy route_to
  end.


(** A conversation in the section [skills] whose state also holds an
    analysis under the name [awards], which is no section of
    [SECTION_NAMES]. *)
Definition awards_state : ResumeBuilderState :=
  set_section_objects (<["awards" := []]> (section_objects turn_example_state))
    turn_example_state.


(* ===================================================================== *)
(** * graph_builder.py: the edges of the graph *)
(* ===================================================================== *)

#[global] Instance marker_eq_dec : EqDecision marker.
Proof. solve_decision. Defined.

(** The upper case of the letters of Basic Latin and of the Latin-1
    Supplement. *)
Definition title_char (w : string) : string :=
  let n := Py.ord w in
  if negb (Py.well_formed w) then w
  else if (n =? 223)%N then "Ss"
  else if (n =? 181)%N then Py.chr 924
  else if (n =? 255)%N then Py.chr 376
  else if (((97 <=? n) && (n <=? 122)) || ((224 <=? n) && (n <=? 246))
           || ((248 <=? n) && (n <=? 254)))%N
  then Py.chr (n - 32)
  else w.

(** [s.capitalize()]: the first character in title case, the others in
    lower case.  The title case is the one of [title_char]; a first
    character of another script is left as it is. *)
Definition capitalize (s : string) : string :=
  match Py.chars s with
  | [] => EmptyString
  | w :: ws => title_char w +:+ Py.unchars (Py.lower_char <$> ws)
  end.

(** The name of the node of a section (lines 70 and 93). *)
Definition node_name (section_name : string) : string :=
  capitalize section_name +:+ "Section".

(** The dictionary comprehension of lines 87 and 94. *)
Definition section_edges : list (marker * marker) :=
  (fun s => (Name s, Name (node_name s))) <$> SECTION_NAMES.

(** [routing_map] (lines 87-88): the edges that leave [AnalyzeUserQuery]. *)
Definition routing_map : list (marker * marker) :=
  section_edges ++ [(END, END)].

(** [section_routing_map] (lines 94-96): the edges that leave a section
    node. *)
Definition section_routing_map : list (marker * marker) :=
  section_edges ++ [(Name "general_chat", Name "AnalyzeUserQuery"); (END, END)].

(** The entry of a map of edges for the marker that [route_to_section]
    returned. *)
Definition edge (edges : list (marker * marker)) (k : marker) : option marker :=
  snd <$> List.find (fun p => bool_decide (fst p = k)) edges.


(** [last_assistant_message(messages)] (utils.py, lines 140-145) *)
Definition last_assistant_message (messages : list Message) : option Message :=
  List.find (fun m => String.eqb (role m) "assistant") (rev messages).

(** [extract_assistant_text(result)] (utils.py, lines 147-157) for a result
    that is a dictionary: [messages] is its entry ["messages"], the empty
    list when it has none, and [state] its entry ["state"]. *)
Definition extract_assistant_text (messages : list Message)
    (state : option ResumeBuilderState) : json :=
  let a := last_assistant_message messages in
  let a :=
    match a with
    | Some _ => a
    | None =>
        match state with
        | Some st =>
            match context st with
            | [] => a
            | ctx => last_assistant_message ctx
            end
        | None => a
        end
    end in
  match a with
  | Some m => content m
  | None => JStr "(No response)"
  end.


(** An answer that [update_cv_summary] passes over (line 42): a false value,
    or a text of white space only. *)
Definition blank_answer (answer : json) : bool :=
  negb (truthy answer)
  || match answer with
     | JStr t => Py.is_empty (Py.strip t)
     | _ => false
     end.


(* ===================================================================== *)
(** * graph_builder.py: the chat loop *)
(* ===================================================================== *)

Definition MAX_MESSAGES : nat := 30.

(** [messages[-MAX_MESSAGES:]] when the list is longer than [MAX_MESSAGES]
    (lines 136-137 and 221-222). *)
Definition trim_messages (messages : list Message) : list Message :=
  if MAX_MESSAGES <? length messages
  then drop (length messages - MAX_MESSAGES) messages
  else messages.

(** Lines 133-137 of [run_interactive_session] and 219-222 of [on_message]:
    the text of the user is appended and the history is trimmed. *)
Definition push_user_message (messages : list Message) (user_text : string)
  : list Message :=
  trim_messages (messages ++ [mkMessage "user" (JStr user_text)]).

(* ===================================================================== *)
(** * api_gradio_ui.py *)
(* ===================================================================== *)

(** The body of the loop of [sanitize_messages]: an item that is no object
    is skipped. *)
Definition sanitize_message (m : json) : option json :=
  match m with
  | JDict kv =>
      Some (JDict [("role", default JNull (dict_get "role" kv));
                   ("content", default JNull (dict_get "content" kv))])
  | _ => None
  end.

(** [sanitize_messages(messages)] *)
Definition sanitize_messages (messages : json) : outcome (list json) :=
  match (if truthy messages then py_iter messages else Ok []) with
  | Ok items => Ok (omap sanitize_message items)
  | Exc e => Exc e
  end.


(** A conversation in the section [education], with a schema, one question
    and an answer slot for it, next to a section [skills] with one
    question; the user asks to apply a change. *)
Definition two_sections_state : ResumeBuilderState :=
  {| jd_summary := Some "Backend engineer";
     resume_sections := {[ "education" := JStr "BSc" ]};
     section_objects :=
       {[ "education" := [("recommended_questions",
                           JList [JStr "Which degree do you hold?"])];
          "skills" := [("recommended_questions",
                        JList [JStr "Which language do you know best?"])] ]};
     current_section := Some "education";
     src_node := None;
     recommended_answers := {[ "education" := [JStr ""] ]};
     routing_attempts := 0%Z;
     resume_schema := Some ∅;
     cv_summary := ∅;
     context := [mkMessage "user" (JStr "Please apply it")];
     context_summary := None;
     execution_meta := START |}.

(** The decision to apply a new content. *)
Definition apply_example_decision : pydict :=
  [("action", JStr "apply");
   ("updated_section_content", JStr "MSc in Computing")].

(* ===================================================================== *)
(** * Properties *)
(* ===================================================================== *)

(** ** Programs and their runs *)

Lemma wp_mono {A : Type} (p : Prog A) (Q Q' : A -> list (string * llm_reply) -> Prop) :
  (forall a tr, Q a tr -> Q' a tr) -> wp p Q -> wp p Q'.
Proof.
  revert Q Q'. induction p as [a | l k IH]; intros Q Q' HQ; simpl.
  - apply HQ.
  - intros Hk r. eapply IH; [| apply Hk]. intros a tr. apply HQ.
Qed.

Lemma wp_bind {A B : Type} (p : Prog A) (f : A -> Prog B)
    (Q : B -> list (string * llm_reply) -> Prop) :
  wp p (fun a tr => wp (f a) (fun b tr' => Q b (tr ++ tr'))) ->
  wp (prog_bind p f) Q.
Proof.
  revert Q. induction p as [a | l k IH]; intros Q; simpl.
  - intros H. eapply wp_mono; [| exact H]. simpl. auto.
  - intros H r. apply IH. eapply wp_mono; [| apply H]. simpl. auto.
Qed.

(** A run is one of the runs [wp] speaks about. *)
Lemma wp_run {A : Type} (p : Prog A) (Q : A -> list (string * llm_reply) -> Prop)
    (replies : list llm_reply) (a : A) (labels : list string) :
  wp p Q -> run p replies = Some (a, labels) ->
  Q a (zip labels replies) /\ length labels = length replies.
Proof.
  revert Q replies labels.
  induction p as [b | l k IH]; intros Q replies labels Hwp Hrun.
  - destruct replies; simpl in Hrun; [| discriminate].
    injection Hrun as <- <-. split; [exact Hwp | reflexivity].
  - destruct replies as [| r rs]; simpl in Hrun; [discriminate |].
    destruct (run (k r) rs) as [[a' ls] |] eqn:E; [| discriminate].
    injection Hrun as <- <-.
    destruct (IH r _ rs ls (Hwp r) E) as [HQ Hlen].
    split; [exact HQ | simpl; by rewrite Hlen].
Qed.

(** ** The state setters *)

Lemma dict_or_empty_id {V : Type} (d : gmap string V) : dict_or_empty d = d.
Proof.
  unfold dict_or_empty. case_decide as H; [| reflexivity].
  symmetry. by apply map_size_empty_iff.
Qed.

Lemma list_or_empty_id {V : Type} (l : list V) : list_or_empty l = l.
Proof. by destruct l. Qed.

Lemma truthy_section_Some (o : option string) (s : string) :
  o = Some s -> s <> "" -> truthy_section o = Some s.
Proof. intros -> Hs. destruct s; [done | reflexivity]. Qed.

Lemma truthy_section_inv (o : option string) (s : string) :
  truthy_section o = Some s -> o = Some s /\ s <> "".
Proof.
  destruct o as [t |]; simpl; [| discriminate].
  destruct t; simpl; [discriminate |]. intros [= <-]. by split.
Qed.

(** ** C10: the per-turn clone *)

(** C10. [clone_state] carries [jd_summary], [resume_sections],
    [section_objects], [context], [current_section], [cv_summary] and
    [recommended_answers] over from the old state, and leaves [src_node],
    [routing_attempts] and [resume_schema] at the defaults of a new state
    ([None], [0], [None]), whatever the old state holds there. *)
Theorem clone_state_carries_and_resets (old_state : ResumeBuilderState) :
  let s := clone_state old_state in
  jd_summary s = jd_summary old_state
  /\ resume_sections s = resume_sections old_state
  /\ section_objects s = section_objects old_state
  /\ context s = context old_state
  /\ current_section s = current_section old_state
  /\ cv_summary s = cv_summary old_state
  /\ recommended_answers s = recommended_answers old_state
  /\ src_node s = None
  /\ routing_attempts s = 0%Z
  /\ resume_schema s = None.
Proof.
  simpl. rewrite !dict_or_empty_id, list_or_empty_id. repeat split.
Qed.

(** ** C8: the router passes an active section through *)



(** ** C3: the gateway *)

(** Whatever the completion call and the parser do, the gateway returns a
    decision and leaves the state alone: it never ends with an exception. *)
Lemma gateway_never_raises (OFFLINE_MODE : bool)
    (json_loads : string -> loads_result) (state : ResumeBuilderState) :
  wp (call_llm_json_decision OFFLINE_MODE json_loads state)
     (fun r _ => exists d, r = (Ok d, state)).
Proof.
  unfold call_llm_json_decision. destruct OFFLINE_MODE; simpl.
  - by eexists.
  - intros [| t]; simpl; [by eexists |].
    destruct (extract_and_validate_json json_loads (default "" t));
      simpl; by eexists.
Qed.

(** C3 (what the code does). Outside offline mode, a reply whose text the
    parser rejects gives the same decision as a completion call that raises:
    the apology of [error_decision], with one request made and no exception
    for the caller. *)
Theorem gateway_swallows_parser_failure (json_loads : string -> loads_result)
    (state : ResumeBuilderState) (t : option string) (e : exn) :
  extract_and_validate_json json_loads (default "" t) = Exc e ->
  run (call_llm_json_decision false json_loads state) [ReplyText t]
  = Some ((Ok error_decision, state), ["router"])
  /\ run (call_llm_json_decision false json_loads state) [ReplyFailure]
     = Some ((Ok error_decision, state), ["router"]).
Proof.
  intros H. unfold call_llm_json_decision. simpl. by rewrite H.
Qed.

Lemma gateway_swallows_parser_failure_witness :
  run (call_llm_json_decision false (fun _ => NotJson "") new_state)
      [ReplyText (Some "")]
  = Some ((Ok error_decision, new_state), ["router"]).
Proof.
  apply (gateway_swallows_parser_failure (fun _ => NotJson "") new_state
           (Some "") (ValueError "Empty response from LLM")).
  reflexivity.
Defined.

(** ** C7: the decision parser *)

Lemma Forall_of_suffix {A : Type} (P : A -> Prop) (l1 l2 : list A) :
  l1 `suffix_of` l2 -> Forall P l2 -> Forall P l1.
Proof. intros [k ->] H. by apply Forall_app in H as [_ ?]. Qed.

Lemma chars_nonempty (s : string) :
  Forall (fun w => Py.is_empty w = false) (Py.chars s).
Proof.
  induction s as [| c s IH]; simpl; [constructor |].
  destruct (Py.chars s) as [| w ws]; [by repeat constructor |].
  inversion IH; subst.
  destruct (Py.starts_with_continuation w); by repeat constructor.
Qed.

Lemma unchars_empty (l : list string) :
  Forall (fun w => Py.is_empty w = false) l ->
  Py.is_empty (Py.unchars l) = match l with [] => true | _ => false end.
Proof.
  destruct l as [| w ws]; [done |]. intros H. inversion H as [| ? ? Hw _]; subst.
  by destruct w.
Qed.

Lemma drop_spaces_nil (l : list string) :
  Py.drop_spaces l = [] <-> forallb Py.isspace l = true.
Proof.
  induction l as [| w ws IH]; simpl; [done |].
  destruct (Py.isspace w); simpl; [exact IH | done].
Qed.

Lemma drop_spaces_suffix (l : list string) : Py.drop_spaces l `suffix_of` l.
Proof.
  induction l as [| w ws IH]; simpl; [done |].
  destruct (Py.isspace w); [by apply suffix_cons_r | done].
Qed.

Lemma drop_spaces_head (l : list string) (w : string) (ws : list string) :
  Py.drop_spaces l = w :: ws -> Py.isspace w = false.
Proof.
  induction l as [| x xs IH]; simpl; [discriminate |].
  destruct (Py.isspace x) eqn:E; [exact IH |]. by intros [= <- <-].
Qed.

(** What is left of a list that does not hold white space only still holds
    a character once the white space at its end is dropped. *)
Lemma drop_spaces_rev (l : list string) :
  forallb Py.isspace l = false -> Py.drop_spaces (rev l) <> [].
Proof.
  intros H Hnil. apply drop_spaces_nil in Hnil.
  rewrite forallb_forall in Hnil.
  assert (forallb Py.isspace l = true); [| congruence].
  apply forallb_forall. intros x Hx. apply Hnil. by apply in_rev in Hx.
Qed.

Lemma strip_empty (s : string) : Py.is_empty (Py.strip s) = all_space s.
Proof.
  unfold Py.strip, all_space.
  pose proof (chars_nonempty s) as Hne.
  destruct (forallb Py.isspace (Py.chars s)) eqn:F.
  - apply drop_spaces_nil in F. by rewrite F.
  - set (l := Py.drop_spaces (Py.chars s)).
    assert (Hl : forallb Py.isspace l = false).
    { destruct (forallb Py.isspace l) eqn:G; [| done].
      destruct l as [| w ws] eqn:E.
      - apply drop_spaces_nil in E. congruence.
      - simpl in G. by rewrite (drop_spaces_head _ _ _ E) in G. }
    rewrite unchars_empty.
    + destruct (rev (Py.drop_spaces (rev l))) eqn:E; [| done].
      apply (f_equal (@rev string)) in E. rewrite rev_involutive in E.
      by apply drop_spaces_rev in E.
    + apply Forall_rev. eapply Forall_of_suffix; [apply drop_spaces_suffix |].
      apply Forall_rev. eapply Forall_of_suffix; [apply drop_spaces_suffix |].
      exact Hne.
Qed.

Lemma blank_all_space (s : string) :
  Py.is_empty s || Py.is_empty (Py.strip s) = all_space s.
Proof. rewrite strip_empty. by destruct s. Qed.


(** An action that cannot be hashed makes the membership test of the parser
    raise a [TypeError], which is not a [ValueError]. *)
Lemma parser_unhashable_action (text : string) :
  extract_and_validate_json
    (fun _ => Loaded (JDict [("action", JList [JStr "stay"])])) "{}"
  = Exc TypeError.
Proof. reflexivity. Qed.



(** ** Lists of answers *)

Lemma truthy_not_null (v : json) : truthy v = true -> not_null v.
Proof. by destruct v. Qed.

Lemma Forall_insert_answer (P : json -> Prop) (l : list json) (i : nat) (v : json) :
  Forall P l -> P v -> Forall P (<[i:=v]> l).
Proof.
  intros Hl Hv. destruct (decide (i < length l)) as [Hi | Hi].
  - by apply Forall_insert.
  - rewrite list_insert_ge; [done | lia].
Qed.

Lemma place_match_length (ua answers : list json) (j : json) :
  length (place_match ua answers j) = length answers.
Proof.
  unfold place_match. repeat case_match; by rewrite ?length_insert.
Qed.

Lemma place_match_lookup (ua answers : list json) (j : json) (i : nat) :
  place_match ua answers j !! i
  = if selected_by_matches [j] ua (length answers) i then ua !! i else answers !! i.
Proof.
  unfold place_match, selected_by_matches, names_index. simpl.
  rewrite orb_false_r.
  destruct (as_int j) as [z |]; [| reflexivity].
  destruct (Z.eqb_spec z (Z.of_nat i)) as [-> | Hne].
  - rewrite Nat2Z.id.
    assert (E1 : (0 <=? Z.of_nat i)%Z = true) by (apply Z.leb_le; lia).
    rewrite E1. simpl.
    destruct (Nat.ltb_spec i (length answers)) as [Hi | Hi].
    + assert (E2 : (Z.of_nat i <? Z.of_nat (length answers))%Z = true)
        by (apply Z.ltb_lt; lia).
      rewrite E2. simpl.
      destruct (ua !! i) as [v |] eqn:Hv.
      * apply lookup_lt_Some in Hv as Hlt.
        assert (E3 : (Z.of_nat i <? Z.of_nat (length ua))%Z = true)
          by (apply Z.ltb_lt; lia).
        rewrite E3. destruct (truthy v); [| reflexivity].
        by rewrite list_lookup_insert_eq.
      * by destruct (Z.of_nat i <? Z.of_nat (length ua))%Z.
    + assert (E2 : (Z.of_nat i <? Z.of_nat (length answers))%Z = false)
        by (apply Z.ltb_ge; lia).
      rewrite E2. reflexivity.
  - simpl.
    destruct ((0 <=? z)%Z && (z <? Z.of_nat (length answers))%Z
              && (z <? Z.of_nat (length ua))%Z) eqn:E; [| reflexivity].
    destruct (ua !! Z.to_nat z) as [v |]; [| reflexivity].
    destruct (truthy v); [| reflexivity].
    apply list_lookup_insert_ne.
    apply andb_true_iff in E as [E _]. apply andb_true_iff in E as [E _].
    apply Z.leb_le in E. lia.
Qed.

Lemma selected_by_matches_cons (j : json) (qm ua : list json) (n i : nat) :
  selected_by_matches (j :: qm) ua n i
  = selected_by_matches [j] ua n i || selected_by_matches qm ua n i.
Proof.
  unfold selected_by_matches. simpl.
  destruct (names_index i j), (existsb (names_index i) qm), (i <? n);
    simpl; try reflexivity; by destruct (ua !! i) as [v |]; [destruct (truthy v) |].
Qed.

Lemma place_matches_spec (qm ua answers : list json) :
  length (place_matches qm ua answers) = length answers
  /\ forall i,
       place_matches qm ua answers !! i
       = if selected_by_matches qm ua (length answers) i
         then ua !! i else answers !! i.
Proof.
  unfold place_matches. revert answers.
  induction qm as [| j qm IH]; intros answers; simpl.
  - split; [reflexivity |]. intros i. unfold selected_by_matches. reflexivity.
  - destruct (IH (place_match ua answers j)) as [Hlen Hlook].
    rewrite place_match_length in Hlen, Hlook.
    split; [exact Hlen |]. intros i.
    rewrite Hlook, selected_by_matches_cons, place_match_lookup.
    destruct (selected_by_matches [j] ua (length answers) i),
             (selected_by_matches qm ua (length answers) i); reflexivity.
Qed.

Lemma place_matches_Forall (P : json -> Prop) (qm ua answers : list json) :
  (forall v, truthy v = true -> P v) ->
  Forall P answers -> Forall P (place_matches qm ua answers).
Proof.
  intros HP. unfold place_matches. revert answers.
  induction qm as [| j qm IH]; intros answers Ha; simpl; [exact Ha |].
  apply IH. unfold place_match. repeat case_match; try exact Ha.
  apply Forall_insert_answer; auto.
Qed.

(** The loop over the slots. *)
Lemma fill_slot_length (ua answers : list json) (i : nat) :
  length (fill_slot ua answers i) = length answers.
Proof. unfold fill_slot. repeat case_match; by rewrite ?length_insert. Qed.

Lemma fill_slot_lookup (ua answers : list json) (i k : nat) :
  fill_slot ua answers i !! k
  = if bool_decide (k = i) && selected_by_threshold ua answers k
    then ua !! k else answers !! k.
Proof.
  unfold fill_slot, selected_by_threshold.
  case_bool_decide as Hk; simpl.
  - subst k. destruct (answers !! i) as [a |] eqn:Ha; [| done].
    destruct (ua !! i) as [v |] eqn:Hv; [| done].
    destruct (truthy v && below_threshold a); [| done].
    apply lookup_lt_Some in Ha. by rewrite list_lookup_insert_eq.
  - destruct (answers !! i) as [a |]; [| reflexivity].
    destruct (ua !! i) as [v |]; [| reflexivity].
    destruct (truthy v && below_threshold a); [| reflexivity].
    by rewrite list_lookup_insert_ne.
Qed.

Lemma fill_from_spec (ua : list json) (k a : nat) (answers : list json) :
  length (foldl (fill_slot ua) answers (seq a k)) = length answers
  /\ forall i,
       foldl (fill_slot ua) answers (seq a k) !! i
       = if bool_decide (a <= i < a + k) && selected_by_threshold ua answers i
         then ua !! i else answers !! i.
Proof.
  revert a answers. induction k as [| k IH]; intros a answers; simpl.
  - split; [reflexivity |]. intros i.
    rewrite bool_decide_eq_false_2; [reflexivity | lia].
  - destruct (IH (S a) (fill_slot ua answers a)) as [Hlen Hlook].
    rewrite fill_slot_length in Hlen. split; [exact Hlen |]. intros i.
    rewrite Hlook, fill_slot_lookup.
    destruct (decide (i = a)) as [-> | Hne].
    + rewrite (bool_decide_eq_false_2 (S a <= a < _)); [| lia]. simpl.
      rewrite !bool_decide_eq_true_2; [reflexivity | lia | reflexivity].
    + rewrite (bool_decide_eq_false_2 (i = a)); [| exact Hne]. simpl.
      assert (Hsel : selected_by_threshold ua (fill_slot ua answers a) i
                     = selected_by_threshold ua answers i).
      { unfold selected_by_threshold. rewrite fill_slot_lookup.
        rewrite (bool_decide_eq_false_2 (i = a)); [| exact Hne]. reflexivity. }
      rewrite Hsel.
      destruct (decide (S a <= i < S a + k)) as [Hin | Hout].
      * rewrite !bool_decide_eq_true_2; [reflexivity | lia | lia].
      * rewrite !bool_decide_eq_false_2; [reflexivity | lia | lia].
Qed.

Lemma fill_open_slots_spec (ua answers : list json) :
  length (fill_open_slots ua answers) = length answers
  /\ forall i,
       fill_open_slots ua answers !! i
       = if selected_by_threshold ua answers i then ua !! i else answers !! i.
Proof.
  unfold fill_open_slots.
  destruct (fill_from_spec ua (length answers) 0 answers) as [Hlen Hlook].
  split; [exact Hlen |]. intros i. rewrite Hlook.
  destruct (decide (i < length answers)) as [Hi | Hi].
  - rewrite bool_decide_eq_true_2; [reflexivity | lia].
  - rewrite bool_decide_eq_false_2; [| lia]. simpl.
    unfold selected_by_threshold.
    rewrite (lookup_ge_None_2 answers i); [reflexivity | lia].
Qed.

Lemma fill_open_slots_Forall (P : json -> Prop) (ua answers : list json) :
  (forall v, truthy v = true -> P v) ->
  Forall P answers -> Forall P (fill_open_slots ua answers).
Proof.
  intros HP. unfold fill_open_slots. generalize (seq 0 (length answers)) as idx.
  intros idx. revert answers.
  induction idx as [| i idx IH]; intros answers Ha; simpl; [exact Ha |].
  apply IH. unfold fill_slot. repeat case_match; try exact Ha.
  apply Forall_insert_answer; [exact Ha |]. apply HP.
  match goal with H : _ && _ = true |- _ => by apply andb_true_iff in H as [? _] end.
Qed.

(** The copy loop of the resize. *)
Lemma copy_from_spec (cur : list json) (k a : nat) (new : list json) :
  length (foldl (fun acc i => match cur !! i with
                              | Some x => <[i:=x]> acc
                              | None => acc
                              end) new (seq a k)) = length new
  /\ forall i,
       foldl (fun acc i => match cur !! i with
                           | Some x => <[i:=x]> acc
                           | None => acc
                           end) new (seq a k) !! i
       = if bool_decide (a <= i < a + k /\ i < length new /\ i < length cur)
         then cur !! i else new !! i.
Proof.
  revert a new. induction k as [| k IH]; intros a new; simpl.
  - split; [reflexivity |]. intros i.
    rewrite bool_decide_eq_false_2; [reflexivity | lia].
  - set (new' := match cur !! a with Some x => <[a:=x]> new | None => new end).
    assert (Hlen' : length new' = length new).
    { subst new'. destruct (cur !! a); by rewrite ?length_insert. }
    destruct (IH (S a) new') as [Hlen Hlook].
    split; [by rewrite Hlen |]. intros i. rewrite Hlook, Hlen'.
    destruct (decide (i = a)) as [-> | Hne].
    + rewrite (bool_decide_eq_false_2 (S a <= a < _ /\ _)); [| lia].
      subst new'. destruct (cur !! a) as [x |] eqn:Hx.
      * apply lookup_lt_Some in Hx as Hlt.
        destruct (decide (a < length new)) as [Ha | Ha].
        -- rewrite bool_decide_eq_true_2; [| lia].
           by rewrite list_lookup_insert_eq.
        -- rewrite bool_decide_eq_false_2; [| lia].
           rewrite list_insert_ge; [reflexivity | lia].
      * apply lookup_ge_None in Hx.
        rewrite bool_decide_eq_false_2; [reflexivity | lia].
    + assert (Hn : new' !! i = new !! i).
      { subst new'. destruct (cur !! a); [| reflexivity].
        by rewrite list_lookup_insert_ne. }
      rewrite Hn.
      destruct (decide (S a <= i < S a + k /\ i < length new /\ i < length cur)).
      * rewrite !bool_decide_eq_true_2; [reflexivity | lia | lia].
      * rewrite !bool_decide_eq_false_2; [reflexivity | lia | lia].
Qed.

Lemma copy_front_resized (n : nat) (cur : list json) :
  copy_front (Nat.min (length cur) n) cur (empty_answers n) = resized n cur.
Proof.
  unfold copy_front, empty_answers, resized.
  destruct (copy_from_spec cur (Nat.min (length cur) n) 0 (replicate n (JStr "")))
    as [Hlen Hlook].
  apply list_eq. intros i. rewrite Hlook, length_replicate.
  destruct (decide (i < Nat.min (length cur) n)) as [Hi | Hi].
  - rewrite bool_decide_eq_true_2; [| lia].
    rewrite lookup_app_l; [| rewrite length_take; lia].
    rewrite lookup_take_lt; [reflexivity | lia].
  - rewrite bool_decide_eq_false_2; [| lia].
    destruct (decide (i < n)) as [Hn | Hn].
    + assert (length cur <= i) by lia.
      rewrite lookup_app_r; rewrite length_take; [| lia].
      rewrite !lookup_replicate_2; [reflexivity | lia | lia].
    + rewrite !lookup_ge_None_2; [reflexivity | |].
      * rewrite length_app, length_take, length_replicate. lia.
      * rewrite length_replicate. lia.
Qed.

Lemma resized_length (n : nat) (cur : list json) : length (resized n cur) = n.
Proof. unfold resized. rewrite length_app, length_take, length_replicate. lia. Qed.

Lemma resized_same_length (cur : list json) : resized (length cur) cur = cur.
Proof.
  unfold resized. rewrite firstn_all, Nat.sub_diag. simpl. apply app_nil_r.
Qed.

Lemma resized_nil (n : nat) : resized n [] = empty_answers n.
Proof. unfold resized, empty_answers. simpl. by rewrite take_nil, Nat.sub_0_r. Qed.

Lemma resized_Forall (n : nat) (cur : list json) :
  Forall not_null cur -> Forall not_null (resized n cur).
Proof.
  intros H. unfold resized. apply Forall_app. split.
  - by apply Forall_take.
  - apply Forall_replicate. reflexivity.
Qed.

(** The setters and the fields they leave alone. *)
Lemma set_recommended_answers_id (st : ResumeBuilderState) :
  set_recommended_answers (recommended_answers st) st = st.
Proof. by destruct st. Qed.

Lemma set_recommended_answers_twice (a b : gmap string (list json))
    (st : ResumeBuilderState) :
  set_recommended_answers a (set_recommended_answers b st)
  = set_recommended_answers a st.
Proof. reflexivity. Qed.

(** [safe_initialize_answers] ends at once; the array of the section becomes
    the resized array. *)
Lemma safe_initialize_answers_spec (s : string) (qs : list json)
    (st : ResumeBuilderState) :
  safe_initialize_answers s (JList qs) st
  = Ret (Ok tt,
         set_recommended_answers
           (<[s := resized (length qs) (default [] (recommended_answers st !! s))]>
              (recommended_answers st)) st).
Proof.
  unfold safe_initialize_answers, mbind, M_bind, get_state. simpl.
  destruct (recommended_answers st !! s) as [cur |] eqn:Hcur; simpl.
  - case_bool_decide as Hlen; simpl.
    + unfold modify. by rewrite copy_front_resized.
    + assert (length cur = length qs) as <- by (destruct (decide (length cur = length qs)); [done | contradiction]).
      rewrite resized_same_length, insert_id; [| exact Hcur].
      by rewrite set_recommended_answers_id.
  - unfold modify. by rewrite resized_nil.
Qed.

(** The keyword pass writes a value that is not empty, or nothing. *)
Lemma first_truthy_truthy (ua : list json) (v : json) :
  first_truthy ua = Some v -> truthy v = true.
Proof. intros H. by apply find_some in H as [_ H]. Qed.

Lemma auto_match_spec (user_text questions : json) (ua answers answers' : list json) :
  auto_match user_text questions ua answers = Ok answers' ->
  length answers' = length answers
  /\ (Forall not_null answers -> Forall not_null answers').
Proof.
  unfold auto_match.
  destruct (detect_question_matches user_text questions) as [matches | e];
    simpl; [| discriminate].
  destruct matches as [| [[best q] c] matches]; [by intros [= <-] |].
  destruct ua as [| u ua]; [by intros [= <-] |].
  destruct (first_truthy (u :: ua)) as [v |] eqn:Hv; [| by intros [= <-]].
  destruct (truthy v && (best <? length answers)); intros [= <-]; [| done].
  split; [by rewrite length_insert |]. intros Ha.
  apply Forall_insert_answer; [exact Ha |].
  apply truthy_not_null. by apply first_truthy_truthy in Hv.
Qed.


(** Lines 408-435 keep the length of the array and write no [None]. *)
Lemma merge_answers_spec (parsed : pydict) (user_text questions : json)
    (answers : list json) :
  length (fst (merge_answers parsed user_text questions answers)) = length answers
  /\ (Forall not_null answers ->
      Forall not_null (fst (merge_answers parsed user_text questions answers))).
Proof.
  unfold merge_answers.
  destruct (dict_has "question_matches" parsed && dict_has "updated_answers" parsed).
  - destruct (dict_get "question_matches" parsed) as [[| | | | qm |] |];
      try (split; [reflexivity | auto]);
    destruct (dict_get "updated_answers" parsed) as [[| | | | ua |] |];
      try (split; [reflexivity | auto]).
    simpl. split; [apply place_matches_spec |].
    apply place_matches_Forall. apply truthy_not_null.
  - destruct (dict_get "updated_answers" parsed) as [[| | | | ua |] |];
      try (split; [reflexivity | auto]).
    pose proof (fill_open_slots_spec ua answers) as [Hlen _].
    pose proof (fill_open_slots_Forall not_null ua answers truthy_not_null) as Hnn.
    destruct (auto_match user_text questions ua (fill_open_slots ua answers))
      as [answers' | e] eqn:Ham; simpl.
    + apply auto_match_spec in Ham as [Hl Hf]. split; [congruence | auto].
    + split; [exact Hlen | exact Hnn].
Qed.

(** The state reached by [reconcile_answers]: nothing but the array of the
    current section changes. *)
Lemma reconcile_answers_spec (parsed : pydict) (user_text questions : json)
    (st : ResumeBuilderState) (s : string) (answers : list json) :
  truthy_section (current_section st) = Some s ->
  recommended_answers st !! s = Some answers ->
  exists r answers',
    reconcile_answers parsed user_text questions st
    = Ret (r, set_recommended_answers
                (<[s := answers']> (recommended_answers st)) st)
    /\ (answers' = answers
        \/ answers' = fst (merge_answers parsed user_text questions answers))
    /\ ((dict_has "question_matches" parsed || dict_has "updated_answers" parsed) = true ->
        answers' = fst (merge_answers parsed user_text questions answers)
        /\ r = snd (merge_answers parsed user_text questions answers)).
Proof.
  intros Hcur Hans.
  unfold reconcile_answers, mbind, M_bind, get_state. simpl. rewrite Hcur.
  destruct (dict_has "question_matches" parsed || dict_has "updated_answers" parsed).
  - simpl. rewrite Hans. simpl. rewrite Hans.
    destruct (merge_answers parsed user_text questions answers) as [answers' result]
      eqn:Hm. simpl.
    exists result, answers'. split; [by destruct result as [[] | e] |].
    split; [by right | done].
  - exists (Ok tt), answers. split.
    + rewrite insert_id; [| exact Hans]. by rewrite set_recommended_answers_id.
    + split; [by left | discriminate].
Qed.

(** ** C1: the answer array follows the questions *)

Lemma compact_sections_lookup (st : ResumeBuilderState) (s : string) (data : pydict) :
  section_objects st !! s = Some data ->
  compact_sections st !! s = Some (compact_section s data).
Proof. intros H. unfold compact_sections. by rewrite map_lookup_imap, H. Qed.

Lemma initialize_current_answers_spec (st : ResumeBuilderState) (s : string)
    (data : pydict) (qs : list json) :
  truthy_section (current_section st) = Some s ->
  section_objects st !! s = Some data ->
  default (JList []) (dict_get "recommended_questions" data) = JList qs ->
  initialize_current_answers st
  = Ret (Ok (JList qs),
         set_recommended_answers
           (<[s := resized (length qs) (default [] (recommended_answers st !! s))]>
              (recommended_answers st)) st).
Proof.
  intros Hcur Hdata Hqs.
  unfold initialize_current_answers, mbind, M_bind, get_state. simpl.
  rewrite Hcur, (compact_sections_lookup st s data Hdata). simpl.
  rewrite Hqs, safe_initialize_answers_spec. reflexivity.
Qed.

(** Claim C1 speaks of every section that has been initialized.  An apply
    whose re-analysis fails empties the answer array of its section and
    leaves the questions of the section as they were; a reconciliation step
    in another section does not touch that array, so the section
    [education] ends with one question and no answer slot. *)
Lemma answers_misaligned_counterexample :
  exists st1 st2,
    run (create_section_node false (fun _ => Loaded (JDict apply_example_decision))
           "education" two_sections_state)
        [ReplyText (Some "{}"); ReplyFailure]
    = Some ((Ok ReturnState, st1), ["router"; "apply_education"])
    /\ reconciliation_step turn_example_decision (JStr "I know Rust best")
         (set_current_section (Some "skills") st1)
       = Ret (Ok tt, st2)
    /\ section_objects st2 !! "education"
       = Some [("recommended_questions", JList [JStr "Which degree do you hold?"])]
    /\ recommended_answers st2 !! "education" = Some []
    /\ recommended_answers st2 !! "skills" = Some [JStr "I know Rust best"].
Proof.
  eexists _, _. split; [vm_compute; reflexivity |].
  split; [vm_compute; reflexivity |].
  repeat split; vm_compute; reflexivity.
Qed.

(** C1 (amended). For the current section [s], with an entry in [section_objects]
    whose [recommended_questions] is the list [qs]: the initialization
    brings the answer array of [s] to the resized array, which has
    [len(qs)] slots, keeps the existing answers at the front and holds
    empty text elsewhere; the reconciliation step then ends without an
    oracle request in a state that differs from the first one in the array
    of [s] only; that array has exactly [len(qs)] slots, and none of them is
    [None] when none of the existing ones was. *)
Theorem answers_stay_aligned (parsed : pydict) (user_text : json)
    (st : ResumeBuilderState) (s : string) (data : pydict) (qs : list json) :
  current_section st = Some s -> s <> "" ->
  section_objects st !! s = Some data ->
  default (JList []) (dict_get "recommended_questions" data) = JList qs ->
  let existing := default [] (recommended_answers st !! s) in
  let n := length qs in
  (initialize_current_answers st
   = Ret (Ok (JList qs),
          set_recommended_answers
            (<[s := resized n existing]> (recommended_answers st)) st)
   /\ length (resized n existing) = n
   /\ (forall i, i < Nat.min (length existing) n ->
                 resized n existing !! i = existing !! i)
   /\ (forall i, length existing <= i < n ->
                 resized n existing !! i = Some (JStr "")))
  /\ exists r answers,
       reconciliation_step parsed user_text st
       = Ret (r, set_recommended_answers
                   (<[s := answers]> (recommended_answers st)) st)
       /\ length answers = n
       /\ (Forall not_null existing -> Forall not_null answers).
Proof.
  intros Hcur Hs Hdata Hqs existing n.
  pose proof (truthy_section_Some _ _ Hcur Hs) as Ht.
  pose proof (initialize_current_answers_spec st s data qs Ht Hdata Hqs) as Hinit.
  fold existing in Hinit. fold n in Hinit.
  split.
  { split; [exact Hinit |]. split; [apply resized_length |]. split.
    - intros i Hi. unfold resized.
      rewrite lookup_app_l; [| rewrite length_take; lia].
      apply lookup_take_lt. lia.
    - intros i Hi. unfold resized.
      rewrite lookup_app_r; rewrite length_take; [| lia].
      apply lookup_replicate_2. lia. }
  set (st1 := set_recommended_answers
                (<[s := resized n existing]> (recommended_answers st)) st) in *.
  assert (Hcur1 : truthy_section (current_section st1) = Some s) by exact Ht.
  assert (Hans1 : recommended_answers st1 !! s = Some (resized n existing)).
  { subst st1. simpl. apply lookup_insert_eq. }
  destruct (reconcile_answers_spec parsed user_text (JList qs) st1 s _ Hcur1 Hans1)
    as (r & answers & Hrun & Hor & _).
  exists r, answers. split.
  - unfold reconciliation_step, mbind, M_bind. rewrite Hinit. simpl.
    rewrite Hrun. subst st1. simpl. by rewrite insert_insert_eq.
  - pose proof (merge_answers_spec parsed user_text (JList qs) (resized n existing))
      as [Hlen Hnn].
    destruct Hor as [-> | ->].
    + split; [apply resized_length |]. apply resized_Forall.
    + split; [rewrite Hlen; apply resized_length |].
      intros H. apply Hnn. by apply resized_Forall.
Qed.

Lemma answers_stay_aligned_witness :
  exists r answers,
    reconciliation_step
      [("question_matches", JList [JInt 1]);
       ("updated_answers", JList [JStr ""; JStr "Rust"])]
      (JStr "I use Rust")
      (skills_state [JStr "Which language?"; JStr "Which one more?"]
                    [JStr "Go"; JStr "x"; JStr "y"])
    = Ret (r, set_recommended_answers
                (<["skills" := answers]>
                   (recommended_answers
                      (skills_state [JStr "Which language?"; JStr "Which one more?"]
                                    [JStr "Go"; JStr "x"; JStr "y"])))
                (skills_state [JStr "Which language?"; JStr "Which one more?"]
                              [JStr "Go"; JStr "x"; JStr "y"]))
    /\ length answers = 2
    /\ (Forall not_null [JStr "Go"; JStr "x"; JStr "y"] -> Forall not_null answers).
Proof.
  apply (answers_stay_aligned _ _
           (skills_state [JStr "Which language?"; JStr "Which one more?"]
                         [JStr "Go"; JStr "x"; JStr "y"])
           "skills"
           [("recommended_questions",
             JList [JStr "Which language?"; JStr "Which one more?"])]
           [JStr "Which language?"; JStr "Which one more?"]);
    [reflexivity | discriminate | reflexivity | reflexivity].
Defined.

(** ** C4: placement by explicit index *)




(** ** C5: the threshold pass *)




(** ** C6: the keyword pass *)

(** C6 (what the code does). The keyword pass is the [else] clause of a loop
    without [break]: it runs after the threshold pass whatever that pass
    did.  Here the threshold pass places [aws] in slot 1; the keyword pass
    then finds the word [python] of the user in question 0 and writes the
    first supplied value that is not empty, [aws] again, into slot 0. *)
Theorem keyword_pass_runs_after_threshold_pass :
  let questions :=
    [JStr "Which Python frameworks do you use?"; JStr "Which cloud platforms?"] in
  let ua := [JStr ""; JStr "aws"] in
  fill_open_slots ua [JStr ""; JStr ""] = [JStr ""; JStr "aws"]
  /\ detect_question_matches (JStr "python") (JList questions)
     = Ok [(0, "Which Python frameworks do you use?", (1 # 6)%Q)]
  /\ reconcile_answers [("updated_answers", JList ua)] (JStr "python")
       (JList questions) (skills_state questions [JStr ""; JStr ""])
     = Ret (Ok tt, skills_state questions [JStr "aws"; JStr "aws"]).
Proof. repeat split. Qed.

(** ** Rules for [keeps] *)

Section Keeps.
Context (R : relation ResumeBuilderState) `{!Reflexive R} `{!Transitive R}.

Lemma keeps_ret {A : Type} (a : A) : keeps R (mret a).
Proof. intros st. simpl. reflexivity. Qed.

Lemma keeps_raise {A : Type} (e : exn) : keeps R (raise e : M A).
Proof. intros st. simpl. reflexivity. Qed.

Lemma keeps_lift {A : Type} (o : outcome A) : keeps R (lift o).
Proof. intros st. simpl. reflexivity. Qed.

Lemma keeps_get : keeps R get_state.
Proof. intros st. simpl. reflexivity. Qed.

Lemma keeps_completion (l : string) : keeps R (completion l).
Proof. intros st. simpl. intros [| t]; simpl; reflexivity. Qed.

Lemma keeps_modify (f : ResumeBuilderState -> ResumeBuilderState) :
  (forall st, R st (f st)) -> keeps R (modify f).
Proof. intros H st. simpl. apply H. Qed.

Lemma keeps_bind {A B : Type} (m : M A) (f : A -> M B) :
  keeps R m -> (forall a, keeps R (f a)) -> keeps R (m ≫= f).
Proof.
  intros Hm Hf st. unfold mbind, M_bind. apply wp_bind.
  eapply wp_mono; [| apply Hm]. intros [[a | e] st'] tr H; simpl in *.
  - eapply wp_mono; [| apply Hf]. intros [r st''] tr' H'; simpl in *.
    by etrans.
  - exact H.
Qed.

Lemma keeps_try {A : Type} (m : M A) (catches : exn -> bool) (h : exn -> M A) :
  keeps R m -> (forall e, keeps R (h e)) -> keeps R (try_except m catches h).
Proof.
  intros Hm Hh st. unfold try_except. apply wp_bind.
  eapply wp_mono; [| apply Hm]. intros [[a | e] st'] tr H; simpl in *.
  - exact H.
  - destruct (catches e); simpl; [| exact H].
    eapply wp_mono; [| apply Hh]. intros [r st''] tr' H'; simpl in *.
    by etrans.
Qed.
End Keeps.

#[local] Instance same_src_node_refl : Reflexive same_src_node.
Proof. by intros st. Qed.
#[local] Instance same_src_node_trans : Transitive same_src_node.
Proof. unfold same_src_node. intros a b c H1 H2. congruence. Qed.

Ltac keeps_step :=
  lazymatch goal with
  | |- Reflexive _ => apply _
  | |- Transitive _ => apply _
  | |- keeps _ (mret _) => apply keeps_ret
  | |- keeps _ (raise _) => apply keeps_raise
  | |- keeps _ (lift _) => apply keeps_lift
  | |- keeps _ get_state => apply keeps_get
  | |- keeps _ (completion _) => apply keeps_completion
  | |- keeps _ (modify _) => apply keeps_modify; [intros ?; reflexivity]
  | |- keeps _ (append_message _) => apply keeps_modify; [intros ?; reflexivity]
  | |- keeps _ (append_new_message _ _) => unfold append_new_message
  | |- keeps _ (set_answers _ _) => apply keeps_modify; [intros ?; reflexivity]
  | |- keeps _ (mbind _ _) => apply keeps_bind; [.. | | intros ?]
  | |- keeps _ (try_except _ _ _) => apply keeps_try; [.. | | intros ?]
  | |- keeps _ (match ?x with _ => _ end) => destruct x
  | |- keeps _ (let (_, _) := ?x in _) => destruct x
  end.

Lemma keeps_src_safe_initialize (s : string) (q : json) :
  keeps same_src_node (safe_initialize_answers s q).
Proof. unfold safe_initialize_answers. repeat keeps_step. Qed.

Lemma keeps_src_reconcile (parsed : pydict) (u q : json) :
  keeps same_src_node (reconcile_answers parsed u q).
Proof. unfold reconcile_answers. repeat keeps_step. Qed.

Lemma keeps_src_initialize : keeps same_src_node initialize_current_answers.
Proof.
  unfold initialize_current_answers. repeat keeps_step.
  apply keeps_src_safe_initialize.
Qed.

(** ** Rules for [wp] on the agent monad *)

Lemma wp_M_bind {A B : Type} (m : M A) (f : A -> M B) (st : ResumeBuilderState)
    (Q : outcome B * ResumeBuilderState -> list (string * llm_reply) -> Prop) :
  wp (m st) (fun r tr =>
               match r with
               | (Ok a, st') => wp (f a st') (fun r' tr' => Q r' (tr ++ tr'))
               | (Exc e, st') => Q (Exc e, st') tr
               end) ->
  wp ((m ≫= f) st) Q.
Proof.
  intros H. unfold mbind, M_bind. apply wp_bind.
  eapply wp_mono; [| exact H]. intros [[a | e] st'] tr; simpl; [auto |].
  by rewrite app_nil_r.
Qed.

Lemma wp_try_except {A : Type} (m : M A) (catches : exn -> bool) (h : exn -> M A)
    (st : ResumeBuilderState)
    (Q : outcome A * ResumeBuilderState -> list (string * llm_reply) -> Prop) :
  wp (m st) (fun r tr =>
               match r with
               | (Ok a, st') => Q (Ok a, st') tr
               | (Exc e, st') =>
                   if catches e
                   then wp (h e st') (fun r' tr' => Q r' (tr ++ tr'))
                   else Q (Exc e, st') tr
               end) ->
  wp (try_except m catches h st) Q.
Proof.
  intros H. unfold try_except. apply wp_bind.
  eapply wp_mono; [| exact H]. intros [[a | e] st'] tr; simpl.
  - by rewrite app_nil_r.
  - destruct (catches e); simpl; [auto |]. by rewrite app_nil_r.
Qed.

Lemma wp_silent {A : Type} (m : M A) (st : ResumeBuilderState)
    (Q : outcome A * ResumeBuilderState -> list (string * llm_reply) -> Prop) :
  silent m -> (forall r st', m st = Ret (r, st') -> Q (r, st') []) -> wp (m st) Q.
Proof. intros Hs HQ. destruct (Hs st) as (r & st' & E). rewrite E. simpl. by apply HQ. Qed.

(** ** Rules for [silent] *)

Lemma silent_ret {A : Type} (a : A) : silent (mret a).
Proof. intros st. by eexists _, _. Qed.

Lemma silent_raise {A : Type} (e : exn) : silent (raise e : M A).
Proof. intros st. by eexists _, _. Qed.

Lemma silent_lift {A : Type} (o : outcome A) : silent (lift o).
Proof. intros st. by eexists _, _. Qed.

Lemma silent_get : silent get_state.
Proof. intros st. by eexists _, _. Qed.

Lemma silent_modify (f : ResumeBuilderState -> ResumeBuilderState) : silent (modify f).
Proof. intros st. by eexists _, _. Qed.

Lemma silent_bind {A B : Type} (m : M A) (f : A -> M B) :
  silent m -> (forall a, silent (f a)) -> silent (m ≫= f).
Proof.
  intros Hm Hf st. destruct (Hm st) as ([a | e] & st' & E);
    unfold mbind, M_bind; rewrite E; simpl.
  - apply Hf.
  - by eexists _, _.
Qed.

Lemma silent_try {A : Type} (m : M A) (catches : exn -> bool) (h : exn -> M A) :
  silent m -> (forall e, silent (h e)) -> silent (try_except m catches h).
Proof.
  intros Hm Hh st. destruct (Hm st) as ([a | e] & st' & E);
    unfold try_except; rewrite E; simpl.
  - by eexists _, _.
  - destruct (catches e); [apply Hh | by eexists _, _].
Qed.

Ltac silent_step :=
  lazymatch goal with
  | |- silent (mret _) => apply silent_ret
  | |- silent (raise _) => apply silent_raise
  | |- silent (lift _) => apply silent_lift
  | |- silent get_state => apply silent_get
  | |- silent (modify _) => apply silent_modify
  | |- silent (append_message _) => apply silent_modify
  | |- silent (append_new_message _ _) => unfold append_new_message
  | |- silent (set_answers _ _) => apply silent_modify
  | |- silent (mbind _ _) => apply silent_bind; [| intros ?]
  | |- silent (try_except _ _ _) => apply silent_try; [| intros ?]
  | |- silent (match ?x with _ => _ end) => destruct x
  | |- silent (let (_, _) := ?x in _) => destruct x
  end.

Lemma silent_safe_initialize (s : string) (q : json) :
  silent (safe_initialize_answers s q).
Proof. unfold safe_initialize_answers. repeat silent_step. Qed.

Lemma silent_reconcile (parsed : pydict) (u q : json) :
  silent (reconcile_answers parsed u q).
Proof. unfold reconcile_answers. repeat silent_step. Qed.

(** ** The aggregation step *)

Section Apply.
Context (OFFLINE_MODE : bool) (json_loads : string -> loads_result).

(** [update_cv_summary] leaves the state alone, and the summary it returns
    differs from the one of the state at the key of the section at most. *)
Lemma update_cv_summary_wp (section : string) (q : json) (a : list json)
    (st : ResumeBuilderState) :
  wp (update_cv_summary OFFLINE_MODE json_loads section q a st)
     (fun r _ =>
        snd r = st
        /\ forall m, fst r = Ok m ->
             forall k, k <> section -> m !! k = cv_summary st !! k).
Proof.
  unfold update_cv_summary.
  apply wp_M_bind. simpl.
  apply wp_M_bind. simpl.
  destruct (py_iter q) as [qs | e]; simpl; [| by split].
  apply wp_M_bind. simpl.
  destruct (collect_qa 0 (zip qs a)) as [[| qa qas] | e]; simpl;
    [split; [done | by intros m [= <-]] | | by split].
  apply wp_try_except.
  destruct OFFLINE_MODE.
  { simpl. split; [done |]. intros m [= <-] k Hk. by rewrite lookup_insert_ne. }
  apply wp_M_bind. simpl. intros [| t]; simpl.
  { split; [done | by intros m [= <-]]. }
  apply wp_M_bind. apply wp_try_except. simpl.
  match goal with |- match ?o with _ => _ end => destruct o as [[v |] | e] end;
    simpl; try destruct (is_JSONDecodeError e); simpl;
    (split; [done |]); intros m [= <-] k Hk; by rewrite ?lookup_insert_ne.
Qed.

Lemma aggregate_cv_summary_wp (section : string) (st : ResumeBuilderState) :
  wp (aggregate_cv_summary OFFLINE_MODE json_loads section st)
     (fun r _ =>
        exists m, r = (Ok tt, set_cv_summary m st)
                  /\ forall k, k <> section -> m !! k = cv_summary st !! k).
Proof.
  assert (Hid : exists m, (Ok tt, st) = (Ok tt, set_cv_summary m st)
                  /\ forall k, k <> section -> m !! k = cv_summary st !! k).
  { exists (cv_summary st). split; [by destruct st | done]. }
  unfold aggregate_cv_summary. apply wp_M_bind. simpl.
  match goal with |- wp ((if ?c then _ else _) _) _ => destruct c end;
    [| exact Hid].
  apply wp_try_except. apply wp_M_bind.
  eapply wp_mono; [| apply update_cv_summary_wp].
  intros [[m | e] st'] tr [Hst Hm]; simpl in *; subst st'.
  - exists m. split; [reflexivity |]. by apply Hm.
  - exact Hid.
Qed.

Lemma silent_store_analysis (section raw : string) :
  silent (store_analysis json_loads section raw).
Proof. unfold store_analysis. repeat silent_step. Qed.

End Apply.

Lemma apply_section_changes_wp (json_loads : string -> loads_result)
    (section : string) (content : json) (st : ResumeBuilderState) :
  wp (apply_section_changes false json_loads section content st)
     (fun r tr =>
        forall l, last tr = Some (l, ReplyFailure) ->
          l = "apply_" +:+ section
          /\ fst r = Ok (failed_analysis section)
          /\ changes_saved section content st (snd r)).
Proof.
  unfold apply_section_changes.
  apply wp_M_bind. simpl.
  apply wp_M_bind.
  eapply wp_mono; [| apply aggregate_cv_summary_wp].
  intros r tr (m & -> & Hm). simpl in Hm.
  apply wp_M_bind. simpl.
  intros [| t]; simpl.
  - rewrite last_snoc. intros l [= <-].
    split; [reflexivity |]. split; [reflexivity |]. split; [| exact Hm].
    reflexivity.
  - match goal with |- wp (prog_bind (store_analysis _ _ _ ?s) _) _ =>
      destruct (silent_store_analysis json_loads section (default "" t) s)
        as ([d | e] & st' & ->)
    end; simpl; intros l; rewrite last_snoc; discriminate.
Qed.

(** ** C2: an apply whose re-analysis fails *)

(** Claim C2 says that the fields touched by an apply are rolled back when
    an intermediate step fails.  Here the aggregation step succeeds and the
    re-analysis request fails: the new content, the new CV summary and the
    emptied answer array all stay. *)
Lemma apply_rollback_counterexample :
  let st := apply_example_state in
  let st' :=
    set_recommended_answers {[ "skills" := [] ]}
      (set_cv_summary {[ "skills" := JStr "+I know Rust" ]}
         (set_resume_sections {[ "skills" := JStr "Python, Rust" ]} st)) in
  run (apply_section_changes false (fun _ => NotJson "") "skills"
         (JStr "Python, Rust") st)
      [ReplyText (Some "no object here"); ReplyFailure]
  = Some ((Ok (failed_analysis "skills"), st'),
          ["cv_summary_skills"; "apply_skills"])
  /\ resume_sections st' !! "skills" <> resume_sections st !! "skills"
  /\ cv_summary st' !! "skills" <> cv_summary st !! "skills"
  /\ recommended_answers st' !! "skills" <> recommended_answers st !! "skills".
Proof. repeat split; try discriminate. Qed.

Lemma last_zip {A B : Type} (a : list A) (b : list B) (y : B) :
  length a = length b -> last b = Some y ->
  exists x, last a = Some x /\ last (zip a b) = Some (x, y).
Proof.
  revert b. induction a as [| x a IH]; intros b Hlen Hlast.
  - destruct b; [discriminate Hlast | discriminate Hlen].
  - destruct b as [| z b]; [discriminate Hlen |]. injection Hlen as Hlen.
    destruct a as [| x' a].
    + destruct b; [| discriminate Hlen]. injection Hlast as ->. by exists x.
    + destruct b as [| z' b]; [discriminate Hlen |].
      destruct (IH (z' :: b) Hlen Hlast) as (x0 & Hx & Hz).
      exists x0. split; [exact Hx | exact Hz].
Qed.

(** C2 (amended). Outside offline mode, in every run of an apply whose
    last request, the re-analysis request, fails: the call returns the fixed
    analysis of score 70 whose summary says that the changes have been
    saved, and nothing is rolled back.  The content of the section is the
    new content, the answer array of the section is empty, the CV summary
    differs from the one before the call at the key of the section at most,
    and [section_objects], the current section and the context are the ones
    before the call. *)
Theorem apply_saves_changes_on_failure (json_loads : string -> loads_result)
    (section : string) (content : json) (st st' : ResumeBuilderState)
    (replies : list llm_reply) (r : outcome pydict) (labels : list string) :
  run (apply_section_changes false json_loads section content st) replies
  = Some ((r, st'), labels) ->
  last replies = Some ReplyFailure ->
  last labels = Some ("apply_" +:+ section)
  /\ r = Ok (failed_analysis section)
  /\ resume_sections st' = <[section := content]> (resume_sections st)
  /\ recommended_answers st' = <[section := []]> (recommended_answers st)
  /\ (forall k, k <> section -> cv_summary st' !! k = cv_summary st !! k)
  /\ section_objects st' = section_objects st
  /\ current_section st' = current_section st
  /\ context st' = context st.
Proof.
  intros Hrun Hlast.
  destruct (wp_run _ _ _ _ _ (apply_section_changes_wp json_loads section content st)
              Hrun) as [HQ Hlen].
  destruct (last_zip labels replies ReplyFailure Hlen Hlast) as (l & Hl & Hz).
  destruct (HQ l Hz) as (-> & Hr & Heq & Hcv). simpl in *.
  split; [exact Hl |]. split; [exact Hr |].
  repeat split; try (rewrite Heq; reflexivity). exact Hcv.
Qed.

Lemma apply_saves_changes_on_failure_witness :
  let st := apply_example_state in
  let st' :=
    set_recommended_answers {[ "skills" := [] ]}
      (set_cv_summary {[ "skills" := JStr "+I know Rust" ]}
         (set_resume_sections {[ "skills" := JStr "Python, Rust" ]} st)) in
  last ["cv_summary_skills"; "apply_skills"] = Some ("apply_" +:+ "skills")
  /\ Ok (failed_analysis "skills") = Ok (failed_analysis "skills")
  /\ resume_sections st' = <["skills" := JStr "Python, Rust"]> (resume_sections st)
  /\ recommended_answers st' = <["skills" := []]> (recommended_answers st)
  /\ (forall k, k <> "skills" -> cv_summary st' !! k = cv_summary st !! k)
  /\ section_objects st' = section_objects st
  /\ current_section st' = current_section st
  /\ context st' = context st.
Proof.
  intros st st'.
  apply (apply_saves_changes_on_failure (fun _ => NotJson "") "skills"
           (JStr "Python, Rust") st st'
           [ReplyText (Some "no object here"); ReplyFailure]);
    reflexivity.
Defined.

(** ** C9: a turn that stays in its section ends *)

Create HintDb keeps.
#[local] Hint Resolve keeps_src_safe_initialize keeps_src_reconcile
  keeps_src_initialize : keeps.

Ltac keeps_go :=
  repeat first
    [ keeps_step
    | lazymatch goal with
      | |- keeps _ (let _ := _ in _) => cbv zeta
      | |- keeps _ _ => solve [eauto with keeps]
      end ].

Section KeepsSrcNode.
Context (OFFLINE_MODE : bool) (json_loads : string -> loads_result).

Lemma keeps_src_gateway :
  keeps same_src_node (call_llm_json_decision OFFLINE_MODE json_loads).
Proof. unfold call_llm_json_decision. keeps_go. Qed.

Lemma keeps_src_update_cv_summary (s : string) (q : json) (a : list json) :
  keeps same_src_node (update_cv_summary OFFLINE_MODE json_loads s q a).
Proof. unfold update_cv_summary. keeps_go. Qed.

Hint Resolve keeps_src_gateway keeps_src_update_cv_summary : keeps.

Lemma keeps_src_aggregate (s : string) :
  keeps same_src_node (aggregate_cv_summary OFFLINE_MODE json_loads s).
Proof. unfold aggregate_cv_summary. keeps_go. Qed.

Lemma keeps_src_store_analysis (s raw : string) :
  keeps same_src_node (store_analysis json_loads s raw).
Proof. unfold store_analysis. keeps_go. Qed.

Hint Resolve keeps_src_aggregate keeps_src_store_analysis : keeps.

Lemma keeps_src_apply (s : string) (c : json) :
  keeps same_src_node (apply_section_changes OFFLINE_MODE json_loads s c).
Proof. unfold apply_section_changes. keeps_go. Qed.

Hint Resolve keeps_src_apply : keeps.

Lemma keeps_src_decide (u q : json) :
  keeps same_src_node (decide_and_reconcile OFFLINE_MODE json_loads u q).
Proof. unfold decide_and_reconcile. keeps_go. Qed.

Lemma keeps_src_dispatch (sections : gmap string pydict) (parsed : pydict) :
  keeps same_src_node (dispatch_decision sections parsed).
Proof. unfold dispatch_decision. keeps_go. Qed.

Hint Resolve keeps_src_decide keeps_src_dispatch : keeps.

Lemma keeps_src_section_turn (section : string) :
  keeps same_src_node (section_turn OFFLINE_MODE json_loads section).
Proof. unfold section_turn. keeps_go. Qed.

End KeepsSrcNode.

(** C9 for a state alone. *)
Lemma route_to_section_same (state : ResumeBuilderState) :
  src_node state = current_section state -> route_to_section state = END.
Proof. intros H. unfold route_to_section. by rewrite bool_decide_eq_true_2. Qed.

(** Every run of a section node, however it ends, leaves in [src_node] the
    section that was current when the node was entered. *)
Lemma section_node_records_source (OFFLINE_MODE : bool)
    (json_loads : string -> loads_result) (section : string)
    (st : ResumeBuilderState) :
  wp (create_section_node OFFLINE_MODE json_loads section st)
     (fun r _ => src_node (snd r) = current_section st).
Proof.
  unfold create_section_node. apply wp_M_bind.
  unfold modify at 1. cbn [wp].
  eapply wp_mono; [| apply keeps_src_section_turn].
  intros [r st'] tr H. exact H.
Qed.

(** C9. When [src_node] equals [current_section], [route_to_section] answers
    [END].  A section node records the section it was entered with in
    [src_node]; so after every run of a section node that leaves the current
    section as it was, the next dispatch is [END] and the node is not
    entered again in the same turn. *)
Theorem self_route_terminates :
  (forall state : ResumeBuilderState,
     src_node state = current_section state -> route_to_section state = END)
  /\ (forall (OFFLINE_MODE : bool) (json_loads : string -> loads_result)
             (section : string) (st st' : ResumeBuilderState)
             (replies : list llm_reply) (r : outcome node_result)
             (labels : list string),
        run (create_section_node OFFLINE_MODE json_loads section st) replies
        = Some ((r, st'), labels) ->
        src_node st' = current_section st
        /\ (current_section st' = current_section st ->
            route_to_section st' = END)).
Proof.
  split; [exact route_to_section_same |].
  intros OFFLINE_MODE json_loads section st st' replies r labels Hrun.
  destruct (wp_run _ _ _ _ _
              (section_node_records_source OFFLINE_MODE json_loads section st) Hrun)
    as [Hsrc _].
  simpl in Hsrc. split; [exact Hsrc |].
  intros Hcur. apply route_to_section_same. congruence.
Qed.

Lemma self_route_terminates_witness :
  let st' :=
    set_context
      [mkMessage "user" (JStr "I know Rust best");
       mkMessage "assistant" (JStr "Noted.")]
      (set_recommended_answers {[ "skills" := [JStr "I know Rust best"] ]}
         (set_src_node (Some "skills") turn_example_state)) in
  run (create_section_node false (fun _ => Loaded (JDict turn_example_decision))
         "skills" turn_example_state)
      [ReplyText (Some "{}")]
  = Some ((Ok ReturnState, st'), ["router"])
  /\ route_to_section st' = END.
Proof.
  intros st'.
  assert (Hrun :
    run (create_section_node false (fun _ => Loaded (JDict turn_example_decision))
           "skills" turn_example_state)
        [ReplyText (Some "{}")]
    = Some ((Ok ReturnState, st'), ["router"])) by reflexivity.
  split; [exact Hrun |].
  apply (proj2 self_route_terminates _ _ _ _ _ _ _ _ Hrun). reflexivity.
Defined.

(** ** The primitives on examples *)

Example split_example :
  Py.split "  Which  Python frameworks " = ["Which"; "Python"; "frameworks"].
Proof. reflexivity. Qed.

Example strip_example : Py.strip "  a b  " = "a b" /\ Py.strip "   " = "".
Proof. by split. Qed.

Example lower_example : Py.lower "Go To SKILLS" = "go to skills".
Proof. reflexivity. Qed.

Example py_str_example :
  py_str (JList [JStr "it's"; JInt (-3); JNull; JDict [("k", JBool true)]])
  = "[" +:+ String Py.quote "it's" +:+ String Py.quote ", -3, None, {'k': True}]".
Proof. reflexivity. Qed.

Example re_search_object_example :
  re_search_object "Sure: {x{y}z} and {q}" = Some "{x{y}z}"
  /\ re_search_object "{a{b{c}d}" = Some "{b{c}d}"
  /\ re_search_object "{never closed" = None.
Proof. by repeat split. Qed.

Example detect_direct_routing_example :
  detect_direct_routing (JStr "please Go To Skills now") = Ok (Some "skills")
  /\ detect_direct_routing (JStr "what about my skills?") = Ok None
  /\ detect_direct_routing (JInt 3) = Exc AttributeError.
Proof. by repeat split. Qed.

(** Questions of equal confidence keep the order of the list, and a higher
    confidence comes first. *)
Example keyword_ties_follow_list_order :
  detect_question_matches (JStr "I know python and aws")
    (JList [JStr "Which Python frameworks"; JStr "Python aws";
            JStr "AWS certificates held"; JStr "Do you lead teams"])
  = Ok [(1, "Python aws", (2 # 2)%Q);
        (0, "Which Python frameworks", (1 # 3)%Q);
        (2, "AWS certificates held", (1 # 3)%Q)].
Proof. reflexivity. Qed.

(** After the per-turn clone the schema is [None], and a section node that
    reaches the prompt of its section raises the [TypeError] of line 345. *)
Example cloned_state_has_no_schema :
  run (create_section_node false (fun _ => Loaded (JDict turn_example_decision))
         "skills" (clone_state turn_example_state)) []
  = Some ((Exc TypeError,
           set_recommended_answers {[ "skills" := [JStr ""] ]}
             (set_src_node (Some "skills") (clone_state turn_example_state))),
          []).
Proof. reflexivity. Qed.


(* ===================================================================== *)
(** * Further properties of the code *)
(* ===================================================================== *)

(** ** Decoded objects *)

Lemma dict_get_set_eq (k : string) (v : json) (d : pydict) :
  dict_get k (dict_set k v d) = Some v.
Proof.
  induction d as [| [k' v'] d IH]; simpl.
  - by rewrite String.eqb_refl.
  - destruct (String.eqb k k') eqn:E; simpl.
    + by rewrite String.eqb_refl.
    + by rewrite E.
Qed.

Lemma dict_get_set_ne (k k' : string) (v : json) (d : pydict) :
  k <> k' -> dict_get k' (dict_set k v d) = dict_get k' d.
Proof.
  intros Hne. induction d as [| [k0 v0] d IH]; simpl.
  - destruct (String.eqb_spec k' k); [congruence | reflexivity].
  - destruct (String.eqb_spec k k0) as [-> | Hk]; simpl.
    + destruct (String.eqb_spec k' k0); [congruence | reflexivity].
    + destruct (String.eqb_spec k' k0); [reflexivity | exact IH].
Qed.

(** ** Texts *)

Lemma append_cons (c : ascii) (a b : string) :
  String c a +:+ b = String c (a +:+ b).
Proof. reflexivity. Qed.

Lemma append_nil_l (b : string) : "" +:+ b = b.
Proof. reflexivity. Qed.

Lemma append_assoc (a b c : string) : (a +:+ b) +:+ c = a +:+ (b +:+ c).
Proof.
  induction a as [| x a IH]; [reflexivity |]. by rewrite !append_cons, IH.
Qed.

Lemma append_nil_r (a : string) : a +:+ "" = a.
Proof. induction a as [| x a IH]; [reflexivity |]. by rewrite append_cons, IH. Qed.

Lemma length_append (a b : string) :
  String.length (a +:+ b) = String.length a + String.length b.
Proof.
  induction a as [| x a IH]; [reflexivity |]. rewrite append_cons. simpl. by rewrite IH.
Qed.

(** [scan_object] reads up to a closing brace. *)
Lemma scan_object_sound (inner : bool) (s : string) (n : nat) :
  scan_object inner s = Some n ->
  exists body rest,
    s = body +:+ String close_brace rest
    /\ Py.slice_to n s = body +:+ String close_brace "".
Proof.
  revert inner n. induction s as [| c s IH]; intros inner n; simpl; [discriminate |].
  destruct (Ascii.eqb c open_brace) eqn:Eo.
  - destruct inner; [discriminate |].
    destruct (scan_object true s) as [m |] eqn:Es; [| discriminate].
    intros [= <-]. destruct (IH _ _ Es) as (body & rest & -> & Hsl).
    exists (String c body), rest. rewrite !append_cons. simpl. by rewrite Hsl.
  - destruct (Ascii.eqb_spec c close_brace) as [-> | Hc].
    + destruct inner.
      * destruct (scan_object false s) as [m |] eqn:Es; [| discriminate].
        intros [= <-]. destruct (IH _ _ Es) as (body & rest & -> & Hsl).
        exists (String close_brace body), rest. rewrite !append_cons. simpl.
        by rewrite Hsl.
      * intros [= <-]. exists "", s. split; [reflexivity |].
        simpl. by destruct s.
    + destruct (scan_object inner s) as [m |] eqn:Es; [| discriminate].
      intros [= <-]. destruct (IH _ _ Es) as (body & rest & -> & Hsl).
      exists (String c body), rest. rewrite !append_cons. simpl. by rewrite Hsl.
Qed.

(** X3. The object located in a text is a contiguous part of the text that
    begins with an opening brace and ends with a closing brace. *)
Theorem located_object_is_braced_part (s t : string) :
  re_search_object s = Some t ->
  exists pre body post,
    s = pre +:+ t +:+ post
    /\ t = String open_brace (body +:+ String close_brace "").
Proof.
  revert t. induction s as [| c s IH]; intros t; simpl; [discriminate |].
  assert (Hrec : re_search_object s = Some t ->
            exists pre body post,
              String c s = pre +:+ t +:+ post
              /\ t = String open_brace (body +:+ String close_brace "")).
  { intros H. destruct (IH _ H) as (pre & body & post & -> & Ht).
    by exists (String c pre), body, post. }
  destruct (Ascii.eqb_spec c open_brace) as [-> | Hc]; [| exact Hrec].
  destruct (scan_object false s) as [n |] eqn:Es; [| exact Hrec].
  intros [= <-]. destruct (scan_object_sound _ _ _ Es) as (body & rest & -> & Hsl).
  exists "", body, rest. rewrite Hsl. split; [| reflexivity].
  rewrite append_nil_l, append_cons. f_equal. by rewrite append_assoc.
Qed.

Lemma located_object_is_braced_part_witness :
  exists pre body post,
    "Sure: {x{y}z} and {q}" = pre +:+ "{x{y}z}" +:+ post
    /\ "{x{y}z}" = String open_brace (body +:+ String close_brace "").
Proof. apply (located_object_is_braced_part "Sure: {x{y}z} and {q}"). reflexivity. Defined.

(** A text without an opening brace holds no object. *)
Lemma no_brace_no_object (s : string) :
  Py.has_char open_brace s = false -> re_search_object s = None.
Proof.
  induction s as [| c s IH]; [reflexivity |].
  cbn [Py.has_char re_search_object].
  rewrite (Ascii.eqb_sym open_brace c).
  destruct (Ascii.eqb c open_brace); [discriminate | exact IH].
Qed.

Lemma scan_flat (body rest : string) :
  Py.has_char open_brace body = false ->
  Py.has_char close_brace body = false ->
  scan_object false (body +:+ String close_brace rest) = Some (S (String.length body)).
Proof.
  intros Ho Hc. induction body as [| c body IH].
  - reflexivity.
  - rewrite append_cons. cbn [Py.has_char scan_object String.length] in *.
    rewrite (Ascii.eqb_sym open_brace c) in Ho.
    rewrite (Ascii.eqb_sym close_brace c) in Hc.
    destruct (Ascii.eqb c open_brace); [discriminate |].
    destruct (Ascii.eqb c close_brace); [discriminate |].
    by rewrite IH.
Qed.

Lemma slice_to_app (a b : string) :
  Py.slice_to (String.length a) (a +:+ b) = a.
Proof.
  induction a as [| c a IH]; [by destruct b |].
  rewrite append_cons. simpl. by rewrite IH.
Qed.

(** X4. A flat object, braces around a text without braces, is found when
    no opening brace comes before it. *)
Theorem flat_object_is_located (pre body post : string) :
  Py.has_char open_brace pre = false ->
  Py.has_char open_brace body = false ->
  Py.has_char close_brace body = false ->
  re_search_object (pre +:+ String open_brace (body +:+ String close_brace post))
  = Some (String open_brace (body +:+ String close_brace "")).
Proof.
  intros Hpre Ho Hc. induction pre as [| c pre IH].
  - rewrite append_nil_l. cbn [re_search_object].
    rewrite Ascii.eqb_refl, (scan_flat body post Ho Hc). do 2 f_equal.
    change (String close_brace post) with (String close_brace "" +:+ post).
    rewrite <- append_assoc.
    replace (S (String.length body))
      with (String.length (body +:+ String close_brace "")).
    + apply slice_to_app.
    + rewrite length_append. simpl. lia.
  - rewrite append_cons. cbn [Py.has_char re_search_object] in *.
    rewrite (Ascii.eqb_sym open_brace c) in Hpre.
    destruct (Ascii.eqb c open_brace); [discriminate | by apply IH].
Qed.

Lemma flat_object_is_located_witness :
  re_search_object ("Here: " +:+ String open_brace ("a: 1" +:+ String close_brace " ok"))
  = Some (String open_brace ("a: 1" +:+ String close_brace "")).
Proof. apply (flat_object_is_located "Here: " "a: 1" " ok"); reflexivity. Defined.

(** ** The parser and the gateway *)

Section ParserMore.
Context (json_loads : string -> loads_result).

(** The action of a decision of the parser. *)
Lemma parser_action_known (raw_text : string) (d : pydict) :
  extract_and_validate_json json_loads raw_text = Ok d ->
  exists a, dict_get "action" d = Some (JStr a) /\ a ∈ valid_actions.
Proof.
  unfold extract_and_validate_json.
  destruct (Py.is_empty raw_text || Py.is_empty (Py.strip raw_text)); [discriminate |].
  destruct (re_search_object raw_text) as [t |].
  2: { intros [= <-]. exists "answer". split; [reflexivity | set_solver]. }
  unfold loads. destruct (json_loads t) as [j | msg]; simpl; [| discriminate].
  destruct j as [| | | | | kv]; simpl; try discriminate.
  destruct (dict_get "action" kv) as [a |] eqn:Ha; simpl; [| discriminate].
  destruct a as [| | | s | |]; simpl; try discriminate;
    try (intros [= <-]; exists "answer"; split;
         [apply dict_get_set_eq | set_solver]).
  case_bool_decide as Hs; intros [= <-].
  - exists s. by split.
  - exists "answer". split; [apply dict_get_set_eq | set_solver].
Qed.

(** X1. Every decision the parser returns carries an [action], and that
    action is one of the six known actions. *)
Theorem parsed_action_is_known (raw_text : string) (d : pydict) :
  extract_and_validate_json json_loads raw_text = Ok d ->
  exists a, dict_get "action" d = Some (JStr a) /\ a ∈ valid_actions.
Proof. apply parser_action_known. Qed.

(** X2. When the located object decodes to an object whose [action] is a
    list or an object, the parser raises a [TypeError], not the
    [ValueError] of its contract. *)
Theorem unhashable_action_raises_type_error (raw_text t : string) (kv : pydict)
    (a : json) :
  all_space raw_text = false ->
  re_search_object raw_text = Some t ->
  json_loads t = Loaded (JDict kv) ->
  dict_get "action" kv = Some a ->
  hashable a = false ->
  extract_and_validate_json json_loads raw_text = Exc TypeError.
Proof.
  intros Hsp Hre Hl Ha Hh. unfold extract_and_validate_json.
  rewrite blank_all_space, Hsp, Hre. unfold loads. rewrite Hl. simpl.
  rewrite Ha. by destruct a.
Qed.

(** X5. A text that is not blank and holds no opening brace parses to the
    answer decision whose text is the input without the white space around
    it; [json.loads] plays no part. *)
Theorem prose_parses_to_answer (raw_text : string) :
  all_space raw_text = false ->
  Py.has_char open_brace raw_text = false ->
  extract_and_validate_json json_loads raw_text
  = Ok (plain_answer (Py.strip raw_text)).
Proof.
  intros Hsp Hb. unfold extract_and_validate_json.
  by rewrite blank_all_space, Hsp, (no_brace_no_object _ Hb).
Qed.

End ParserMore.

Lemma parsed_action_is_known_witness :
  exists a,
    dict_get "action" [("action", JStr "answer"); ("answer", JStr "ok")]
    = Some (JStr a) /\ a ∈ valid_actions.
Proof.
  apply (parsed_action_is_known
           (fun _ => Loaded (JDict [("action", JStr "dance"); ("answer", JStr "ok")]))
           "Sure: {} done").
  reflexivity.
Defined.

Lemma unhashable_action_raises_type_error_witness :
  extract_and_validate_json
    (fun _ => Loaded (JDict [("action", JList [JStr "stay"])])) "{}"
  = Exc TypeError.
Proof.
  apply (unhashable_action_raises_type_error _ "{}" "{}"
           [("action", JList [JStr "stay"])] (JList [JStr "stay"]));
    reflexivity.
Defined.

Lemma prose_parses_to_answer_witness :
  extract_and_validate_json (fun _ => NotJson "") "  Happy to help!  "
  = Ok (plain_answer "Happy to help!").
Proof. apply (prose_parses_to_answer (fun _ => NotJson "")); reflexivity. Defined.

(** ** The gateway and the router *)

Section GatewayMore.
Context (OFFLINE_MODE : bool) (json_loads : string -> loads_result).

Lemma gateway_wp (st : ResumeBuilderState) :
  wp (call_llm_json_decision OFFLINE_MODE json_loads st)
     (fun r tr =>
        snd r = st
        /\ tr.*1 = (if OFFLINE_MODE then [] else ["router"])
        /\ exists d a, fst r = Ok d
             /\ dict_get "action" d = Some (JStr a) /\ a ∈ valid_actions).
Proof.
  assert (Hdef : forall d, d = offline_decision \/ d = error_decision ->
            exists d' a, Ok d = Ok d'
              /\ dict_get "action" d' = Some (JStr a) /\ a ∈ valid_actions).
  { intros d [-> | ->]; eexists _, "answer"; (split; [reflexivity |]);
      (split; [reflexivity | set_solver]). }
  unfold call_llm_json_decision. destruct OFFLINE_MODE; simpl.
  - split; [reflexivity |]. split; [reflexivity |]. apply Hdef. by left.
  - intros [| t]; simpl.
    + split; [reflexivity |]. split; [reflexivity |]. apply Hdef. by right.
    + destruct (extract_and_validate_json json_loads (default "" t)) as [d | e] eqn:E;
        simpl; (split; [reflexivity |]); (split; [reflexivity |]).
      * destruct (parser_action_known json_loads _ _ E) as (a & Ha & Hin).
        by exists d, a.
      * apply Hdef. by right.
Qed.

Lemma fst_zip_labels (labels : list string) (replies : list llm_reply) :
  length labels = length replies -> (zip labels replies).*1 = labels.
Proof. intros H. apply fst_zip. lia. Qed.

(** X6. The gateway never raises and never touches the state; it makes no
    request in offline mode and exactly one, under the label [router],
    otherwise; and the decision it returns always carries one of the six
    known actions. *)
Theorem gateway_returns_known_action (st st' : ResumeBuilderState)
    (replies : list llm_reply) (r : outcome pydict) (labels : list string) :
  run (call_llm_json_decision OFFLINE_MODE json_loads st) replies
  = Some ((r, st'), labels) ->
  st' = st
  /\ labels = (if OFFLINE_MODE then [] else ["router"])
  /\ exists d a, r = Ok d
       /\ dict_get "action" d = Some (JStr a) /\ a ∈ valid_actions.
Proof.
  intros Hrun.
  destruct (wp_run _ _ _ _ _ (gateway_wp st) Hrun) as [(Hst & Hl & Hd) Hlen].
  rewrite (fst_zip_labels _ _ Hlen) in Hl. by repeat split.
Qed.

End GatewayMore.

Lemma gateway_returns_known_action_witness :
  exists d a,
    Ok error_decision = Ok d
    /\ dict_get "action" d = Some (JStr a) /\ a ∈ valid_actions.
Proof.
  apply (gateway_returns_known_action false (fun _ => NotJson "") new_state
           new_state [ReplyText (Some "{oops}")] (Ok error_decision) ["router"]).
  reflexivity.
Defined.

Lemma set_current_section_id (st : ResumeBuilderState) :
  set_current_section (current_section st) st = st.
Proof. by destruct st. Qed.

Section RouterMore.
Context (OFFLINE_MODE : bool) (json_loads : string -> loads_result).

Lemma router_wp (st : ResumeBuilderState) :
  wp (general_chat_and_section_routing OFFLINE_MODE json_loads st)
     (fun r tr => (tr.*1 = [] \/ tr.*1 = ["router"]) /\ router_post st r).
Proof.
  assert (Hok : forall res t cur,
            (res = ReturnState \/ res = ReturnMessage (mkMessage "assistant" (JStr t))) ->
            (cur = current_section st \/ exists s, s ∈ SECTION_NAMES /\ cur = Some s) ->
            router_post st
              (Ok res, set_context (context st ++ [mkMessage "assistant" (JStr t)])
                         (set_current_section cur st))).
  { intros res t cur Hres Hc. left. eexists res, _. split; [reflexivity |].
    simpl. split; [reflexivity |]. split; [reflexivity |].
    split; [by eexists |]. by split. }
  assert (Hsame : forall res t,
            (res = ReturnState \/ res = ReturnMessage (mkMessage "assistant" (JStr t))) ->
            router_post st
              (Ok res, set_context (context st ++ [mkMessage "assistant" (JStr t)]) st)).
  { intros res t Hres.
    rewrite <- (set_current_section_id st) at 2. apply Hok; [done | by left]. }
  unfold general_chat_and_section_routing. apply wp_M_bind. simpl.
  destruct (truthy_section (current_section st)) as [cur |] eqn:Hcur; simpl.
  { split; [by left |]. apply Hsame. by left. }
  apply wp_M_bind. apply wp_try_except. apply wp_M_bind.
  eapply wp_mono; [| apply (gateway_wp OFFLINE_MODE json_loads st)].
  intros [r st1] tr (Hst & Htr & d & a & Hr & _). simpl in *. subst r st1.
  assert (Htr' : tr.*1 = [] \/ tr.*1 = ["router"]).
  { rewrite Htr. destruct OFFLINE_MODE; auto. }
  assert (Hfin : forall action answer_text,
            wp (answer_or_fallback action answer_text st)
               (fun r' tr' =>
                  (((tr ++ []) ++ [] ++ tr').*1 = [] \/
                   ((tr ++ []) ++ [] ++ tr').*1 = ["router"])
                  /\ router_post st r')).
  { intros action answer_text. unfold answer_or_fallback.
    destruct (eq_str action "answer").
    - destruct (truthy answer_text) eqn:Ht.
      + destruct answer_text; simpl; rewrite !app_nil_r;
          (split; [exact Htr' |]); first [apply Hsame; by right | by right].
      + simpl. rewrite !app_nil_r. split; [exact Htr' |]. apply Hsame. by right.
    - simpl. rewrite !app_nil_r. split; [exact Htr' |]. apply Hsame. by right. }
  destruct (default JNull (dict_get "route" d)) as [| | | target | |]; try apply Hfin.
  destruct (eq_str (dict_get "action" d) "route" && truthy (JStr target)
            && bool_decide (target ∈ SECTION_NAMES)) eqn:Hc; [| apply Hfin].
  simpl. rewrite !app_nil_r. split; [exact Htr' |].
  apply Hok; [by left |].
  right. exists target. split; [| reflexivity].
  apply andb_true_iff in Hc as [_ Hc]. by apply bool_decide_eq_true in Hc.
Qed.

(** X7. The router never makes the second completion request of its
    [except] branch: a turn makes no request, or the one request of the
    gateway.  The only exception a turn can end with is the
    [AttributeError] of [make_message], for an answer that is not a text,
    and the state is then the one before the turn. *)
Theorem router_never_requests_fallback (st st' : ResumeBuilderState)
    (replies : list llm_reply) (r : outcome node_result) (labels : list string) :
  run (general_chat_and_section_routing OFFLINE_MODE json_loads st) replies
  = Some ((r, st'), labels) ->
  (labels = [] \/ labels = ["router"])
  /\ forall e, r = Exc e -> e = AttributeError /\ st' = st.
Proof.
  intros Hrun.
  destruct (wp_run _ _ _ _ _ (router_wp st) Hrun) as [[Hl Hp] Hlen].
  rewrite (fst_zip_labels _ _ Hlen) in Hl. split; [exact Hl |].
  intros e ->. destruct Hp as [(res & m & Hr & _) | [Hr Hst]]; simpl in *.
  - discriminate.
  - by injection Hr as ->.
Qed.

(** X8. Every turn of the router that returns appends exactly one message,
    of role [assistant] and with a text as content, to the context; besides
    the context and the current section it changes no field of the
    state. *)
Theorem router_appends_one_reply (st st' : ResumeBuilderState)
    (replies : list llm_reply) (r : outcome node_result) (labels : list string)
    (res : node_result) :
  run (general_chat_and_section_routing OFFLINE_MODE json_loads st) replies
  = Some ((r, st'), labels) ->
  r = Ok res ->
  exists m t,
    context st' = context st ++ [m] /\ role m = "assistant"
    /\ content m = JStr t
    /\ st' = set_context (context st') (set_current_section (current_section st') st).
Proof.
  intros Hrun ->.
  destruct (wp_run _ _ _ _ _ (router_wp st) Hrun) as [[_ Hp] _].
  destruct Hp as [(res' & m & _ & Hst & Hrole & [t Ht] & _) | [Hr _]];
    [| discriminate].
  simpl in Hst.
  exists m, t. split; [by rewrite Hst |]. split; [exact Hrole |].
  split; [exact Ht |].
  rewrite Hst at 1. f_equal. by rewrite Hst.
Qed.

(** X9. After a turn of the router the current section is the one before
    the turn or one of the known section names. *)
Theorem router_section_is_known (st st' : ResumeBuilderState)
    (replies : list llm_reply) (r : outcome node_result) (labels : list string) :
  run (general_chat_and_section_routing OFFLINE_MODE json_loads st) replies
  = Some ((r, st'), labels) ->
  current_section st' = current_section st
  \/ exists s, s ∈ SECTION_NAMES /\ current_section st' = Some s.
Proof.
  intros Hrun.
  destruct (wp_run _ _ _ _ _ (router_wp st) Hrun) as [[_ Hp] _].
  destruct Hp as [(res & m & _ & _ & _ & _ & _ & Hc) | [_ Hst]];
    [exact Hc |]. simpl in Hst. left. by rewrite Hst.
Qed.

End RouterMore.

Lemma router_never_requests_fallback_witness :
  (["router"] = [] \/ ["router"] = ["router"])
  /\ forall e, (Exc AttributeError : outcome node_result) = Exc e ->
       e = AttributeError /\ new_state = new_state.
Proof.
  apply (router_never_requests_fallback false
           (fun _ => Loaded (JDict [("action", JStr "answer");
                                    ("answer", JList [JStr "hi"])]))
           new_state new_state
           [ReplyText (Some "{}")] (Exc AttributeError) ["router"]).
  reflexivity.
Defined.

Lemma router_appends_one_reply_witness :
  exists m t,
    context (set_context [undecided_reply] new_state) = context new_state ++ [m]
    /\ role m = "assistant"
    /\ content m = JStr t
    /\ set_context [undecided_reply] new_state
       = set_context (context (set_context [undecided_reply] new_state))
           (set_current_section
              (current_section (set_context [undecided_reply] new_state)) new_state).
Proof.
  apply (router_appends_one_reply false
           (fun _ => Loaded (JDict [("action", JStr "route"); ("route", JStr "hobbies")]))
           new_state (set_context [undecided_reply] new_state)
           [ReplyText (Some "{}")] (Ok (ReturnMessage undecided_reply)) ["router"]
           (ReturnMessage undecided_reply)); reflexivity.
Defined.

Lemma router_section_is_known_witness :
  current_section (set_context [undecided_reply] new_state) = current_section new_state
  \/ exists s, s ∈ SECTION_NAMES
       /\ current_section (set_context [undecided_reply] new_state) = Some s.
Proof.
  apply (router_section_is_known false
           (fun _ => Loaded (JDict [("action", JStr "route"); ("route", JStr "hobbies")]))
           new_state (set_context [undecided_reply] new_state)
           [ReplyText (Some "{}")] (Ok (ReturnMessage undecided_reply)) ["router"]).
  reflexivity.
Defined.

(** X10. Outside a section, a decision of action [route] whose route is not
    a known section name changes no section: the router answers with its
    fixed text for an undecided turn, not with the answer of the decision. *)
Theorem router_ignores_unknown_route (json_loads : string -> loads_result)
    (st : ResumeBuilderState) (t : option string) (parsed : pydict) :
  truthy_section (current_section st) = None ->
  extract_and_validate_json json_loads (default "" t) = Ok parsed ->
  dict_get "action" parsed = Some (JStr "route") ->
  (forall s, dict_get "route" parsed = Some (JStr s) -> s ∉ SECTION_NAMES) ->
  run (general_chat_and_section_routing false json_loads st) [ReplyText t]
  = Some ((Ok (ReturnMessage undecided_reply),
           set_context (context st ++ [undecided_reply]) st), ["router"]).
Proof.
  intros Hcur Hparse Hact Hroute.
  unfold general_chat_and_section_routing, call_llm_json_decision.
  unfold mbind, M_bind, get_state. simpl. rewrite Hcur. simpl.
  rewrite Hparse. simpl. rewrite Hact.
  destruct (dict_get "route" parsed) as [[| | | target | |] |] eqn:Hr; simpl;
    try reflexivity.
  rewrite bool_decide_eq_false_2; [| by apply Hroute].
  rewrite andb_false_r. reflexivity.
Qed.

Lemma router_ignores_unknown_route_witness :
  run (general_chat_and_section_routing false
         (fun _ => Loaded (JDict [("action", JStr "route"); ("route", JStr "hobbies")]))
         new_state)
      [ReplyText (Some "{}")]
  = Some ((Ok (ReturnMessage undecided_reply),
           set_context (context new_state ++ [undecided_reply]) new_state),
          ["router"]).
Proof.
  apply (router_ignores_unknown_route _ new_state (Some "{}")
           [("action", JStr "route"); ("route", JStr "hobbies")]);
    try reflexivity.
  intros s [= <-]. apply (bool_decide_unpack _). by vm_compute.
Defined.

(** X11. Outside a section, a decision of action [route] to a known section
    name makes that section current, appends the confirmation, and the
    dispatch that follows enters the node of that section, unless the turn
    came from it. *)
Theorem router_route_enters_section (json_loads : string -> loads_result)
    (st : ResumeBuilderState) (t : option string) (parsed : pydict)
    (target : string) :
  truthy_section (current_section st) = None ->
  extract_and_validate_json json_loads (default "" t) = Ok parsed ->
  dict_get "action" parsed = Some (JStr "route") ->
  dict_get "route" parsed = Some (JStr target) ->
  target ∈ SECTION_NAMES ->
  exists m st',
    run (general_chat_and_section_routing false json_loads st) [ReplyText t]
    = Some ((Ok ReturnState, st'), ["router"])
    /\ st' = set_context (context st ++ [m]) (set_current_section (Some target) st)
    /\ role m = "assistant"
    /\ (src_node st <> Some target -> route_to_section st' = Name target).
Proof.
  intros Hcur Hparse Hact Hroute Hin.
  assert (Hne : Py.is_empty target = false).
  { destruct target; [| reflexivity].
    exfalso. apply (bool_decide_pack _) in Hin. by vm_compute in Hin. }
  eexists _, _. split.
  { unfold general_chat_and_section_routing, call_llm_json_decision.
    unfold mbind, M_bind, get_state. simpl. rewrite Hcur. simpl.
    rewrite Hparse. simpl. rewrite Hact, Hroute. simpl.
    rewrite Hne, bool_decide_eq_true_2; [| exact Hin]. simpl. reflexivity. }
  split; [reflexivity |]. split; [reflexivity |].
  intros Hsrc. unfold route_to_section. simpl.
  rewrite bool_decide_eq_false_2; [| exact Hsrc].
  by rewrite bool_decide_eq_true_2.
Qed.

Lemma router_route_enters_section_witness :
  exists m st',
    run (general_chat_and_section_routing false
           (fun _ => Loaded (JDict [("action", JStr "route"); ("route", JStr "skills")]))
           new_state)
        [ReplyText (Some "{}")]
    = Some ((Ok ReturnState, st'), ["router"])
    /\ st' = set_context (context new_state ++ [m])
               (set_current_section (Some "skills") new_state)
    /\ role m = "assistant"
    /\ (src_node new_state <> Some "skills" -> route_to_section st' = Name "skills").
Proof.
  apply (router_route_enters_section _ new_state (Some "{}")
           [("action", JStr "route"); ("route", JStr "skills")] "skills");
    try reflexivity.
  apply (bool_decide_unpack _). by vm_compute.
Defined.

(** ** Offline mode *)

Create HintDb silent.
#[local] Hint Resolve silent_safe_initialize silent_reconcile : silent.

Ltac silent_go :=
  repeat first
    [ progress cbv beta iota zeta
    | silent_step
    | lazymatch goal with
      | |- silent _ => solve [eauto with silent]
      end ].

Section Offline.
Context (json_loads : string -> loads_result).

Lemma silent_initialize : silent initialize_current_answers.
Proof. unfold initialize_current_answers. silent_go. Qed.

Lemma silent_offline_gateway : silent (call_llm_json_decision true json_loads).
Proof. unfold call_llm_json_decision. silent_go. Qed.

Lemma silent_offline_update_cv_summary (s : string) (q : json) (a : list json) :
  silent (update_cv_summary true json_loads s q a).
Proof. unfold update_cv_summary. silent_go. Qed.

Hint Resolve silent_initialize silent_offline_gateway
  silent_offline_update_cv_summary : silent.

Lemma silent_offline_aggregate (s : string) :
  silent (aggregate_cv_summary true json_loads s).
Proof. unfold aggregate_cv_summary. silent_go. Qed.

Hint Resolve silent_offline_aggregate : silent.

Lemma silent_offline_apply (s : string) (c : json) :
  silent (apply_section_changes true json_loads s c).
Proof. unfold apply_section_changes. silent_go. Qed.

Hint Resolve silent_offline_apply : silent.

Lemma silent_offline_decide (u q : json) :
  silent (decide_and_reconcile true json_loads u q).
Proof. unfold decide_and_reconcile. silent_go. Qed.

Lemma silent_dispatch (sections : gmap string pydict) (parsed : pydict) :
  silent (dispatch_decision sections parsed).
Proof. unfold dispatch_decision. silent_go. Qed.

Hint Resolve silent_offline_decide silent_dispatch : silent.

Lemma silent_offline_section_turn (section : string) :
  silent (section_turn true json_loads section).
Proof. unfold section_turn. silent_go. Qed.

Hint Resolve silent_offline_section_turn : silent.

Lemma silent_answer_or_fallback (action : option json) (answer_text : json) :
  silent (answer_or_fallback action answer_text).
Proof. unfold answer_or_fallback. silent_go. Qed.

Hint Resolve silent_answer_or_fallback : silent.

Lemma silent_try_never {A : Type} (m : M A) (catches : exn -> bool)
    (h : exn -> M A) :
  (forall st, exists a st', m st = Ret (Ok a, st')) ->
  silent (try_except m catches h).
Proof.
  intros Hm st. destruct (Hm st) as (a & st' & E).
  unfold try_except. rewrite E. simpl. by eexists _, _.
Qed.

Lemma silent_offline_router :
  silent (general_chat_and_section_routing true json_loads).
Proof.
  unfold general_chat_and_section_routing.
  apply silent_bind; [apply silent_get | intros state].
  destruct (truthy_section (current_section state)); [silent_go |].
  apply silent_bind; [| intros [res | parsed]; silent_go].
  apply silent_try_never. intros st0. by eexists _, _.
Qed.

Lemma silent_offline_node (section : string) :
  silent (create_section_node true json_loads section).
Proof. unfold create_section_node. silent_go. Qed.

(** X12. In offline mode neither the router nor a section node makes a
    request to the completion service: each ends at once, whatever the
    state. *)
Theorem offline_mode_makes_no_request (section : string) (st : ResumeBuilderState) :
  (exists r st', general_chat_and_section_routing true json_loads st = Ret (r, st'))
  /\ (exists r st', create_section_node true json_loads section st = Ret (r, st')).
Proof. split; [apply silent_offline_router | apply silent_offline_node]. Qed.

End Offline.

#[local] Instance same_content_refl : Reflexive same_content.
Proof. by intros st. Qed.
#[local] Instance same_content_trans : Transitive same_content.
Proof. unfold same_content. intros a b c H1 H2. congruence. Qed.
#[local] Instance same_current_section_refl : Reflexive same_current_section.
Proof. by intros st. Qed.
#[local] Instance same_current_section_trans : Transitive same_current_section.
Proof. unfold same_current_section. intros a b c H1 H2. congruence. Qed.

Lemma keeps_silent_ret {A : Type} (R : relation ResumeBuilderState) (m : M A) :
  (forall st, exists r, m st = Ret (r, st)) -> Reflexive R -> keeps R m.
Proof. intros H HR st. destruct (H st) as [r ->]. simpl. reflexivity. Qed.

Lemma keeps_content_safe_initialize (s : string) (q : json) :
  keeps same_content (safe_initialize_answers s q).
Proof. unfold safe_initialize_answers. repeat keeps_step. Qed.

Lemma keeps_content_initialize : keeps same_content initialize_current_answers.
Proof.
  unfold initialize_current_answers. repeat keeps_step.
  apply keeps_content_safe_initialize.
Qed.

Lemma keeps_content_dispatch (sections : gmap string pydict) (parsed : pydict) :
  keeps same_content (dispatch_decision sections parsed).
Proof. unfold dispatch_decision. repeat (first [keeps_step | progress cbv zeta]). Qed.

(** In offline mode the guarded part of a section node ends at once with
    the fixed decision, and the state is the one it started from. *)
Lemma offline_decide (json_loads : string -> loads_result) (u q : json)
    (st : ResumeBuilderState) :
  decide_and_reconcile true json_loads u q st = Ret (Ok (inr offline_decision), st).
Proof.
  unfold decide_and_reconcile, try_except, call_llm_json_decision.
  unfold mbind, M_bind, mret, M_ret, get_state. simpl.
  destruct (truthy_section (current_section st)) as [s |] eqn:E; simpl.
  - unfold reconcile_answers, mbind, M_bind, get_state. simpl. by rewrite E.
  - unfold reconcile_answers, mbind, M_bind, get_state. simpl. by rewrite E.
Qed.

Lemma keeps_content_offline_turn (json_loads : string -> loads_result)
    (section : string) :
  keeps same_content (section_turn true json_loads section).
Proof.
  unfold section_turn.
  repeat (first
    [ keeps_step | progress cbv zeta
    | apply keeps_content_initialize
    | apply keeps_content_dispatch
    | apply keeps_silent_ret; [intros st0; eexists; apply offline_decide | apply _] ]).
Qed.

(** X13. In offline mode a turn of a section node never applies anything:
    the section contents, the section analyses and the CV summary are the
    ones before the turn. *)
Theorem offline_turn_keeps_content (json_loads : string -> loads_result)
    (section : string) (st : ResumeBuilderState) :
  exists r st',
    create_section_node true json_loads section st = Ret (r, st')
    /\ resume_sections st' = resume_sections st
    /\ section_objects st' = section_objects st
    /\ cv_summary st' = cv_summary st.
Proof.
  destruct (silent_offline_node json_loads section st) as (r & st' & E).
  exists r, st'. split; [exact E |].
  assert (H : keeps same_content (create_section_node true json_loads section)).
  { unfold create_section_node. apply keeps_bind; [apply _ .. | | intros _].
    - apply keeps_modify; [apply _ .. |]. intros st0. reflexivity.
    - apply keeps_content_offline_turn. }
  specialize (H st). rewrite E in H. simpl in H.
  unfold same_content in H. by injection H.
Qed.

(** ** Commands typed by the user *)

Lemma detect_direct_routing_known (text : json) (s : string) :
  detect_direct_routing text = Ok (Some s) -> s ∈ SECTION_NAMES.
Proof.
  unfold detect_direct_routing, mbind, outcome_bind.
  destruct (py_lower text) as [t | e]; [| discriminate].
  match goal with
  | |- context [List.find ?f ?l] => destruct (List.find f l) as [[k pats] |] eqn:E
  end; [| discriminate].
  intros [= <-]. apply find_some in E as [Hin _].
  simpl in Hin.
  repeat (destruct Hin as [[= <- _] | Hin];
          [apply (bool_decide_unpack _); by vm_compute |]).
  destruct Hin.
Qed.

Lemma known_section_not_empty (s : string) : s ∈ SECTION_NAMES -> Py.is_empty s = false.
Proof.
  intros H. destruct s; [| reflexivity].
  exfalso. apply (bool_decide_pack _) in H. by vm_compute in H.
Qed.

(** X14. A text that names another section with one of the fixed commands
    switches the conversation to that section without any request to the
    completion service; the node records the section it was entered with,
    appends the route message, and the dispatch that follows enters the node
    of the named section. *)
Theorem direct_command_switches_section (OFFLINE_MODE : bool)
    (json_loads : string -> loads_result) (section : string)
    (st : ResumeBuilderState) (target : string) :
  truthy (last_user_text st) = true ->
  detect_direct_routing (last_user_text st) = Ok (Some target) ->
  target <> section ->
  let m := mkMessage "assistant"
             (JStr (json_dumps (JDict [("route", JStr target);
                                       ("note", JStr "Switching section")]))) in
  let st' := set_context (context st ++ [m])
               (set_current_section (Some target)
                  (set_src_node (current_section st) st)) in
  create_section_node OFFLINE_MODE json_loads section st = Ret (Ok ReturnState, st')
  /\ target ∈ SECTION_NAMES
  /\ (current_section st <> Some target -> route_to_section st' = Name target).
Proof.
  intros Hu Hd Hne m st'.
  pose proof (detect_direct_routing_known _ _ Hd) as Hin.
  split; [| split; [exact Hin |]].
  - unfold create_section_node, section_turn.
    unfold mbind, M_bind, get_state, modify. simpl.
    change (last_user_text (set_src_node (current_section st) st))
      with (last_user_text st).
    rewrite Hu, Hd. simpl. rewrite (known_section_not_empty _ Hin).
    destruct (String.eqb_spec target section); [contradiction |]. reflexivity.
  - intros Hsrc. unfold route_to_section. simpl.
    rewrite bool_decide_eq_false_2; [| exact Hsrc].
    by rewrite bool_decide_eq_true_2.
Qed.

Lemma direct_command_switches_section_witness :
  let st := set_context [mkMessage "user" (JStr "Please go to Education now")]
              (set_current_section (Some "skills") new_state) in
  create_section_node false (fun _ => NotJson "") "skills" st
  = Ret (Ok ReturnState,
         set_context
           (context st ++
            [mkMessage "assistant"
               (JStr (json_dumps (JDict [("route", JStr "education");
                                         ("note", JStr "Switching section")])))])
           (set_current_section (Some "education")
              (set_src_node (current_section st) st))).
Proof.
  intros st.
  apply (direct_command_switches_section false (fun _ => NotJson "") "skills" st
           "education"); [reflexivity | reflexivity | discriminate].
Defined.

(** X15. A text that holds an exit phrase, and no command for another
    section, takes the conversation out of the section without any request:
    the current section becomes [None], and the dispatch that follows goes
    back to the router when the node was entered inside a section. *)
Theorem exit_phrase_leaves_section (OFFLINE_MODE : bool)
    (json_loads : string -> loads_result) (section : string)
    (st : ResumeBuilderState) (u : string) (direct : option string) :
  last_user_text st = JStr u -> u <> "" ->
  detect_direct_routing (JStr u) = Ok direct ->
  (direct = None \/ direct = Some section) ->
  Py.any_in exit_phrases (Py.lower u) = true ->
  let m := mkMessage "assistant"
             (JStr "Leaving section. Back to general analysis.") in
  let st' := set_context (context st ++ [m])
               (set_current_section None
                  (set_src_node (current_section st) st)) in
  create_section_node OFFLINE_MODE json_loads section st = Ret (Ok ReturnState, st')
  /\ (is_Some (current_section st) -> route_to_section st' = Name "general_chat").
Proof.
  intros Hu Hne Hd Hdir Hex m st'. split.
  - assert (Ht : truthy (JStr u) = true) by by destruct u.
    assert (Hleave :
      match direct with
      | Some target =>
          negb (Py.is_empty target) && negb (String.eqb target section)
      | None => false
      end = false).
    { destruct Hdir as [-> | ->]; [reflexivity |].
      by rewrite String.eqb_refl, andb_false_r. }
    unfold create_section_node, section_turn.
    unfold mbind, M_bind, get_state, modify.
    cbn -[Py.any_in detect_direct_routing Py.lower truthy].
    change (last_user_text (set_src_node (current_section st) st))
      with (last_user_text st).
    rewrite Hu, Ht, Hd.
    cbn -[Py.any_in detect_direct_routing Py.lower truthy].
    destruct direct as [target |].
    + rewrite Hleave.
      cbn -[Py.any_in detect_direct_routing Py.lower truthy].
      rewrite Hex. reflexivity.
    + cbn -[Py.any_in detect_direct_routing Py.lower truthy].
      rewrite Hex. reflexivity.
  - intros [s Hs]. unfold route_to_section. simpl. rewrite Hs.
    by rewrite bool_decide_eq_false_2.
Qed.

Lemma exit_phrase_leaves_section_witness :
  let st := set_context [mkMessage "user" (JStr "ok, back to chat please")]
              (set_current_section (Some "skills") new_state) in
  create_section_node false (fun _ => NotJson "") "skills" st
  = Ret (Ok ReturnState,
         set_context
           (context st ++
            [mkMessage "assistant"
               (JStr "Leaving section. Back to general analysis.")])
           (set_current_section None (set_src_node (current_section st) st))).
Proof.
  intros st.
  apply (exit_phrase_leaves_section false (fun _ => NotJson "") "skills" st
           "ok, back to chat please" None);
    [reflexivity | discriminate | reflexivity | by left | reflexivity].
Defined.

Lemma py_len_raises (q : json) (e : exn) : py_len q = Exc e -> e = TypeError.
Proof. destruct q; simpl; congruence. Qed.

(** The initialization of the answers ends at once; it returns the
    questions or raises the [TypeError] of [len], and touches nothing but
    the answer arrays. *)
Lemma initialize_outcome (st : ResumeBuilderState) :
  exists r st1,
    initialize_current_answers st = Ret (r, st1)
    /\ (r = Exc TypeError \/ exists q, r = Ok q)
    /\ st1 = set_recommended_answers (recommended_answers st1) st.
Proof.
  assert (Hid : st = set_recommended_answers (recommended_answers st) st)
    by by destruct st.
  unfold initialize_current_answers, mbind, M_bind, get_state. simpl.
  destruct (truthy_section (current_section st)) as [cur |];
    [| eexists _, _; split; [reflexivity |]; split; [right; by eexists | exact Hid]].
  destruct (compact_sections st !! cur) as [data |];
    [| eexists _, _; split; [reflexivity |]; split; [right; by eexists | exact Hid]].
  simpl. unfold safe_initialize_answers, mbind, M_bind, get_state. simpl.
  destruct (recommended_answers st !! cur) as [cur_answers |]; simpl;
    (destruct (py_len _) as [n | e] eqn:En; simpl;
     [| eexists _, _; split; [reflexivity |]; split; [| exact Hid];
        left; f_equal; by apply py_len_raises in En]).
  - destruct (bool_decide (length cur_answers ≠ n)); simpl;
      eexists _, _; (split; [reflexivity |]); (split; [right; by eexists |]);
      [reflexivity | exact Hid].
  - eexists _, _. split; [reflexivity |]. split; [right; by eexists | reflexivity].
Qed.

(** X16. A turn of a section node in a state without a resume schema, with
    a section current and no command in the last text of the user, raises a
    [TypeError] before any request to the completion service: no message is
    appended and no content is changed. *)
Theorem turn_without_schema_raises (OFFLINE_MODE : bool)
    (json_loads : string -> loads_result) (section : string)
    (st : ResumeBuilderState) (s u : string) (direct : option string) :
  truthy_section (current_section st) = Some s ->
  resume_schema st = None ->
  last_user_text st = JStr u ->
  detect_direct_routing (JStr u) = Ok direct ->
  (direct = None \/ direct = Some section) ->
  Py.any_in exit_phrases (Py.lower u) = false ->
  exists st',
    create_section_node OFFLINE_MODE json_loads section st = Ret (Exc TypeError, st')
    /\ context st' = context st
    /\ resume_sections st' = resume_sections st
    /\ current_section st' = current_section st.
Proof.
  intros Hcur Hschema Hu Hd Hdir Hex.
  assert (Hleave :
    match direct with
    | Some target =>
        negb (Py.is_empty target) && negb (String.eqb target section)
    | None => false
    end = false).
  { destruct Hdir as [-> | ->]; [reflexivity |].
    by rewrite String.eqb_refl, andb_false_r. }
  destruct (initialize_outcome (set_src_node (current_section st) st))
    as (r & st1 & Hinit & Hr & Hst1).
  exists st1. split.
  - unfold create_section_node, section_turn.
    unfold mbind, M_bind, get_state, modify.
    cbn -[Py.any_in detect_direct_routing Py.lower truthy initialize_current_answers].
    change (last_user_text (set_src_node (current_section st) st))
      with (last_user_text st).
    rewrite Hu.
    destruct (truthy (JStr u));
      cbn -[Py.any_in detect_direct_routing Py.lower truthy initialize_current_answers].
    + rewrite Hd.
      cbn -[Py.any_in detect_direct_routing Py.lower truthy initialize_current_answers].
      destruct direct as [target |]; [rewrite Hleave |];
        cbn -[Py.any_in detect_direct_routing Py.lower truthy initialize_current_answers];
        rewrite Hex;
        cbn -[Py.any_in detect_direct_routing Py.lower truthy initialize_current_answers];
        rewrite Hinit; destruct Hr as [-> | [q ->]];
        cbn -[Py.any_in detect_direct_routing Py.lower truthy initialize_current_answers];
        rewrite ?Hcur, ?Hschema; reflexivity.
    + rewrite Hinit. destruct Hr as [-> | [q ->]];
        cbn -[Py.any_in detect_direct_routing Py.lower truthy initialize_current_answers];
        rewrite ?Hcur, ?Hschema; reflexivity.
  - rewrite Hst1. repeat split.
Qed.

Lemma turn_without_schema_raises_witness :
  exists st',
    create_section_node false (fun _ => Loaded (JDict turn_example_decision))
      "skills" (clone_state turn_example_state)
    = Ret (Exc TypeError, st')
    /\ context st' = context (clone_state turn_example_state)
    /\ resume_sections st' = resume_sections (clone_state turn_example_state)
    /\ current_section st' = current_section (clone_state turn_example_state).
Proof.
  apply (turn_without_schema_raises false _ "skills"
           (clone_state turn_example_state) "skills" "I know Rust best" None);
    try reflexivity.
  by left.
Defined.

(** ** Exceptions inside a section node *)


Section EndsWith.
Context (P : exn -> Prop).










End EndsWith.





Section HandlerDead.
Context (OFFLINE_MODE : bool) (json_loads : string -> loads_result).




End HandlerDead.



(** ** Where a section node leaves the conversation *)

Lemma keeps_cur_safe_initialize (s : string) (q : json) :
  keeps same_current_section (safe_initialize_answers s q).
Proof. unfold safe_initialize_answers. repeat keeps_step. Qed.

Lemma keeps_cur_reconcile (parsed : pydict) (u q : json) :
  keeps same_current_section (reconcile_answers parsed u q).
Proof. unfold reconcile_answers. repeat keeps_step. Qed.

Lemma keeps_cur_initialize : keeps same_current_section initialize_current_answers.
Proof.
  unfold initialize_current_answers. repeat keeps_step.
  apply keeps_cur_safe_initialize.
Qed.

#[local] Hint Resolve keeps_cur_safe_initialize keeps_cur_reconcile
  keeps_cur_initialize : keeps.

Section KeepsCurrent.
Context (OFFLINE_MODE : bool) (json_loads : string -> loads_result).

Lemma keeps_cur_gateway :
  keeps same_current_section (call_llm_json_decision OFFLINE_MODE json_loads).
Proof. unfold call_llm_json_decision. keeps_go. Qed.

Lemma keeps_cur_update_cv_summary (s : string) (q : json) (a : list json) :
  keeps same_current_section (update_cv_summary OFFLINE_MODE json_loads s q a).
Proof. unfold update_cv_summary. keeps_go. Qed.

Hint Resolve keeps_cur_gateway keeps_cur_update_cv_summary : keeps.

Lemma keeps_cur_aggregate (s : string) :
  keeps same_current_section (aggregate_cv_summary OFFLINE_MODE json_loads s).
Proof. unfold aggregate_cv_summary. keeps_go. Qed.

Lemma keeps_cur_store_analysis (s raw : string) :
  keeps same_current_section (store_analysis json_loads s raw).
Proof. unfold store_analysis. keeps_go. Qed.

Hint Resolve keeps_cur_aggregate keeps_cur_store_analysis : keeps.

Lemma keeps_cur_apply (s : string) (c : json) :
  keeps same_current_section (apply_section_changes OFFLINE_MODE json_loads s c).
Proof. unfold apply_section_changes. keeps_go. Qed.

Hint Resolve keeps_cur_apply : keeps.

Lemma keeps_cur_decide (u q : json) :
  keeps same_current_section (decide_and_reconcile OFFLINE_MODE json_loads u q).
Proof. unfold decide_and_reconcile. keeps_go. Qed.

End KeepsCurrent.

Lemma compact_sections_is_Some (st : ResumeBuilderState) (t : string) :
  is_Some (compact_sections st !! t) <-> is_Some (section_objects st !! t).
Proof.
  unfold compact_sections. rewrite map_lookup_imap.
  destruct (section_objects st !! t); simpl; split; intros [x Hx]; by eauto.
Qed.

(** What [dispatch_decision] does to the current section, and how it can
    fail. *)
Lemma dispatch_section (sections : gmap string pydict) (parsed : pydict)
    (st : ResumeBuilderState) :
  let route := default JNull (dict_get "route" parsed) in
  let answer := default (JStr "") (dict_get "answer" parsed) in
  exists r st',
    dispatch_decision sections parsed st = Ret (r, st')
    /\ (current_section st' = current_section st
        \/ current_section st' = None
        \/ exists t, current_section st' = Some t /\ is_Some (sections !! t))
    /\ (r = Exc TypeError <->
        follows_route parsed st = true /\ hashable route = false)
    /\ (r = Exc TypeError -> st' = set_routing_attempts 0%Z st)
    /\ (r = Exc AttributeError <->
        follows_route parsed st = false /\ truthy answer = true
        /\ is_text answer = false)
    /\ (forall e, r = Exc e -> e = TypeError \/ e = AttributeError).
Proof.
  intros route answer.
  unfold dispatch_decision, follows_route.
  unfold mbind, M_bind, get_state, modify, append_new_message, append_message,
    lift, mret, M_ret.
  cbn -[truthy eq_str make_message].
  fold route. fold answer.
  destruct (truthy_section (current_section st)) as [s |] eqn:Hs.
  - destruct (eq_str (dict_get "action" parsed) "switch" && truthy route) eqn:Hf.
    + destruct route as [| b | z | t | l | kv]; cbn -[truthy eq_str];
        try destruct (bool_decide (is_Some (sections !! t))) eqn:Hin;
        cbn -[truthy eq_str];
        eexists _, _; (split; [reflexivity |]); cbn -[truthy];
        (split; [first [by left | by right; left
                       | right; right; eexists; split; [reflexivity |];
                         by apply bool_decide_eq_true_1 in Hin] |]);
        repeat split; try done; try (by intros []); try (by intros e [= <-]; left).
    + destruct (eq_str (dict_get "action" parsed) "exit");
        destruct (truthy answer) eqn:Hta;
        destruct answer; simpl in Hta; try discriminate; cbn -[truthy];
        eexists _, _; (split; [reflexivity |]); cbn -[truthy];
        (split; [first [by left | by right; left] |]);
        repeat split; try done; try (by intros []); try (by intros (? & ? & ?));
        try (by intros e [= <-]; right).
  - destruct (eq_str (dict_get "action" parsed) "route" && truthy route) eqn:Hf.
    + destruct route as [| b | z | t | l | kv]; cbn -[truthy eq_str];
        try destruct (bool_decide (is_Some (sections !! t))) eqn:Hin;
        cbn -[truthy eq_str];
        eexists _, _; (split; [reflexivity |]); cbn -[truthy];
        (split; [first [by left | by right; left
                       | right; right; eexists; split; [reflexivity |];
                         by apply bool_decide_eq_true_1 in Hin] |]);
        repeat split; try done; try (by intros []); try (by intros e [= <-]; left).
    + destruct (truthy answer) eqn:Hta;
        destruct answer; simpl in Hta; try discriminate; cbn -[truthy];
        eexists _, _; (split; [reflexivity |]); cbn -[truthy];
        (split; [first [by left | by right; left] |]);
        repeat split; try done; try (by intros []); try (by intros (? & ? & ?));
        try (by intros e [= <-]; right).
Qed.

Lemma wp_of_keeps {A : Type} (R : relation ResumeBuilderState) (m : M A)
    (st : ResumeBuilderState)
    (Q : outcome A * ResumeBuilderState -> list (string * llm_reply) -> Prop) :
  keeps R m -> (forall r tr, R st (snd r) -> Q r tr) -> wp (m st) Q.
Proof. intros Hk HQ. eapply wp_mono; [| apply Hk]. intros r tr. apply HQ. Qed.

Section Moved.
Context (OFFLINE_MODE : bool) (json_loads : string -> loads_result).

Lemma section_turn_moved (section : string) (st0 st : ResumeBuilderState) :
  current_section st = current_section st0 ->
  section_objects st = section_objects st0 ->
  wp (section_turn OFFLINE_MODE json_loads section st)
     (fun r _ => section_moved st0 (snd r)).
Proof.
  intros Hcur Hobj. unfold section_turn.
  apply wp_M_bind. cbn [get_state wp].
  match goal with |- wp ((?m ≫= _) st) _ =>
    assert (H1 : exists o st', m st = Ret (o, st')
              /\ (o <> Ok true -> st' = st)
              /\ (o = Ok true -> exists t, t ∈ SECTION_NAMES
                                  /\ current_section st' = Some t))
  end.
  { destruct (truthy (last_user_text st)); [| by eexists _, _].
    unfold mbind at 1, M_bind at 1, lift at 1.
    destruct (detect_direct_routing (last_user_text st)) as [[t |] | e] eqn:Hd;
      cbn [prog_bind]; [| by eexists _, _ | by eexists _, _].
    destruct (negb (Py.is_empty t) && negb (String.eqb t section));
      [| by eexists _, _].
    eexists _, _. split; [reflexivity |]. split; [done |]. intros _.
    exists t. split; [by eapply detect_direct_routing_known | reflexivity]. }
  destruct H1 as (o1 & st1 & E1 & Hst1 & Ht1).
  apply wp_M_bind. rewrite E1. cbn [wp].
  destruct o1 as [[|] | e1]; cbn [wp snd].
  { destruct Ht1 as (t & Hin & Ht); [done |]. right; right. by eauto. }
  2: { rewrite Hst1 by done. by left. }
  rewrite Hst1 by done. clear E1 Hst1 Ht1 st1.
  match goal with |- wp ((?m ≫= _) st) _ =>
    assert (H2 : exists o st', m st = Ret (o, st')
              /\ (o <> Ok true -> st' = st)
              /\ (o = Ok true -> current_section st' = None))
  end.
  { destruct (truthy (last_user_text st)); [| by eexists _, _].
    unfold mbind at 1, M_bind at 1, lift at 1.
    destruct (py_lower (last_user_text st)) as [t | e] eqn:Hd;
      cbn [prog_bind]; [| by eexists _, _].
    destruct (Py.any_in exit_phrases t); by eexists _, _. }
  destruct H2 as (o2 & st2 & E2 & Hst2 & Ht2).
  apply wp_M_bind. rewrite E2. cbn [wp].
  destruct o2 as [[|] | e2]; cbn [wp snd].
  { right; left. by apply Ht2. }
  2: { rewrite Hst2 by done. by left. }
  rewrite Hst2 by done. clear E2 Hst2 Ht2 st2.
  apply wp_M_bind. cbn [get_state wp].
  apply wp_M_bind. eapply wp_of_keeps; [apply keeps_cur_initialize |].
  intros [[q | e] st1] tr1 H1; cbn [snd] in H1; unfold same_current_section in H1;
    [| left; simpl; congruence].
  apply wp_M_bind.
  match goal with |- wp (?m st1) _ =>
    assert (H3 : exists o, m st1 = Ret (o, st1))
  end.
  { repeat case_match; by eexists. }
  destruct H3 as (o3 & E3). rewrite E3. cbn [wp].
  destruct o3 as [[] | e3]; [| left; simpl; congruence].
  apply wp_M_bind.
  eapply wp_of_keeps; [apply keeps_cur_decide |].
  intros [[[res | parsed] | e] st2] tr2 H2; cbn [snd] in H2;
    unfold same_current_section in H2.
  - left. simpl. congruence.
  - destruct (dispatch_section (compact_sections st) parsed st2)
      as (r & st3 & E & Hsec & _); cbv zeta in *.
    rewrite E. cbn [wp snd].
    destruct Hsec as [H | [H | (t & H & Hin)]].
    + left. congruence.
    + by right; left.
    + right; right. exists t. split; [done |]. right.
      apply compact_sections_is_Some in Hin. by rewrite <- Hobj.
  - left. simpl. congruence.
Qed.
End Moved.

(** X18. Whatever the service replies, a section node leaves the
    conversation in the section it found, in no section, in a section of
    [SECTION_NAMES], or in a section that had an analysis when the node
    started: a decision never moves it to a name outside these. *)
Theorem node_section_is_known (OFFLINE_MODE : bool)
    (json_loads : string -> loads_result) (section : string)
    (st : ResumeBuilderState) (replies : list llm_reply)
    (r : outcome node_result) (st' : ResumeBuilderState) (labels : list string) :
  run (create_section_node OFFLINE_MODE json_loads section st) replies
    = Some ((r, st'), labels) ->
  section_moved st st'.
Proof.
  intros Hrun.
  assert (Hwp : wp (create_section_node OFFLINE_MODE json_loads section st)
                   (fun r _ => section_moved st (snd r))).
  { unfold create_section_node. apply wp_M_bind. cbn [modify wp].
    eapply wp_mono; [| by apply (section_turn_moved _ _ section st)]. auto. }
  eapply wp_run in Hwp; [| exact Hrun]. exact (proj1 Hwp).
Qed.

Lemma node_section_is_known_witness :
  exists st',
    section_moved awards_state st' /\ current_section st' = Some "awards".
Proof.
  eexists. split.
  - apply (node_section_is_known false
             (fun _ => Loaded (JDict [("action", JStr "switch");
                                      ("route", JStr "awards")]))
             "skills" awards_state [ReplyText (Some "{}")] (Ok ReturnState)
             _ ["router"]).
    vm_compute. reflexivity.
  - reflexivity.
Defined.

(** X19. The last part of a section node makes no request.  It raises a
    [TypeError] exactly when the decision asks to follow a true route that
    is a list or an object: the membership test of lines 464 and 488 fails
    outside the [try] of the node, with only the routing counter reset.  It
    raises an [AttributeError] exactly when no route is followed and the
    answer of the decision is a true value that is not a text, which
    [make_message] rejects at lines 479, 483 and 503.  It raises nothing
    else. *)
Theorem dispatch_failures (sections : gmap string pydict)
    (parsed : pydict) (st : ResumeBuilderState) :
  let route := default JNull (dict_get "route" parsed) in
  let answer := default (JStr "") (dict_get "answer" parsed) in
  exists r st',
    dispatch_decision sections parsed st = Ret (r, st')
    /\ (r = Exc TypeError <->
        follows_route parsed st = true /\ hashable route = false)
    /\ (r = Exc TypeError -> st' = set_routing_attempts 0%Z st)
    /\ (r = Exc AttributeError <->
        follows_route parsed st = false /\ truthy answer = true
        /\ is_text answer = false)
    /\ (forall e, r = Exc e -> e = TypeError \/ e = AttributeError).
Proof.
  intros route answer.
  destruct (dispatch_section sections parsed st) as (r & st' & E & _ & H).
  by exists r, st'.
Qed.

(** ** The edges of the graph *)

Lemma section_edge (s : string) :
  s ∈ SECTION_NAMES ->
  edge routing_map (Name s) = Some (Name (node_name s))
  /\ edge section_routing_map (Name s) = Some (Name (node_name s)).
Proof.
  unfold SECTION_NAMES. rewrite !elem_of_cons, elem_of_nil.
  intros H. repeat destruct H as [-> | H]; try done; by vm_compute.
Qed.

(** What [route_to_section] can return. *)
Lemma route_to_section_cases (st : ResumeBuilderState) :
  route_to_section st = END
  \/ (route_to_section st = Name "general_chat" /\ current_section st = None
      /\ src_node st <> None)
  \/ exists s, route_to_section st = Name s /\ s ∈ SECTION_NAMES
       /\ current_section st = Some s.
Proof.
  unfold route_to_section. case_bool_decide as Hsrc; [by left |].
  destruct (current_section st) as [s |] eqn:Hcur.
  - case_bool_decide; [| by left]. right; right. by exists s.
  - right; left. repeat split. congruence.
Qed.

(** X20. Every marker that [route_to_section] returns has an edge out of a
    section node: the end of the turn, the router for ["general_chat"], and
    the node of the section for a section name. *)
Theorem section_node_edges_are_total (st : ResumeBuilderState) :
  exists n, edge section_routing_map (route_to_section st) = Some n
    /\ match route_to_section st with
       | END => n = END
       | Name s => if bool_decide (s ∈ SECTION_NAMES) then n = Name (node_name s)
                   else n = Name "AnalyzeUserQuery"
       | START => False
       end.
Proof.
  destruct (route_to_section_cases st) as [-> | [(-> & _) | (s & -> & Hs & _)]].
  - by exists END.
  - by exists (Name "AnalyzeUserQuery").
  - exists (Name (node_name s)). split; [by apply section_edge |].
    by rewrite bool_decide_eq_true_2.
Qed.

(** X21. The router does not touch [src_node].  When it is reached from a
    section node that left its section, and it answers without routing, the
    marker that [route_to_section] returns is ["general_chat"], for which
    [routing_map], the map of the edges that leave the router, has no
    entry; when it routes, the marker has one. *)
Theorem router_edge_after_section (OFFLINE_MODE : bool)
    (json_loads : string -> loads_result) (st : ResumeBuilderState)
    (replies : list llm_reply) (r : outcome node_result)
    (st' : ResumeBuilderState) (labels : list string) :
  run (general_chat_and_section_routing OFFLINE_MODE json_loads st) replies
    = Some ((r, st'), labels) ->
  current_section st = None -> src_node st <> None ->
  (current_section st' = None ->
     route_to_section st' = Name "general_chat"
     /\ edge routing_map (route_to_section st') = None)
  /\ (current_section st' <> None ->
        is_Some (edge routing_map (route_to_section st'))).
Proof.
  intros Hrun Hcur Hsrc.
  pose proof (router_wp OFFLINE_MODE json_loads st) as Hwp.
  eapply wp_run in Hwp; [| exact Hrun].
  destruct Hwp as [[_ Hpost] _].
  assert (Hsrc' : src_node st' = src_node st).
  { destruct Hpost as [(res & m & _ & Hst & _) | [_ Hst]]; simpl in Hst;
      by rewrite Hst. }
  split.
  - intros Hnone. unfold route_to_section. rewrite Hnone, Hsrc'.
    by rewrite bool_decide_eq_false_2.
  - intros Hsome.
    destruct (route_to_section_cases st') as [-> | [(_ & ? & _) | (s & -> & Hs & _)]];
      [by eexists | done |].
    eexists. by apply section_edge.
Qed.

Lemma router_edge_after_section_witness :
  exists st',
    ((current_section st' = None ->
        route_to_section st' = Name "general_chat"
        /\ edge routing_map (route_to_section st') = None)
     /\ (current_section st' <> None ->
           is_Some (edge routing_map (route_to_section st'))))
    /\ current_section st' = None.
Proof.
  eexists. split.
  - apply (router_edge_after_section false
             (fun _ => Loaded (JDict [("action", JStr "answer");
                                      ("answer", JStr "Hello")]))
             (set_src_node (Some "skills") new_state)
             [ReplyText (Some "{}")] (Ok (ReturnMessage (mkMessage "assistant" (JStr "Hello"))))
             _ ["router"]); [vm_compute; reflexivity | reflexivity | discriminate].
  - reflexivity.
Defined.

(** ** The keyword matches *)

(** A match names a question of the list and carries its text and a
    confidence in the interval from 0, excluded, to 1. *)
Lemma scan_questions_valid (user_words : gset string) (qs : list json)
    (idx : nat) (ms : list question_match) :
  scan_questions user_words idx qs = Ok ms ->
  Forall (fun m : question_match =>
            let '(i, text, c) := m in
            idx <= i /\ qs !! (i - idx) = Some (JStr text)
            /\ (0 < c)%Q /\ (c <= 1)%Q) ms.
Proof.
  revert idx ms. induction qs as [| q qs IH]; intros idx ms; simpl.
  { intros [= <-]. constructor. }
  unfold mbind, outcome_bind.
  destruct q as [| | | t | |]; simpl; try discriminate.
  destruct (scan_questions user_words (S idx) qs) as [tl |] eqn:Htl;
    [| discriminate].
  specialize (IH (S idx) tl Htl).
  assert (Htail : Forall (fun m : question_match =>
            let '(i, text, c) := m in
            idx <= i /\ (JStr t :: qs) !! (i - idx) = Some (JStr text)
            /\ (0 < c)%Q /\ (c <= 1)%Q) tl).
  { eapply Forall_impl; [exact IH |]. intros [[i text] c] (Hi & Hq & Hc).
    split; [lia |]. split; [| exact Hc].
    replace (i - idx) with (S (i - S idx)) by lia. exact Hq. }
  destruct (0 <? size (user_words ∩ word_set (Py.lower t))) eqn:Hpos;
    intros [= <-]; [| exact Htail].
  constructor; [| exact Htail].
  apply Nat.ltb_lt in Hpos.
  split; [lia |]. split; [by rewrite Nat.sub_diag |].
  assert (Hle : size (user_words ∩ word_set (Py.lower t))
                <= size (word_set (Py.lower t))).
  { apply subseteq_size, intersection_subseteq_r. }
  unfold Qlt, Qle. simpl.
  rewrite <- positive_nat_Z, Nat2Pos.id by lia. lia.
Qed.

Lemma insert_match_Forall (P : question_match -> Prop) (x : question_match)
    (l : list question_match) :
  P x -> Forall P l -> Forall P (insert_match x l).
Proof.
  intros Hx. induction 1 as [| y l Hy Hl IH]; simpl.
  - by repeat constructor.
  - destruct (Qle_bool _ _); by repeat constructor.
Qed.

Lemma sorted_Forall (P : question_match -> Prop) (l : list question_match) :
  Forall P l -> Forall P (sorted_by_confidence l).
Proof.
  induction 1 as [| x l Hx Hl IH]; simpl; [constructor |].
  by apply insert_match_Forall.
Qed.

(** The order of [sorted(..., reverse=True)]: no entry has a smaller
    confidence than one behind it. *)
Lemma insert_match_sorted (x : question_match) (l : list question_match) :
  StronglySorted (fun a b => (confidence b <= confidence a)%Q) l ->
  StronglySorted (fun a b => (confidence b <= confidence a)%Q) (insert_match x l).
Proof.
  induction 1 as [| y l Hs IH Hy]; simpl.
  - by repeat constructor.
  - destruct (Qle_bool (confidence y) (confidence x)) eqn:E.
    + apply Qle_bool_iff in E. constructor; [by constructor |].
      constructor; [exact E |].
      eapply Forall_impl; [exact Hy |]. intros z Hz. simpl in Hz. by eapply Qle_trans.
    + assert (Hlt : (confidence x <= confidence y)%Q).
      { apply Qnot_lt_le. intros Hlt. apply Qlt_le_weak in Hlt.
        apply Qle_bool_iff in Hlt. congruence. }
      constructor; [exact IH |].
      apply insert_match_Forall; [exact Hlt | exact Hy].
Qed.

Lemma sorted_by_confidence_sorted (l : list question_match) :
  StronglySorted (fun a b => (confidence b <= confidence a)%Q)
    (sorted_by_confidence l).
Proof.
  induction l as [| x l IH]; simpl; [constructor |].
  by apply insert_match_sorted.
Qed.

(** X22. The matches that [detect_question_matches] returns for a list of
    questions: each one names a question of the list by its index and
    carries its text and a confidence above 0 and at most 1, and no match
    has a smaller confidence than one behind it.  In particular the index
    of the best match, the one the automatic placement uses, is an index of
    the list of questions. *)
Theorem question_matches_are_valid (user_answer : json) (qs : list json)
    (ms : list question_match) :
  detect_question_matches user_answer (JList qs) = Ok ms ->
  Forall (fun m : question_match =>
            let '(i, text, c) := m in
            qs !! i = Some (JStr text) /\ (0 < c)%Q /\ (c <= 1)%Q) ms
  /\ StronglySorted (fun a b => (confidence b <= confidence a)%Q) ms.
Proof.
  unfold detect_question_matches, mbind, outcome_bind.
  destruct (py_lower user_answer) as [u |]; [| discriminate]. simpl.
  destruct (scan_questions (word_set u) 0 qs) as [l |] eqn:Hscan;
    [| discriminate].
  intros [= <-]. split; [| apply sorted_by_confidence_sorted].
  apply sorted_Forall. apply scan_questions_valid in Hscan.
  eapply Forall_impl; [exact Hscan |]. intros [[i text] c] (_ & Hq & Hc).
  by rewrite Nat.sub_0_r in Hq.
Qed.

Lemma question_matches_are_valid_witness :
  let qs := [JStr "Which Python frameworks do you use?";
             JStr "Do you know AWS or Azure?"] in
  let ms := [(1, "Do you know AWS or Azure?", (2 # 6)%Q);
             (0, "Which Python frameworks do you use?", (1 # 6)%Q)] in
  Forall (fun m : question_match =>
            let '(i, text, c) := m in
            qs !! i = Some (JStr text) /\ (0 < c)%Q /\ (c <= 1)%Q) ms
  /\ StronglySorted (fun a b => (confidence b <= confidence a)%Q) ms.
Proof.
  apply (question_matches_are_valid (JStr "I know python and aws")).
  vm_compute. reflexivity.
Defined.

(** ** The text shown to the user *)

Lemma last_assistant_message_snoc (l : list Message) (m : Message) :
  last_assistant_message (l ++ [m])
  = if String.eqb (role m) "assistant" then Some m else last_assistant_message l.
Proof. unfold last_assistant_message. by rewrite rev_unit. Qed.

Lemma last_assistant_message_none (messages : list Message) :
  Forall (fun x => role x <> "assistant") messages ->
  last_assistant_message messages = None.
Proof.
  induction messages as [| x l IH] using rev_ind; [done |].
  intros [Hl Hx]%Forall_app. rewrite last_assistant_message_snoc.
  inversion Hx as [| ? ? Hr _]; subst. apply String.eqb_neq in Hr.
  rewrite Hr. by apply IH.
Qed.

(** X23. [last_assistant_message] returns a message exactly when it is of
    the assistant and no message of the assistant comes after it in the
    list. *)
Theorem last_assistant_message_is_last (messages : list Message) (m : Message) :
  last_assistant_message messages = Some m <->
  exists before after,
    messages = before ++ m :: after
    /\ role m = "assistant"
    /\ Forall (fun x => role x <> "assistant") after.
Proof.
  induction messages as [| x l IH] using rev_ind.
  - split; [discriminate |]. intros (b & a & H & _). by destruct b.
  - rewrite last_assistant_message_snoc.
    destruct (String.eqb (role x) "assistant") eqn:E.
    + apply String.eqb_eq in E. split.
      * intros [= <-]. exists l, []. by repeat split.
      * intros (b & a & H & Hm & Ha).
        destruct a as [| y a _] using rev_ind.
        { apply app_inj_tail in H as [_ ->]. done. }
        rewrite app_comm_cons, app_assoc in H.
        apply app_inj_tail in H as [_ ->].
        apply Forall_app in Ha as [_ Ha]. by inversion Ha.
    + apply String.eqb_neq in E. rewrite IH. split.
      * intros (b & a & -> & Hm & Ha). exists b, (a ++ [x]).
        split; [by rewrite <- app_assoc |]. split; [done |].
        apply Forall_app. by repeat constructor.
      * intros (b & a & H & Hm & Ha).
        destruct a as [| y a _] using rev_ind.
        { apply app_inj_tail in H as [_ ->]. done. }
        rewrite app_comm_cons, app_assoc in H.
        apply app_inj_tail in H as [-> ->].
        exists b, a. split; [done |]. split; [done |].
        by apply Forall_app in Ha as [Ha _].
Qed.

(** X24. After a turn of the router that returns, the text extracted from
    a result whose list of messages holds no message of the assistant is
    the reply that the router appended to the context. *)
Theorem router_reply_is_extracted (OFFLINE_MODE : bool)
    (json_loads : string -> loads_result) (st : ResumeBuilderState)
    (replies : list llm_reply) (r : outcome node_result)
    (st' : ResumeBuilderState) (labels : list string) (messages : list Message)
    (res : node_result) :
  run (general_chat_and_section_routing OFFLINE_MODE json_loads st) replies
    = Some ((r, st'), labels) ->
  r = Ok res ->
  Forall (fun x => role x <> "assistant") messages ->
  exists m,
    context st' = context st ++ [m]
    /\ extract_assistant_text messages (Some st') = content m.
Proof.
  intros Hrun -> Hmsgs.
  pose proof (router_wp OFFLINE_MODE json_loads st) as Hwp.
  eapply wp_run in Hwp; [| exact Hrun].
  destruct Hwp as [[_ [(res' & m & _ & Hst & Hrole & _) | [Hr _]]] _];
    [| discriminate]. simpl in *.
  assert (Hctx : context st' = context st ++ [m]) by by rewrite Hst.
  exists m. split; [exact Hctx |].
  unfold extract_assistant_text.
  rewrite (last_assistant_message_none messages Hmsgs), Hctx.
  assert (Hlast : last_assistant_message (context st ++ [m]) = Some m).
  { rewrite last_assistant_message_snoc, Hrole. reflexivity. }
  destruct (context st ++ [m]) eqn:E; [by destruct (context st) |].
  by rewrite Hlast.
Qed.

Lemma router_reply_is_extracted_witness :
  exists m,
    context (set_context [mkMessage "assistant" (JStr "Hello")] new_state)
    = context new_state ++ [m]
    /\ extract_assistant_text [mkMessage "user" (JStr "hi")]
         (Some (set_context [mkMessage "assistant" (JStr "Hello")] new_state))
       = content m.
Proof.
  apply (router_reply_is_extracted false
           (fun _ => Loaded (JDict [("action", JStr "answer");
                                    ("answer", JStr "Hello")]))
           new_state [ReplyText (Some "{}")]
           (Ok (ReturnMessage (mkMessage "assistant" (JStr "Hello"))))
           _ ["router"] _ (ReturnMessage (mkMessage "assistant" (JStr "Hello")))).
  - vm_compute. reflexivity.
  - reflexivity.
  - repeat constructor. discriminate.
Defined.

(** ** The CV summary *)

Section Summary.
Context (OFFLINE_MODE : bool) (json_loads : string -> loads_result).

Lemma update_cv_summary_local_wp (s : string) (q : json) (a : list json)
    (st : ResumeBuilderState) :
  wp (update_cv_summary OFFLINE_MODE json_loads s q a st)
     (fun r tr =>
        snd r = st
        /\ (tr.*1 = [] \/ (OFFLINE_MODE = false /\ tr.*1 = ["cv_summary_" +:+ s]))
        /\ forall m, fst r = Ok m ->
             forall k, k <> s -> m !! k = cv_summary st !! k).
Proof.
  assert (Hexc : forall (e : exn) tr,
            tr.*1 = [] \/ (OFFLINE_MODE = false /\ tr.*1 = ["cv_summary_" +:+ s]) ->
            (fun (r : outcome (gmap string json) * ResumeBuilderState)
                 (tr : list (string * llm_reply)) =>
               snd r = st
               /\ (tr.*1 = [] \/ (OFFLINE_MODE = false /\ tr.*1 = ["cv_summary_" +:+ s]))
               /\ forall m, fst r = Ok m ->
                    forall k, k <> s -> m !! k = cv_summary st !! k)
              (Exc e, st) tr).
  { intros e tr Htr. cbn. by repeat split. }
  assert (Hsame : forall tr,
            tr.*1 = [] \/ (OFFLINE_MODE = false /\ tr.*1 = ["cv_summary_" +:+ s]) ->
            (fun (r : outcome (gmap string json) * ResumeBuilderState)
                 (tr : list (string * llm_reply)) =>
               snd r = st
               /\ (tr.*1 = [] \/ (OFFLINE_MODE = false /\ tr.*1 = ["cv_summary_" +:+ s]))
               /\ forall m, fst r = Ok m ->
                    forall k, k <> s -> m !! k = cv_summary st !! k)
              (Ok (cv_summary st), st) tr).
  { intros tr Htr. cbn. split; [done |]. split; [done |]. by intros m [= <-]. }
  assert (Hins : forall v tr,
            tr.*1 = [] \/ (OFFLINE_MODE = false /\ tr.*1 = ["cv_summary_" +:+ s]) ->
            (fun (r : outcome (gmap string json) * ResumeBuilderState)
                 (tr : list (string * llm_reply)) =>
               snd r = st
               /\ (tr.*1 = [] \/ (OFFLINE_MODE = false /\ tr.*1 = ["cv_summary_" +:+ s]))
               /\ forall m, fst r = Ok m ->
                    forall k, k <> s -> m !! k = cv_summary st !! k)
              (Ok (<[s := v]> (cv_summary st)), st) tr).
  { intros v tr Htr. cbn. split; [done |]. split; [done |].
    intros m [= <-] k Hk. by rewrite lookup_insert_ne. }
  unfold update_cv_summary.
  apply wp_M_bind; cbn [get_state wp].
  apply wp_M_bind; unfold lift at 1.
  destruct (py_iter q) as [qs | e]; cbn [wp]; [| by apply Hexc; left].
  apply wp_M_bind; unfold lift at 1.
  destruct (collect_qa 0 (zip qs a)) as [[| p ps] | e]; cbn [wp];
    [by apply Hsame; left | | by apply Hexc; left].
  apply wp_try_except.
  destruct OFFLINE_MODE.
  { by apply Hins; left. }
  apply wp_M_bind. cbn [completion wp]. intros [| t]; cbn [wp].
  { by apply Hsame; right. }
  apply wp_M_bind.
  match goal with |- wp (try_except (lift ?x) _ _ st) _ =>
    destruct x as [found | e] eqn:E
  end.
  - cbn. destruct found; cbn; (split; [done |]); (split; [by right |]);
      intros m [= <-] k Hk; by rewrite lookup_insert_ne.
  - cbn. destruct (is_JSONDecodeError e); cbn; (split; [done |]);
      (split; [by right |]); intros m [= <-] k Hk; by rewrite ?lookup_insert_ne.
Qed.
End Summary.

(** X25. [update_cv_summary] works on a copy: it leaves the state as it
    is, however it ends; it sends at most one request, and none in offline
    mode; and the summary it returns holds the entry of the state under
    every key other than the name of the section. *)
Theorem cv_summary_update_is_local (OFFLINE_MODE : bool)
    (json_loads : string -> loads_result) (s : string) (q : json)
    (a : list json) (st : ResumeBuilderState) (replies : list llm_reply)
    (r : outcome (gmap string json)) (st' : ResumeBuilderState)
    (labels : list string) :
  run (update_cv_summary OFFLINE_MODE json_loads s q a st) replies
    = Some ((r, st'), labels) ->
  st' = st
  /\ (labels = [] \/ (OFFLINE_MODE = false /\ labels = ["cv_summary_" +:+ s]))
  /\ forall m, r = Ok m -> forall k, k <> s -> m !! k = cv_summary st !! k.
Proof.
  intros Hrun.
  pose proof (update_cv_summary_local_wp OFFLINE_MODE json_loads s q a st) as Hwp.
  eapply wp_run in Hwp; [| exact Hrun].
  destruct Hwp as [(Hst & Htr & Hm) Hlen]. simpl in *.
  by rewrite fst_zip_labels in Htr.
Qed.

Lemma cv_summary_update_is_local_witness :
  let st := set_cv_summary {[ "education" := JStr "+MSc" ]} apply_example_state in
  st = st
  /\ (["cv_summary_skills"] = []
      \/ (false = false /\ ["cv_summary_skills"] = ["cv_summary_" +:+ "skills"]))
  /\ forall m, Ok (<["skills" := JStr "+Rust"]> (cv_summary st)) = Ok m ->
       forall k, k <> "skills" -> m !! k = cv_summary st !! k.
Proof.
  apply (cv_summary_update_is_local false
           (fun _ => Loaded (JDict [("section_points", JStr "+Rust")]))
           "skills" (JList [JStr "Which language do you know best?"])
           [JStr "I know Rust"]
           (set_cv_summary {[ "education" := JStr "+MSc" ]} apply_example_state)
           [ReplyText (Some "{}")]).
  vm_compute. reflexivity.
Defined.

Lemma collect_qa_blank (pairs : list (json * json)) (i : nat) :
  Forall (fun p => blank_answer (snd p) = true) pairs ->
  collect_qa i pairs = Ok [].
Proof.
  intros H. revert i. induction H as [| [question answer] pairs Hb _ IH];
    intros i; simpl; [done |].
  unfold blank_answer in Hb. simpl in Hb.
  destruct (truthy answer) eqn:Ht; simpl in Hb; [| by apply IH].
  destruct answer as [| | | t | |]; try discriminate. simpl.
  unfold mbind, outcome_bind. by rewrite IH, Hb.
Qed.

(** X26. When every answer is a false value or a text of white space only,
    [update_cv_summary] returns the summary of the state as it is and sends
    no request, in either mode. *)
Theorem blank_answers_leave_summary (OFFLINE_MODE : bool)
    (json_loads : string -> loads_result) (s : string) (qs a : list json)
    (st : ResumeBuilderState) :
  Forall (fun x => blank_answer x = true) a ->
  update_cv_summary OFFLINE_MODE json_loads s (JList qs) a st
  = Ret (Ok (cv_summary st), st).
Proof.
  intros Ha. unfold update_cv_summary.
  assert (Hq : collect_qa 0 (zip qs a) = Ok []).
  { apply collect_qa_blank. clear -Ha. revert qs.
    induction Ha as [| x a Hx _ IH]; intros [| q qs]; simpl; try constructor.
    - exact Hx.
    - apply IH. }
  unfold mbind, M_bind, get_state, lift. cbn [prog_bind py_iter].
  by rewrite Hq.
Qed.

Lemma blank_answers_leave_summary_witness :
  update_cv_summary false (fun _ => NotJson "") "skills"
    (JList [JStr "q1"; JStr "q2"; JStr "q3"]) [JStr ""; JStr "   "; JNull]
    new_state
  = Ret (Ok (cv_summary new_state), new_state).
Proof.
  apply blank_answers_leave_summary. repeat constructor.
Defined.

(** ** The answers after an apply *)

(** What [store_analysis] does to the answers of the section: nothing when
    it raises before line 232, and an array of empty texts otherwise, as
    long as the list of questions it has stored when the array is not
    empty. *)
Lemma store_analysis_answers (json_loads : string -> loads_result)
    (s raw : string) (st : ResumeBuilderState) :
  exists r st',
    store_analysis json_loads s raw st = Ret (r, st')
    /\ resume_sections st' = resume_sections st
    /\ (recommended_answers st' = recommended_answers st
        \/ exists n,
             recommended_answers st' = <[s := empty_answers n]> (recommended_answers st)
             /\ (n <> 0 ->
                 exists obj q,
                   section_objects st' !! s = Some obj
                   /\ dict_get "recommended_questions" obj = Some q
                   /\ py_len q = Ok n)).
Proof.
  assert (Htail : forall loaded : json, exists r st',
    (match loaded with
     | JDict kv =>
         let analysis_result :=
           dict_setdefault "analysis_summary" (JStr "Section updated successfully")
             (dict_setdefault "recommended_questions" (JList [])
                (dict_setdefault "missing_requirements" (JList [])
                   (dict_setdefault "alignment_score" (JInt 70) kv))) in
         alignment_score ← lift (dict_item "alignment_score" analysis_result);
         missing_requirements ←
           lift (dict_item "missing_requirements" analysis_result);
         questions ← lift (dict_item "recommended_questions" analysis_result);
         modify (fun st =>
           let old := default [] (section_objects st !! s) in
           set_section_objects
             (<[s :=
                  dict_set "last_updated" (JStr "just_now")
                    (dict_set "recommended_questions" questions
                       (dict_set "missing_requirements" missing_requirements
                          (dict_set "alignment_score" alignment_score old)))]>
                (section_objects st)) st);;
         (if truthy questions then
            n ← lift (py_len questions);
            set_answers s (empty_answers n)
          else set_answers s []);;
         lift (py_len questions);;
         mret analysis_result
     | _ => raise AttributeError
     end : M pydict) st = Ret (r, st')
    /\ resume_sections st' = resume_sections st
    /\ (recommended_answers st' = recommended_answers st
        \/ exists n,
             recommended_answers st' = <[s := empty_answers n]> (recommended_answers st)
             /\ (n <> 0 ->
                 exists obj q,
                   section_objects st' !! s = Some obj
                   /\ dict_get "recommended_questions" obj = Some q
                   /\ py_len q = Ok n))).
  { intros loaded.
    destruct loaded as [| | | | | kv]; try (by eexists _, _; eauto).
    cbv zeta.
    match goal with |- context [dict_item "alignment_score" ?x] =>
      generalize x
    end.
    intros d.
    unfold mbind, M_bind, lift, modify, set_answers, mret, M_ret.
    cbn [prog_bind].
    destruct (dict_item "alignment_score" d) as [sc |]; cbn [prog_bind];
      [| by eexists _, _; eauto].
    destruct (dict_item "missing_requirements" d) as [mr |]; cbn [prog_bind];
      [| by eexists _, _; eauto].
    destruct (dict_item "recommended_questions" d) as [q |]; cbn [prog_bind];
      [| by eexists _, _; eauto].
    destruct (truthy q) eqn:Hq; cbn [prog_bind].
    - destruct (py_len q) as [n |] eqn:Hn; cbn [prog_bind];
        [| by eexists _, _; eauto].
      eexists _, _. split; [reflexivity |]. split; [reflexivity |].
      right. exists n. split; [reflexivity |]. intros _.
      eexists _, q. cbn. rewrite lookup_insert_eq. split; [reflexivity |].
      split; [| exact Hn].
      rewrite dict_get_set_ne by done. apply dict_get_set_eq.
    - destruct (py_len q) as [n |] eqn:Hn; cbn [prog_bind];
        (eexists _, _; split; [reflexivity |]; split; [reflexivity |];
         right; exists 0; split; [reflexivity |]; done). }
  unfold store_analysis.
  unfold mbind at 1, M_bind at 1, try_except, lift at 1. cbn [prog_bind].
  match goal with |- context [match ?x with Ok _ => _ | Exc _ => _ end] =>
    destruct x as [loaded | e]
  end; cbn [prog_bind].
  - apply Htail.
  - destruct (is_JSONDecodeError e); cbn [prog_bind mret M_ret];
      [exact (Htail (JDict [])) | by eexists _, _; eauto].
Qed.

Lemma empty_answers_blank (n : nat) :
  Forall (fun x => x = JStr "") (empty_answers n) /\ length (empty_answers n) = n.
Proof.
  unfold empty_answers. split; [| apply length_replicate].
  apply Forall_forall. intros x Hx. by apply elem_of_replicate in Hx as [-> _].
Qed.

Lemma apply_answers_wp (OFFLINE_MODE : bool) (json_loads : string -> loads_result)
    (s : string) (c : json) (st : ResumeBuilderState) :
  wp (apply_section_changes OFFLINE_MODE json_loads s c st)
     (fun r _ =>
        (exists d, fst r = Ok d)
        /\ resume_sections (snd r) = <[s := c]> (resume_sections st)
        /\ exists a,
             recommended_answers (snd r) = <[s := a]> (recommended_answers st)
             /\ Forall (fun x => x = JStr "") a
             /\ (a <> [] ->
                 exists obj q,
                   section_objects (snd r) !! s = Some obj
                   /\ dict_get "recommended_questions" obj = Some q
                   /\ py_len q = Ok (length a))).
Proof.
  unfold apply_section_changes.
  apply wp_M_bind. cbn [modify wp].
  apply wp_M_bind.
  eapply wp_mono; [| apply aggregate_cv_summary_wp].
  intros r tr (m & -> & _).
  apply wp_M_bind. cbn [set_answers modify wp].
  apply wp_try_except.
  destruct OFFLINE_MODE.
  { cbn. split; [by eexists |]. split; [done |]. exists []. by repeat split. }
  apply wp_M_bind. cbn [completion wp]. intros [| t]; cbn [wp].
  { cbn. split; [by eexists |]. split; [done |]. exists []. by repeat split. }
  match goal with |- wp (store_analysis _ _ ?raw ?st2) _ =>
    destruct (store_analysis_answers json_loads s raw st2)
      as (r & st3 & E & Hrs & Hra)
  end.
  rewrite E. cbn [wp]. cbn in Hrs, Hra.
  assert (Hpost :
    resume_sections st3 = <[s := c]> (resume_sections st)
    /\ exists a,
         recommended_answers st3 = <[s := a]> (recommended_answers st)
         /\ Forall (fun x => x = JStr "") a
         /\ (a <> [] ->
             exists obj q,
               section_objects st3 !! s = Some obj
               /\ dict_get "recommended_questions" obj = Some q
               /\ py_len q = Ok (length a))).
  { split; [exact Hrs |]. destruct Hra as [Hra | (n & Hra & Hn)].
    - exists []. by repeat split.
    - exists (empty_answers n). rewrite insert_insert_eq in Hra.
      destruct (empty_answers_blank n) as [Hb Hl].
      split; [exact Hra |]. split; [exact Hb |]. rewrite Hl. intros Hne.
      apply Hn. intros ->. by apply Hne. }
  destruct r as [d | e]; cbn; (split; [by eexists | exact Hpost]).
Qed.

(** X27. However an apply ends, and whatever the service replies, it
    returns an analysis, the content of the section is the new content, and
    the answers given so far in the section are gone: the answer array of
    the section holds empty texts only, and when it is not empty it is as
    long as the list of questions that the apply has stored for the
    section. *)
Theorem apply_discards_answers (OFFLINE_MODE : bool)
    (json_loads : string -> loads_result) (s : string) (c : json)
    (st : ResumeBuilderState) (replies : list llm_reply)
    (r : outcome pydict) (st' : ResumeBuilderState) (labels : list string) :
  run (apply_section_changes OFFLINE_MODE json_loads s c st) replies
    = Some ((r, st'), labels) ->
  (exists d, r = Ok d)
  /\ resume_sections st' = <[s := c]> (resume_sections st)
  /\ exists a,
       recommended_answers st' = <[s := a]> (recommended_answers st)
       /\ Forall (fun x => x = JStr "") a
       /\ (a <> [] ->
           exists obj q,
             section_objects st' !! s = Some obj
             /\ dict_get "recommended_questions" obj = Some q
             /\ py_len q = Ok (length a)).
Proof.
  intros Hrun.
  pose proof (apply_answers_wp OFFLINE_MODE json_loads s c st) as Hwp.
  eapply wp_run in Hwp; [| exact Hrun]. exact (proj1 Hwp).
Qed.

Lemma apply_discards_answers_witness :
  exists (r : outcome pydict) (st' : ResumeBuilderState),
    ((exists d, r = Ok d)
     /\ resume_sections st'
        = <["skills" := JStr "Rust, Python"]> (resume_sections apply_example_state)
     /\ exists a,
          recommended_answers st'
          = <["skills" := a]> (recommended_answers apply_example_state)
          /\ Forall (fun x => x = JStr "") a
          /\ (a <> [] ->
              exists obj q,
                section_objects st' !! "skills" = Some obj
                /\ dict_get "recommended_questions" obj = Some q
                /\ py_len q = Ok (length a)))
    /\ recommended_answers st' !! "skills" = Some [JStr ""; JStr ""].
Proof.
  eexists _, _. split.
  - eapply (apply_discards_answers false
              (fun _ => Loaded (JDict [("section_points", JStr "+Rust");
                                       ("recommended_questions",
                                        JList [JStr "Which frameworks?";
                                               JStr "Which databases?"])]))
              "skills" (JStr "Rust, Python") apply_example_state
              [ReplyText (Some "{}"); ReplyText (Some "{}")]).
    vm_compute. reflexivity.
  - vm_compute. reflexivity.
Defined.

(** ** The history of the chat loop *)

Lemma last_drop_lt {A : Type} (n : nat) (l : list A) :
  n < length l -> last (drop n l) = last l.
Proof.
  intros H. rewrite <- (take_drop n l) at 2. rewrite last_app.
  destruct (last (drop n l)) eqn:E; [done |].
  apply last_None in E. apply (f_equal length) in E.
  rewrite length_drop in E. simpl in E. lia.
Qed.

(** X28. The history that a turn of the chat loop passes to the graph holds
    at most [MAX_MESSAGES] messages, ends with the text of the user, and is
    the end of the history with that text appended; when the history held
    at most [MAX_MESSAGES] messages before, at most one message, the
    oldest, is dropped. *)
Theorem history_stays_bounded (messages : list Message) (user_text : string) :
  let m := mkMessage "user" (JStr user_text) in
  let messages' := push_user_message messages user_text in
  length messages' <= MAX_MESSAGES
  /\ last messages' = Some m
  /\ messages' `suffix_of` messages ++ [m]
  /\ (length messages <= MAX_MESSAGES ->
      messages' = messages ++ [m] \/ messages' = drop 1 (messages ++ [m])).
Proof.
  cbv zeta. unfold push_user_message, trim_messages.
  set (m := mkMessage "user" (JStr user_text)).
  set (l := messages ++ [m]).
  assert (Hlen : length l = S (length messages)).
  { subst l. rewrite length_app. simpl. lia. }
  assert (Hlast : last l = Some m) by (subst l; apply last_snoc).
  destruct (MAX_MESSAGES <? length l) eqn:E.
  - apply Nat.ltb_lt in E. split; [| split; [| split]].
    + rewrite length_drop. unfold MAX_MESSAGES in *. lia.
    + rewrite last_drop_lt; [exact Hlast |]. unfold MAX_MESSAGES in *. lia.
    + apply suffix_drop.
    + intros Hle. right. f_equal. lia.
  - apply Nat.ltb_ge in E. split; [exact E |]. split; [exact Hlast |].
    split; [done |]. intros _. by left.
Qed.

(** ** The messages sent to the API *)

(** X29. [sanitize_messages] is idempotent: sanitizing the list it
    returns gives that list again, with no item dropped or changed. *)
Theorem sanitize_messages_idempotent (messages : json) (safe : list json) :
  sanitize_messages messages = Ok safe ->
  sanitize_messages (JList safe) = Ok safe.
Proof.
  unfold sanitize_messages.
  destruct (if truthy messages then py_iter messages else Ok []) as [items |];
    [| discriminate].
  intros [= <-]. clear messages.
  assert (H : forall l : list json,
            (if truthy (JList l) then py_iter (JList l) else Ok []) = Ok l).
  { intros l. by destruct l. }
  rewrite H. f_equal.
  induction items as [| x items IH]; [done |].
  destruct x as [| | | | | kv]; simpl; try exact IH.
  f_equal. exact IH.
Qed.

Lemma sanitize_messages_idempotent_witness :
  sanitize_messages
    (JList [JDict [("role", JStr "user"); ("content", JStr "hi")]])
  = Ok [JDict [("role", JStr "user"); ("content", JStr "hi")]].
Proof.
  apply (sanitize_messages_idempotent
           (JList [JDict [("role", JStr "user"); ("content", JStr "hi");
                          ("message_id", JInt 7)];
                   JStr "noise"])).
  reflexivity.
Defined.
